(** * Atari DOS 2.0S / 2.5 diskette access ([atr.c]): a shallow embedding

    The program reads and writes [.ATR] disk images: a 16 byte header
    followed by 128 byte sectors that are numbered from 1.  This file
    embeds the sector layer, the allocation bitmap (VTOC and VTOC2), the
    directory and the sector chains of files, and states the properties
    of the design document about them.  A second part proves further
    properties that the code shows: round trips, what an operation
    leaves alone, and how the operations compose.

    Conventions of the embedding:
    - an [unsigned char] is a [Z] in [0, 256); a store into one goes
      through [u8];
    - an array is a [list Z]; a buffer that C passes by pointer and
      updates in place is passed in and returned;
    - the disk image is the stdio stream [disk]: its bytes and its file
      position; [printf] appends to [stdout];
    - a function that can call [exit] or that loops on a sector chain
      lives in the monad [io]; chain loops take fuel. *)

From Stdlib Require Import ZArith Lia List Bool.
From stdpp Require Import base tactics option list list_numbers sorting.

Local Open Scope Z_scope.

(** ** Constants of [atr.c] *)

Definition SECTOR_SIZE : Z := 128.
Definition SD_DISK_SIZE : Z := 720.
Definition ED_DISK_SIZE : Z := 1024.
Definition SECTOR_VTOC : Z := 0x168.
Definition SECTOR_VTOC2 : Z := 0x400.
Definition SECTOR_DIR : Z := 0x169.
Definition SECTOR_DIR_SIZE : Z := 8.
Definition FLAG_DELETED : Z := 0x80.
Definition FLAG_IN_USE : Z := 0x40.
Definition ENTRY_SIZE : Z := 16.
Definition DATA_SIZE : Z := 125.
Definition DATA_FILE_NUM : nat := 125.
Definition DATA_NEXT_HIGH : nat := 125.
Definition DATA_NEXT_LOW : nat := 126.
Definition DATA_BYTES : nat := 127.
Definition VTOC_TYPE : nat := 0.
Definition VTOC_NUM_SECTS : nat := 1.
Definition VTOC_NUM_UNUSED : nat := 3.
Definition VTOC_BITMAP : nat := 10.
Definition SD_BITMAP_SIZE : nat := 90.
Definition ED_BITMAP_SIZE : nat := 128.
Definition ED_BITMAP_START : nat := 6.
Definition VTOC2_NUM_UNUSED : nat := 122.

(** ** Bytes and arrays *)

(** Conversion to [unsigned char]. *)
Definition u8 (z : Z) : Z := z mod 256.

(** [a[i]] for an array of bytes. *)
Definition byte_at (a : list Z) (i : nat) : Z := nth i a 0.

(** [memcpy (dst + off, src, length src)], inside [dst]. *)
Definition memcpy (dst : list Z) (off : nat) (src : list Z) : list Z :=
  take off dst ++ src ++ drop (off + length src) dst.

(** ** The stdio stream of the disk image *)

Record FILE := mkFILE { contents : list Z; fpos : Z }.

(** [fseek (f, off, SEEK_SET)]: a negative offset is refused and the
    position stays; any other offset is accepted, also past the end. *)
Definition fseek (f : FILE) (off : Z) : Z * FILE :=
  if off <? 0 then (-1, f) else (0, mkFILE (contents f) off).

(** [fread (buf, size, 1, f)]: transfers the bytes that are there, at
    most [size], and returns the number of complete items, 1 or 0. *)
Definition fread (buf : list Z) (size : nat) (f : FILE) : Z * list Z * FILE :=
  let got := take size (drop (Z.to_nat (fpos f)) (contents f)) in
  (if decide (length got = size) then 1 else 0,
   got ++ drop (length got) buf,
   mkFILE (contents f) (fpos f + Z.of_nat (length got))).

(** [fwrite (buf, size, 1, f)] on a stream opened ["r+"]: overwrites at
    the position, and extends the file (with a hole of zeros when the
    position is past the end). *)
Definition fwrite (buf : list Z) (size : nat) (f : FILE) : Z * FILE :=
  let p := Z.to_nat (fpos f) in
  let c := contents f ++ replicate (p - length (contents f)) 0 in
  (1, mkFILE (take p c ++ take size buf ++ drop (p + size) c)
             (fpos f + Z.of_nat size)).

(** ** Messages on standard output, one constructor for each [printf] *)

Inductive msg :=
| Oops_sector_0                       (* "Oops, requested sector 0" *)
| Checking_vtoc_count                 (* "Checking that VTOC unused count matches bitmap..." *)
| Vtoc_count_mismatch (count vtoc_count : Z)
                                      (* "  ** It doesn't match: bitmap has %d free, but VTOC count is %d" *)
| Vtoc_count_ok (count : Z)           (* "  It's OK (count is %d)" *)
| Checking_usable (expected : Z)      (* "Checking that VTOC usable sector count is %d..." *)
| Usable_wrong (found : Z)            (* "  ** It's wrong, we found: %d" *)
| Usable_ok                           (* "  It's OK" *)
| Checking_type                       (* "Checking that VTOC type code code is 2..." *)
| Type_ok                             (* "  It's OK" *)
| Type_wrong (found : Z)              (* "  ** It's wrong, we found: %d" *)
| Checking_vtoc2_count                (* "Checking that VTOC2 unused count matches bitmap..." *)
| Vtoc2_count_mismatch (count vtoc2_count : Z)
                                      (* "  ** It doesn't match: bitmap has %d free, but VTOC2 count is %d" *)
| Vtoc2_count_ok (count : Z)          (* "  It's OK (count is %d)" *)
| File_not_found (name : list Z)      (* "File '%s' not found" *)
| Error_deleting (name : list Z)      (* "Error deleting file '%s'" *)
| Not_enough_space                    (* "Not enough space" *)
| Couldnt_write_file                  (* "Couldn't write file" *)
| Couldnt_write_dir.                  (* "Couldn't write directory entry" *)

(** ** The process: disk stream, standard output, and how a call ends *)

Record world := mkWorld { disk : FILE; stdout : list msg }.

Inductive outcome (A : Type) :=
| Ret (a : A) (w : world)      (* the function returned [a] *)
| Exit (code : Z) (w : world)  (* the process called [exit (code)] *)
| Spin.                        (* the loop did not end within the fuel *)
Arguments Ret {A} a w.
Arguments Exit {A} code w.
Arguments Spin {A}.

Definition io (A : Type) : Type := world -> outcome A.

Definition ret {A} (a : A) : io A := fun w => Ret a w.

Definition bind {A B} (c : io A) (k : A -> io B) : io B :=
  fun w => match c w with
           | Ret a w' => k a w'
           | Exit code w' => Exit code w'
           | Spin => Spin
           end.

Notation "x <- c ;; k" := (bind c (fun x => k))
  (at level 100, c at next level, right associativity).
Notation "c ;;; k" := (bind c (fun _ => k))
  (at level 100, right associativity).

(** The world after one more line on standard output. *)
Definition say (w : world) (m : msg) : world := mkWorld (disk w) (stdout w ++ [m]).

Definition printf (m : msg) : io unit := fun w => Ret tt (say w m).

(** What a call returned, if it returned. *)
Definition returned {A} (o : outcome A) : option A :=
  match o with Ret a _ => Some a | _ => None end.

(** The exit code and the standard output of a call that ended the
    process. *)
Definition exited {A} (o : outcome A) : option (Z * list msg) :=
  match o with Exit code w => Some (code, stdout w) | _ => None end.

(** The world a call left behind, if it ended. *)
Definition final {A} (o : outcome A) : option world :=
  match o with Ret _ w => Some w | Exit _ w => Some w | Spin => None end.

Definition exit {A} (code : Z) : io A := fun w => Exit code w.

Definition fseek_disk (off : Z) : io Z :=
  fun w => let '(rc, f) := fseek (disk w) off in Ret rc (mkWorld f (stdout w)).

Definition fread_disk (buf : list Z) (size : nat) : io (Z * list Z) :=
  fun w => let '(n, buf', f) := fread buf size (disk w) in
           Ret (n, buf') (mkWorld f (stdout w)).

Definition fwrite_disk (buf : list Z) (size : nat) : io Z :=
  fun w => let '(n, f) := fwrite buf size (disk w) in Ret n (mkWorld f (stdout w)).

(** ** Sector access *)

(** [getsect]: the results of [fseek] and [fread] are dropped. *)
Definition getsect (buf : list Z) (sect : Z) : io (list Z) :=
  if decide (sect = 0) then
    printf Oops_sector_0 ;;; exit (-1)
  else
    let sect := sect - 1 in
    _ <- fseek_disk (sect * SECTOR_SIZE + 16) ;;
    r <- fread_disk buf (Z.to_nat SECTOR_SIZE) ;;
    ret (snd r).

(** [putsect]: the results of [fseek] and [fwrite] are dropped. *)
Definition putsect (buf : list Z) (sect : Z) : io unit :=
  if decide (sect = 0) then
    printf Oops_sector_0 ;;; exit (-1)
  else
    let sect := sect - 1 in
    _ <- fseek_disk (sect * SECTOR_SIZE + 16) ;;
    _ <- fwrite_disk buf (Z.to_nat SECTOR_SIZE) ;;
    ret tt.

(** An automatic array before its first store.  C leaves its bytes
    indeterminate; the embedding takes zeros, and the theorems that go
    through such a buffer assume the image holds the sector that is read
    into it, so that the choice never shows. *)
Definition auto_buf : list Z := replicate (Z.to_nat SECTOR_SIZE) 0.

(** ** The allocation bitmap *)

(** The masks [x = 1; x != 256; x *= 2] of [count_free]. *)
Definition bit_masks : list Z := [1; 2; 4; 8; 16; 32; 64; 128].

Definition count_byte (b : Z) : Z :=
  fold_left (fun count x => if decide (Z.land b x = 0) then count else count + 1)
            bit_masks 0.

(** [count_free (bitmap, len)]: [bitmap] is the list from the pointer on. *)
Fixpoint count_free (bitmap : list Z) (len : nat) : Z :=
  match len with
  | O => 0
  | S len' => count_byte (byte_at bitmap 0) + count_free (drop 1 bitmap) len'
  end.

(** [vtoc[i] + 256 * vtoc[i + 1]] *)
Definition le16 (a : list Z) (i : nat) : Z := byte_at a i + 256 * byte_at a (i + 1).

(** The [check] block of [getbitmap] on the VTOC. *)
Definition check_vtoc (disk_size : Z) (bitmap vtoc : list Z) : io unit :=
  let count := count_free bitmap SD_BITMAP_SIZE in
  let vtoc_count := le16 vtoc VTOC_NUM_UNUSED in
  let vtoc_total := le16 vtoc VTOC_NUM_SECTS in
  printf Checking_vtoc_count ;;;
  (if decide (count <> vtoc_count)
   then printf (Vtoc_count_mismatch count vtoc_count)
   else printf (Vtoc_count_ok count)) ;;;
  let expected_size := if decide (disk_size = ED_DISK_SIZE) then 1011 else 707 in
  printf (Checking_usable expected_size) ;;;
  (if decide (vtoc_total <> expected_size)
   then printf (Usable_wrong vtoc_total)
   else printf Usable_ok) ;;;
  printf Checking_type ;;;
  (if decide (byte_at vtoc VTOC_TYPE = 2)
   then printf Type_ok
   else printf (Type_wrong (byte_at vtoc VTOC_TYPE))).

(** The [check] block of [getbitmap] on VTOC2. *)
Definition check_vtoc2 (bitmap vtoc2 : list Z) : io unit :=
  let count := count_free (drop SD_BITMAP_SIZE bitmap) (ED_BITMAP_SIZE - SD_BITMAP_SIZE) in
  let vtoc2_count := le16 vtoc2 VTOC2_NUM_UNUSED in
  printf Checking_vtoc2_count ;;;
  (if decide (count <> vtoc2_count)
   then printf (Vtoc2_count_mismatch count vtoc2_count)
   else printf (Vtoc2_count_ok count)).

(** [memcpy (bitmap, vtoc + VTOC_BITMAP, SD_BITMAP_SIZE)] *)
Definition bitmap_of_vtoc (bitmap vtoc : list Z) : list Z :=
  memcpy bitmap 0 (take SD_BITMAP_SIZE (drop VTOC_BITMAP vtoc)).

(** [memcpy (bitmap + SD_BITMAP_SIZE, vtoc2 + (SD_BITMAP_SIZE - ED_BITMAP_START),
    ED_BITMAP_SIZE - SD_BITMAP_SIZE)] *)
Definition bitmap_of_vtoc2 (bitmap vtoc2 : list Z) : list Z :=
  memcpy bitmap SD_BITMAP_SIZE
         (take (ED_BITMAP_SIZE - SD_BITMAP_SIZE)
               (drop (SD_BITMAP_SIZE - ED_BITMAP_START) vtoc2)).

Definition getbitmap (disk_size : Z) (bitmap : list Z) (check : bool) : io (list Z) :=
  vtoc <- getsect auto_buf SECTOR_VTOC ;;
  let bitmap := bitmap_of_vtoc bitmap vtoc in
  (if check then check_vtoc disk_size bitmap vtoc else ret tt) ;;;
  if decide (disk_size = ED_DISK_SIZE) then
    vtoc2 <- getsect auto_buf SECTOR_VTOC2 ;;
    let bitmap := bitmap_of_vtoc2 bitmap vtoc2 in
    (if check then check_vtoc2 bitmap vtoc2 else ret tt) ;;;
    ret bitmap
  else ret bitmap.

(** The VTOC sector that [putbitmap] writes: the bitmap of sectors 0 to
    719 and its free count stored into the sector read. *)
Definition vtoc_of_bitmap (bitmap vtoc : list Z) : list Z :=
  let vtoc := memcpy vtoc VTOC_BITMAP (take SD_BITMAP_SIZE bitmap) in
  let count := count_free bitmap SD_BITMAP_SIZE in
  let vtoc := <[VTOC_NUM_UNUSED := u8 count]> vtoc in
  <[S VTOC_NUM_UNUSED := u8 (Z.shiftr count 8)]> vtoc.

(** The VTOC2 sector that [putbitmap] writes. *)
Definition vtoc2_of_bitmap (bitmap vtoc2 : list Z) : list Z :=
  let vtoc2 :=
    memcpy vtoc2 0 (take (ED_BITMAP_SIZE - ED_BITMAP_START) (drop ED_BITMAP_START bitmap)) in
  let count := count_free (drop SD_BITMAP_SIZE bitmap) (ED_BITMAP_SIZE - SD_BITMAP_SIZE) in
  let vtoc2 := <[VTOC2_NUM_UNUSED := u8 count]> vtoc2 in
  <[S VTOC2_NUM_UNUSED := u8 (Z.shiftr count 8)]> vtoc2.

Definition putbitmap (disk_size : Z) (bitmap : list Z) : io unit :=
  vtoc <- getsect auto_buf SECTOR_VTOC ;;
  putsect (vtoc_of_bitmap bitmap vtoc) SECTOR_VTOC ;;;
  if decide (disk_size = ED_DISK_SIZE) then
    vtoc2 <- getsect auto_buf SECTOR_VTOC2 ;;
    putsect (vtoc2_of_bitmap bitmap vtoc2) SECTOR_VTOC2
  else ret tt.

(** [1 << (7 - (x & 7))] *)
Definition bit_mask (x : Z) : Z := Z.shiftl 1 (7 - Z.land x 7).

(** [bitmap[x >> 3] & (1 << (7 - (x & 7)))], as a truth value *)
Definition bit_free (bitmap : list Z) (x : Z) : bool :=
  negb (Z.land (byte_at bitmap (Z.to_nat (Z.shiftr x 3))) (bit_mask x) =? 0).

(** [bitmap[x >> 3] &= ~(1 << (7 - (x & 7)))] *)
Definition clear_bit (bitmap : list Z) (x : Z) : list Z :=
  let i := Z.to_nat (Z.shiftr x 3) in
  <[i := u8 (Z.land (byte_at bitmap i) (Z.lnot (bit_mask x)))]> bitmap.

(** [bitmap[x >> 3] |= (1 << (7 - (x & 7)))] *)
Definition set_bit (bitmap : list Z) (x : Z) : list Z :=
  let i := Z.to_nat (Z.shiftr x 3) in
  <[i := u8 (Z.lor (byte_at bitmap i) (bit_mask x))]> bitmap.

Definition mark_space (bitmap : list Z) (start : Z) (alloc : bool) : list Z :=
  if alloc then clear_bit bitmap start else set_bit bitmap start.

(** The scan [for (x = 1; x != disk_size; ++x) if (free) break;] of
    [alloc_space], started at [x] with [n] indices left below
    [disk_size]; the result is [x] when the loop is left. *)
Fixpoint first_free (bitmap : list Z) (x : Z) (n : nat) : Z :=
  match n with
  | O => x
  | S n' => if bit_free bitmap x then x else first_free bitmap (x + 1) n'
  end.

(** [alloc_space (bitmap, list, sects)]: [lst] holds the entries stored
    through the pointer [list] so far.  The result is the return value, the
    list and the bitmap. *)
Fixpoint alloc_space (fuel : nat) (disk_size : Z) (bitmap lst : list Z) (sects : Z)
  : io (Z * list Z * list Z) :=
  match fuel with
  | O => fun _ => Spin
  | S fuel' =>
    if decide (sects = 0) then ret (0, lst, bitmap)
    else
      let x := first_free bitmap 1 (Z.to_nat (disk_size - 1)) in
      if decide (x = disk_size) then
        printf Not_enough_space ;;; ret (-1, lst, bitmap)
      else
        alloc_space fuel' disk_size (clear_bit bitmap x) (lst ++ [x]) (sects - 1)
  end.

(** ** Directory entries and names *)

(** [struct dirent], 16 bytes. *)
Record dirent := mkDirent {
  flag : Z;
  count_lo : Z;
  count_hi : Z;
  start_lo : Z;
  start_hi : Z;
  name : list Z;     (* 8 bytes *)
  suffix : list Z    (* 3 bytes *)
}.

(** [(struct dirent * )(buf + y)] *)
Definition dirent_at (buf : list Z) (y : nat) : dirent :=
  {| flag := byte_at buf y;
     count_lo := byte_at buf (y + 1);
     count_hi := byte_at buf (y + 2);
     start_lo := byte_at buf (y + 3);
     start_hi := byte_at buf (y + 4);
     name := map (fun i => byte_at buf (y + 5 + i)) (seq 0 8);
     suffix := map (fun i => byte_at buf (y + 13 + i)) (seq 0 3) |}.

(** The bytes of a [struct dirent], as [memcpy] takes them. *)
Definition dirent_bytes (d : dirent) : list Z :=
  [flag d; count_lo d; count_hi d; start_lo d; start_hi d] ++ name d ++ suffix d.

(** The offsets [y = 0; y != SECTOR_SIZE; y += ENTRY_SIZE]. *)
Definition entry_offsets : list nat := [0; 16; 32; 48; 64; 80; 96; 112]%nat.

(** The directory sectors [x = SECTOR_DIR; x != SECTOR_DIR + SECTOR_DIR_SIZE; ++x]. *)
Definition dir_sectors : list Z := seqZ SECTOR_DIR SECTOR_DIR_SIZE.

Definition lower (c : Z) : Z :=
  if (65 <=? c) && (c <=? 90) then c - 65 + 97 else c.

Definition upper (c : Z) : Z :=
  if (97 <=? c) && (c <=? 122) then c - 97 + 65 else c.

(** A C string: the characters before the first NUL. *)
Fixpoint cstring (s : list Z) : list Z :=
  match s with
  | [] => []
  | c :: s' => if decide (c = 0) then [] else c :: cstring s'
  end.

(** [while (p && s[p - 1] == ' ') --p;] *)
Fixpoint zap_spaces (s : list Z) (p : nat) : nat :=
  match p with
  | O => O
  | S p' => if decide (nth p' s 0 = 32) then zap_spaces s p' else p
  end.

(** [getname]: the static buffer [s] up to [p], then as a C string. *)
Definition getname (d : dirent) : list Z :=
  let s := map lower (name d) in
  let s := take (zap_spaces s (length s)) s in
  let s := s ++ [46] in
  let r := length s in
  let s := s ++ map lower (suffix d) in
  let s := take (zap_spaces s (length s)) s in
  let s := if decide (length s = r) then take (length s - 1) s else s in
  cstring s.

(** The copying loops of [putname]: at most [room] characters, converted
    to upper case, up to a ['.'] when [to_dot] is set; the result is the
    characters stored and the rest of the name. *)
Fixpoint copy_upper (to_dot : bool) (s : list Z) (room : nat) : list Z * list Z :=
  match room, s with
  | S room', c :: s' =>
      if to_dot && (c =? 46) then ([], s)
      else let (o, rest) := copy_upper to_dot s' room' in (u8 (upper c) :: o, rest)
  | _, _ => ([], s)
  end.

(** [while ( *name && *name != '.') ++name;] *)
Fixpoint skip_to_dot (s : list Z) : list Z :=
  match s with
  | [] => []
  | c :: s' => if decide (c = 46) then s else skip_to_dot s'
  end.

Definition pad (s : list Z) (n : nat) : list Z := s ++ replicate (n - length s) 32.

(** [putname]: the [name] and [suffix] fields it stores. *)
Definition putname (filename : list Z) : list Z * list Z :=
  let (nm, rest) := copy_upper true (cstring filename) 8 in
  let rest := skip_to_dot rest in
  let sfx := match rest with
             | c :: rest' => fst (copy_upper false rest' 3)  (* [*name == '.'] *)
             | [] => []
             end in
  (pad nm 8, pad sfx 3).

(** [(x - SECTOR_DIR) * SECTOR_SIZE / ENTRY_SIZE + (y / ENTRY_SIZE)] *)
Definition slot_number (x : Z) (y : nat) : Z :=
  Z.quot ((x - SECTOR_DIR) * SECTOR_SIZE) ENTRY_SIZE + Z.quot (Z.of_nat y) ENTRY_SIZE.

(** The inner loop of [find_empty_entry] on one directory sector. *)
Fixpoint empty_entry_in (buf : list Z) (ys : list nat) : option nat :=
  match ys with
  | [] => None
  | y :: ys' =>
      if decide (Z.land (flag (dirent_at buf y)) FLAG_IN_USE = 0) then Some y
      else empty_entry_in buf ys'
  end.

Fixpoint find_empty_entry_in (xs : list Z) (buf : list Z) : io Z :=
  match xs with
  | [] => ret (-1)
  | x :: xs' =>
      buf <- getsect buf x ;;
      match empty_entry_in buf entry_offsets with
      | Some y => ret (slot_number x y)
      | None => find_empty_entry_in xs' buf
      end
  end.

Definition find_empty_entry : io Z := find_empty_entry_in dir_sectors auto_buf.

(** [!strcmp (s, filename)] *)
Definition strcmp_eq (s filename : list Z) : bool :=
  bool_decide (cstring s = cstring filename).

(** The inner loop of [find_file] on one directory sector. *)
Fixpoint file_entry_in (buf : list Z) (filename : list Z) (ys : list nat) : option nat :=
  match ys with
  | [] => None
  | y :: ys' =>
      let d := dirent_at buf y in
      if decide (Z.land (flag d) FLAG_IN_USE = 0) then file_entry_in buf filename ys'
      else if strcmp_eq (getname d) filename then Some y
      else file_entry_in buf filename ys'
  end.

(** [(d->start_hi << 8) + d->start_lo] *)
Definition start_sector (d : dirent) : Z := Z.shiftl (start_hi d) 8 + start_lo d.

Fixpoint find_file_in (xs : list Z) (buf : list Z) (filename : list Z) (del : bool) : io Z :=
  match xs with
  | [] => ret (-1)
  | x :: xs' =>
      buf <- getsect buf x ;;
      match file_entry_in buf filename entry_offsets with
      | Some y =>
          (if del then putsect (<[y := 0x80]> buf) x else ret tt) ;;;
          ret (start_sector (dirent_at buf y))
      | None => find_file_in xs' buf filename del
      end
  end.

Definition find_file (filename : list Z) (del : bool) : io Z :=
  find_file_in dir_sectors auto_buf filename del.

(** ** Sector chains *)

(** [(int)buf[DATA_NEXT_LOW] + ((int)(0x3 & buf[DATA_NEXT_HIGH]) << 8)] *)
Definition next_sector (buf : list Z) : Z :=
  byte_at buf DATA_NEXT_LOW + Z.shiftl (Z.land 3 (byte_at buf DATA_NEXT_HIGH)) 8.

(** [((buf[DATA_FILE_NUM] >> 2) & 0x3F)] *)
Definition file_number (buf : list Z) : Z :=
  Z.land (Z.shiftr (byte_at buf DATA_FILE_NUM) 2) 0x3F.

(** [buf[DATA_BYTES]] *)
Definition bytes_used (buf : list Z) : Z := byte_at buf DATA_BYTES.

(** The line ending conversion of [read_file] on the first [bytes] bytes. *)
Definition convert_endings (buf : list Z) (bytes : nat) : list Z :=
  map (fun b => if decide (b = 0x9b) then 10 else b) (take bytes buf) ++ drop bytes buf.

(** The memory behind [buf], which [fwrite (buf, bytes, 1, f)] reaches
    when the byte count of a sector is above 128 (it can be 255).  C
    gives these bytes no value and they differ from run to run; the
    embedding takes zeros, as for [auto_buf], and the theorems about the
    bytes that are written assume counts of at most 128, so that the
    choice never shows.  (With [cvt_ending] the conversion loop of the
    source runs over these bytes as well; it leaves zeros as they
    are.) *)
Definition behind_buf : list Z := replicate 127 0.

(** The loop of [read_file]: [f] is what has been written to the stream
    so far.  The array [buf] is declared in the body of the loop and has
    the same storage in every round, so a round in which [fread]
    transfers nothing, or less than a sector, finds the bytes of the
    round before, converted in place when [cvt_ending] is set: [buf] is
    passed from round to round. *)
Fixpoint read_sectors (fuel : nat) (cvt_ending : bool) (buf : list Z) (sector : Z)
    (f : list Z) : io (list Z) :=
  match fuel with
  | O => fun _ => Spin
  | S fuel' =>
      buf <- getsect buf sector ;;
      let next := next_sector buf in
      let bytes := Z.to_nat (bytes_used buf) in
      let buf := if cvt_ending then convert_endings buf bytes else buf in
      let f := f ++ take bytes (buf ++ behind_buf) in
      if decide (next = 0) then ret f else read_sectors fuel' cvt_ending buf next f
  end.

(** [read_file (sector, f)]; [buf] is an automatic array before the
    first round. *)
Definition read_file (fuel : nat) (cvt_ending : bool) (sector : Z) (f : list Z)
  : io (list Z) :=
  read_sectors fuel cvt_ending auto_buf sector f.

(** [cat]; the result is what went to standard output through [read_file]. *)
Definition cat (fuel : nat) (cvt_ending : bool) (filename : list Z) : io (list Z) :=
  sector <- find_file filename false ;;
  if decide (sector = -1) then
    printf (File_not_found filename) ;;; exit (-1)
  else read_file fuel cvt_ending sector [].

(** The loop of [del_file], with [buf] passed from round to round as
    in [read_sectors]. *)
Fixpoint del_sectors (fuel : nat) (buf : list Z) (bitmap : list Z) (sector : Z)
  : io (list Z) :=
  match fuel with
  | O => fun _ => Spin
  | S fuel' =>
      buf <- getsect buf sector ;;
      let next := next_sector buf in
      let bitmap := mark_space bitmap sector false in
      if decide (next = 0) then ret bitmap else del_sectors fuel' buf bitmap next
  end.

(** The loop of [del_file] from its first round, where [buf] is an
    automatic array. *)
Definition del_chain (fuel : nat) (bitmap : list Z) (sector : Z) : io (list Z) :=
  del_sectors fuel auto_buf bitmap sector.

Definition del_file (fuel : nat) (disk_size : Z) (sector : Z) : io Z :=
  bitmap <- getbitmap disk_size auto_buf false ;;
  bitmap <- del_chain fuel bitmap sector ;;
  putbitmap disk_size bitmap ;;;
  ret 0.

Definition rm (fuel : nat) (disk_size : Z) (filename : list Z) (ignore : bool) : io Z :=
  first_sect <- find_file filename true ;;
  if decide (first_sect <> -1) then
    r <- del_file fuel disk_size first_sect ;;
    if decide (r <> 0) then printf (Error_deleting filename) ;;; ret (-1)
    else ret 0
  else
    (if ignore then ret tt else printf (File_not_found filename)) ;;;
    ret (-1).

(** [amount_free (bitmap)]: the walk [x = 0; x != disk_size; ++x] over
    the bits of the bitmap; [disk_size] is 720 or 1024. *)
Definition amount_free (disk_size : Z) (bitmap : list Z) : Z :=
  fold_left (fun total x => if bit_free bitmap x then total + 1 else total)
            (seqZ 0 disk_size) 0.

(** [do_free]; the result is the two numbers of the line that it prints,
    the free sectors and the free bytes.  The C function returns 0. *)
Definition do_free (disk_size : Z) : io (Z * Z) :=
  bitmap <- getbitmap disk_size auto_buf false ;;
  let amount := amount_free disk_size bitmap in
  ret (amount, amount * SECTOR_SIZE).

(** [list[x]] for the array [int list[ED_DISK_SIZE]] of [write_file],
    which [memset] fills with zeros before [alloc_space] stores into it. *)
Definition list_at (lst : list Z) (x : Z) : Z := nth (Z.to_nat x) lst 0.

(** One round of the loop of [write_file]: the sector buffer [bf] after
    the stores of round [x]. *)
Definition fill_sector (bf buf lst : list Z) (x sects file_no size : Z) : list Z :=
  let bf := memcpy bf 0 (take (Z.to_nat DATA_SIZE) (drop (Z.to_nat (DATA_SIZE * x)) buf)) in
  let bf :=
    if decide (x + 1 = sects) then
      <[DATA_BYTES := u8 size]> (<[DATA_NEXT_HIGH := 0]> (<[DATA_NEXT_LOW := 0]> bf))
    else
      <[DATA_BYTES := u8 DATA_SIZE]>
        (<[DATA_NEXT_HIGH := u8 (Z.shiftr (list_at lst (x + 1)) 8)]>
           (<[DATA_NEXT_LOW := u8 (list_at lst (x + 1))]> bf)) in
  <[DATA_FILE_NUM := u8 (Z.lor (byte_at bf DATA_FILE_NUM) (Z.shiftl file_no 2))]> bf.

(** [for (x = ...; x != sects; ++x)] of [write_file], with [n] rounds left. *)
Fixpoint write_sectors (n : nat) (bf buf lst : list Z) (x sects file_no size : Z) : io unit :=
  match n with
  | O => ret tt
  | S n' =>
      let bf := fill_sector bf buf lst x sects file_no size in
      putsect bf (list_at lst x) ;;;
      write_sectors n' bf buf lst (x + 1) sects file_no (size - DATA_SIZE)
  end.

(** [write_file]; the result is the return value and the bitmap, which
    [alloc_space] updates in place for the caller. *)
Definition write_file (fuel : nat) (disk_size : Z) (bitmap buf : list Z)
    (sects file_no size : Z) : io (Z * list Z) :=
  r <- alloc_space fuel disk_size bitmap [] sects ;;
  let '(rc, lst, bitmap) := r in
  if decide (rc <> 0) then ret (-1, bitmap)
  else
    write_sectors (Z.to_nat sects) auto_buf buf lst 0 sects file_no size ;;;
    ret (list_at lst 0, bitmap).

Definition write_dir (file_no : Z) (filename : list Z) (first_sect sects : Z) : io Z :=
  let (nm, sfx) := putname filename in
  let d := {| flag := FLAG_IN_USE;
              count_lo := u8 sects;
              count_hi := u8 (Z.shiftr sects 8);
              start_lo := u8 first_sect;
              start_hi := u8 (Z.shiftr first_sect 8);
              name := nm;
              suffix := sfx |} in
  let sect := SECTOR_DIR + Z.quot file_no (Z.quot SECTOR_SIZE ENTRY_SIZE) in
  dir_buf <- getsect auto_buf sect ;;
  let dir_buf :=
    memcpy dir_buf (Z.to_nat (ENTRY_SIZE * Z.rem file_no (Z.quot SECTOR_SIZE ENTRY_SIZE)))
           (dirent_bytes d) in
  putsect dir_buf sect ;;;
  ret 0.

(** The last part of [put_file], from "Allocate space and write file" on. *)
Definition put_file_write (fuel : nat) (disk_size : Z) (bitmap buf : list Z)
    (atari_name : list Z) (file_no sects size : Z) : io Z :=
  r <- write_file fuel disk_size bitmap buf sects file_no size ;;
  let '(first_sect, bitmap) := r in
  if decide (first_sect = -1) then
    printf Couldnt_write_file ;;; ret (-1)
  else
    rc <- write_dir file_no atari_name first_sect sects ;;
    if decide (rc <> 0) then
      printf Couldnt_write_dir ;;; ret (-1)
    else
      putbitmap disk_size bitmap ;;; ret 0.

(** [put_file], from the point where the local file has been read:
    [data] is its content, [size] its length. *)
Definition put_file (fuel : nat) (disk_size : Z) (data : list Z) (atari_name : list Z) : io Z :=
  let size := Z.of_nat (length data) in
  let up := size + DATA_SIZE - 1 in
  let up := up - Z.rem up DATA_SIZE in
  let buf := data ++ replicate (Z.to_nat (up - size)) 0 in
  _ <- rm fuel disk_size atari_name true ;;
  bitmap <- getbitmap disk_size auto_buf false ;;
  file_no <- find_empty_entry ;;
  if decide (file_no = -1) then ret (-1)
  else put_file_write fuel disk_size bitmap buf atari_name file_no (Z.quot up DATA_SIZE) size.

(** The check of the image size in [main]. *)
Definition geometry (size : Z) : option Z :=
  if decide (size - 16 = 40 * 18 * 128) then Some SD_DISK_SIZE
  else if decide (size - 16 = 40 * 26 * 128) then Some ED_DISK_SIZE
  else None.

(** ** Images used as concrete inputs *)

(** The bitmap of a freshly formatted single density diskette: sectors
    0 to 3 and 360 to 368 in use, all others free. *)
Definition fresh_bitmap_sd : list Z :=
  [0x0F] ++ replicate 44 0xFF ++ [0x00; 0x7F] ++ replicate 43 0xFF.

(** Its VTOC: type code 2, 707 usable sectors, 707 free. *)
Definition fresh_vtoc_sd : list Z :=
  [2; 0xC3; 0x02; 0xC3; 0x02; 0; 0; 0; 0; 0] ++ fresh_bitmap_sd ++ replicate 28 0.

(** A formatted single density image with an empty directory. *)
Definition fresh_image_sd : list Z :=
  replicate 16 0 ++ replicate (359 * 128) 0 ++ fresh_vtoc_sd ++ replicate (360 * 128) 0.

(** The process when [main] has opened the image and found its size:
    the stream is at the end of the file and nothing is printed yet. *)
Definition boot (image : list Z) : world :=
  mkWorld (mkFILE image (Z.of_nat (length image))) [].

Definition fresh_sd : world := boot fresh_image_sd.

(** ** Views used to state the properties *)

(** The free sector numbers that the scan of [alloc_space] can reach,
    in the order of the scan. *)
Definition free_indices (disk_size : Z) (bitmap : list Z) : list Z :=
  filter (fun x => bit_free bitmap x = true) (seqZ 1 (disk_size - 1)).

(** The bytes of the image file behind [disk]. *)
Definition image (w : world) : list Z := contents (disk w).

(** Where sector [sect] starts in the image: [(sect - 1) * SECTOR_SIZE + 16]. *)
Definition sector_offset (sect : Z) : nat := Z.to_nat ((sect - 1) * SECTOR_SIZE + 16).

(** The 128 bytes of sector [sect]. *)
Definition sector_of (img : list Z) (sect : Z) : list Z :=
  take (Z.to_nat SECTOR_SIZE) (drop (sector_offset sect) img).

(** Sector [sect] exists and lies inside the image. *)
Definition in_image (img : list Z) (sect : Z) : Prop :=
  1 <= sect /\ (sector_offset sect + Z.to_nat SECTOR_SIZE <= length img)%nat.

(** The image with sector [sect] replaced by [buf]. *)
Definition store_sector (img : list Z) (sect : Z) (buf : list Z) : list Z :=
  memcpy img (sector_offset sect) buf.

(** What the [check] block of [getbitmap] prints on the VTOC. *)
Definition vtoc_report (disk_size : Z) (bitmap vtoc : list Z) : list msg :=
  let count := count_free bitmap SD_BITMAP_SIZE in
  let expected_size := if decide (disk_size = ED_DISK_SIZE) then 1011 else 707 in
  [ Checking_vtoc_count;
    if decide (count <> le16 vtoc VTOC_NUM_UNUSED)
    then Vtoc_count_mismatch count (le16 vtoc VTOC_NUM_UNUSED) else Vtoc_count_ok count;
    Checking_usable expected_size;
    if decide (le16 vtoc VTOC_NUM_SECTS <> expected_size)
    then Usable_wrong (le16 vtoc VTOC_NUM_SECTS) else Usable_ok;
    Checking_type;
    if decide (byte_at vtoc VTOC_TYPE = 2) then Type_ok else Type_wrong (byte_at vtoc VTOC_TYPE) ].

(** What it prints on VTOC2. *)
Definition vtoc2_report (bitmap vtoc2 : list Z) : list msg :=
  let count := count_free (drop SD_BITMAP_SIZE bitmap) (ED_BITMAP_SIZE - SD_BITMAP_SIZE) in
  [ Checking_vtoc2_count;
    if decide (count <> le16 vtoc2 VTOC2_NUM_UNUSED)
    then Vtoc2_count_mismatch count (le16 vtoc2 VTOC2_NUM_UNUSED) else Vtoc2_count_ok count ].

(** The world with more lines on standard output. *)
Definition says (w : world) (out : list msg) : world := mkWorld (disk w) (stdout w ++ out).

(** A formatted enhanced density image with an empty directory: the
    VTOC shows 1011 usable sectors, VTOC2 repeats bitmap bytes 6 to 89
    and shows sectors 720 to 1023 free, a count of 304. *)
Definition fresh_vtoc_ed : list Z :=
  [2; 0xF3; 0x03; 0xC3; 0x02; 0; 0; 0; 0; 0] ++ fresh_bitmap_sd ++ replicate 28 0.

Definition fresh_vtoc2_ed : list Z :=
  drop 6 fresh_bitmap_sd ++ replicate 38 0xFF ++ [0x30; 0x01; 0; 0; 0; 0].

Definition fresh_image_ed : list Z :=
  replicate 16 0 ++ replicate (359 * 128) 0 ++ fresh_vtoc_ed ++
  replicate (663 * 128) 0 ++ fresh_vtoc2_ed ++ replicate (16 * 128) 0.

Definition fresh_ed : world := boot fresh_image_ed.

(** [fresh_ed] with the first 84 bytes of VTOC2 overwritten by 0xAA. *)
Definition scribbled_image_ed : list Z :=
  replicate 16 0 ++ replicate (359 * 128) 0 ++ fresh_vtoc_ed ++
  replicate (663 * 128) 0 ++ (replicate 84 0xAA ++ drop 84 fresh_vtoc2_ed) ++
  replicate (16 * 128) 0.

Definition scribbled_ed : world := boot scribbled_image_ed.

(** A bitmap that wrongly shows sector 0 and every other sector free. *)
Definition all_free_bitmap : list Z := replicate 128 0xFF.

(** The directory sectors lie in the image. *)
Definition dir_present (img : list Z) : Prop :=
  in_image img (SECTOR_DIR + SECTOR_DIR_SIZE - 1).

(** The 64 directory slots in the order in which [find_file] and
    [find_empty_entry] visit them: directory sector, then offset in the
    sector.  The slot number is the position in this list. *)
Definition dir_slots : list (Z * nat) :=
  x ← dir_sectors; (pair x <$> entry_offsets).

(** The entry stored in a slot. *)
Definition entry (img : list Z) (s : Z * nat) : dirent :=
  dirent_at (sector_of img (fst s)) (snd s).

(** [d->flag & FLAG_IN_USE] *)
Definition in_use (d : dirent) : Prop := Z.land (flag d) FLAG_IN_USE <> 0.

(** The test of [find_file] on an entry: in use, and [getname] gives
    exactly the name asked for. *)
Definition names_file (filename : list Z) (d : dirent) : Prop :=
  in_use d /\ getname d = cstring filename.

#[local] Instance in_use_dec d : Decision (in_use d).
Proof. unfold in_use. apply _. Defined.

#[local] Instance names_file_dec filename d : Decision (names_file filename d).
Proof. unfold names_file. apply _. Defined.

(** An upper-case letter, ['A'] to ['Z']. *)
Definition is_upper (c : Z) : Prop := 65 <= c <= 90.

(** A single density image with one file, [TEST.TXT], of three bytes in
    sector 4: slot 0 of the directory holds flag 0x42, one sector,
    start sector 4 and the name ["TEST    TXT"]. *)
Definition test_txt_entry : list Z :=
  [0x42; 1; 0; 4; 0; 84; 69; 83; 84; 32; 32; 32; 32; 84; 88; 84].

Definition test_txt_data : list Z := [97; 98; 99] ++ replicate 122 0 ++ [0; 0; 3].

Definition one_file_vtoc_sd : list Z :=
  [2; 0xC3; 0x02; 0xC2; 0x02; 0; 0; 0; 0; 0] ++ [0x07] ++ drop 1 fresh_bitmap_sd
  ++ replicate 28 0.

Definition one_file_image_sd : list Z :=
  replicate 16 0 ++ replicate (3 * 128) 0 ++ test_txt_data ++ replicate (355 * 128) 0 ++
  one_file_vtoc_sd ++ (test_txt_entry ++ replicate 112 0) ++ replicate (359 * 128) 0.

Definition one_file_sd : world := boot one_file_image_sd.

(** The names ["test.txt"], ["TEST.TXT"] and ["Test.txt"]. *)
Definition test_txt : list Z := [116; 101; 115; 116; 46; 116; 120; 116].
Definition TEST_TXT : list Z := [84; 69; 83; 84; 46; 84; 88; 84].
Definition Test_txt : list Z := [84; 101; 115; 116; 46; 116; 120; 116].

(** A data sector as [write_file] lays it out: 125 bytes of content,
    then the file number over the two high bits of the next sector
    number, the low byte of the next sector number, and the count of
    bytes used. *)
Definition data_sector (content : list Z) (file_no next count : Z) : list Z :=
  content ++
  [u8 (Z.lor (u8 (Z.shiftr next 8)) (Z.shiftl file_no 2)); u8 next; u8 count].

(** The check that [main] makes before any command: the image has the
    size of the geometry [disk_size]. *)
Definition volume_ok (disk_size : Z) (img : list Z) : Prop :=
  geometry (Z.of_nat (length img)) = Some disk_size.

(** The bitmap that [getbitmap] reads from an image into a fresh array. *)
Definition disk_bitmap (disk_size : Z) (img : list Z) : list Z :=
  let bitmap := bitmap_of_vtoc auto_buf (sector_of img SECTOR_VTOC) in
  if decide (disk_size = ED_DISK_SIZE)
  then bitmap_of_vtoc2 bitmap (sector_of img SECTOR_VTOC2)
  else bitmap.

(** The directory entry that [write_dir] builds. *)
Definition new_dirent (filename : list Z) (first_sect sects : Z) : dirent :=
  {| flag := FLAG_IN_USE;
     count_lo := u8 sects;
     count_hi := u8 (Z.shiftr sects 8);
     start_lo := u8 first_sect;
     start_hi := u8 (Z.shiftr first_sect 8);
     name := fst (putname filename);
     suffix := snd (putname filename) |}.

(** [up / DATA_SIZE] in [put_file]: the number of sectors for [size] bytes. *)
Definition sectors_for (size : Z) : Z :=
  let up := size + DATA_SIZE - 1 in
  Z.quot (up - Z.rem up DATA_SIZE) DATA_SIZE.

(** The buffer of [put_file]: the data, filled with NULs to the end of
    the last sector. *)
Definition padded (data : list Z) : list Z :=
  data ++ replicate (Z.to_nat (DATA_SIZE * sectors_for (Z.of_nat (length data))
                               - Z.of_nat (length data))) 0.

(** 90000 bytes: more than the 707 data sectors of a single density
    diskette hold. *)
Definition big_file : list Z := replicate (Z.to_nat 90000) 0.

(** A name that the directory gives back as it was given: [getname] of
    the entry that [putname] stores is the name itself. *)
Definition canonical_name (filename : list Z) : Prop :=
  getname (new_dirent filename 0 0) = cstring filename.

(** The VTOC and the directory sectors, 360 to 368. *)
Definition metadata_sector (s : Z) : Prop :=
  SECTOR_VTOC <= s <= SECTOR_DIR + SECTOR_DIR_SIZE - 1.

#[local] Instance metadata_sector_dec s : Decision (metadata_sector s).
Proof. unfold metadata_sector. apply _. Defined.

(** ** Views used for the further properties *)

(** The bytes of the image that hold the allocation bitmap and its free
    counts: bytes 3, 4 and 10 to 99 of the VTOC and, on an enhanced
    density diskette, bytes 0 to 123 of VTOC2. *)
Definition bitmap_byte (disk_size : Z) (i : nat) : Prop :=
  (sector_offset SECTOR_VTOC + 3 <= i < sector_offset SECTOR_VTOC + 5)%nat \/
  (sector_offset SECTOR_VTOC + 10 <= i < sector_offset SECTOR_VTOC + 100)%nat \/
  (disk_size = ED_DISK_SIZE /\
   (sector_offset SECTOR_VTOC2 <= i < sector_offset SECTOR_VTOC2 + 124)%nat).

(** A call that leaves the bytes of the image as they were, however it
    ends. *)
Definition keeps_image {A} (c : io A) : Prop :=
  forall w w', final (c w) = Some w' -> image w' = image w.

(** The sector that follows [s] in a chain, as [read_file] and
    [del_file] take it from the trailer of [s]. *)
Definition chain_next (img : list Z) (s : Z) : Z := next_sector (sector_of img s).

(** [one_file_sd] with the chain of [TEST.TXT] closed on itself: the
    trailer of sector 4 names sector 4 as the next one. *)
Definition looping_data : list Z := [97; 98; 99] ++ replicate 122 0 ++ [0; 4; 3].

Definition looping_image_sd : list Z :=
  replicate 16 0 ++ replicate (3 * 128) 0 ++ looping_data ++ replicate (355 * 128) 0 ++
  one_file_vtoc_sd ++ (test_txt_entry ++ replicate 112 0) ++ replicate (359 * 128) 0.

Definition looping_sd : world := boot looping_image_sd.

(** [one_file_sd] with a sector 4 whose trailer holds 0x9b, 0, 126: the
    next sector is 768, behind the end of the image, and the byte count
    126 reaches byte 125, the high bits of the next sector number. *)
Definition stale_data : list Z := replicate 125 0 ++ [0x9b; 0; 126].

Definition stale_image_sd : list Z :=
  replicate 16 0 ++ replicate (3 * 128) 0 ++ stale_data ++ replicate (355 * 128) 0 ++
  one_file_vtoc_sd ++ (test_txt_entry ++ replicate 112 0) ++ replicate (359 * 128) 0.

Definition stale_sd : world := boot stale_image_sd.

(** The sectors that [bitmap] shows free together with those of the
    chain [old], in the order of the scan of [alloc_space]: what the
    scan finds once [del_file] has freed the chain. *)
Definition free_or_old (disk_size : Z) (bitmap old : list Z) : list Z :=
  filter (fun x => bit_free bitmap x = true \/ x ∈ old) (seqZ 1 (disk_size - 1)).

(** The sectors that [read_file] visits from sector [s] on: the chain
    up to the end mark, as far as the fuel goes. *)
Fixpoint chain_sectors (fuel : nat) (img : list Z) (s : Z) : list Z :=
  match fuel with
  | O => []
  | S fuel' =>
      s :: (if decide (chain_next img s = 0) then []
            else chain_sectors fuel' img (chain_next img s))
  end.

(** A character that a directory entry gives back as it was stored: a
    byte other than NUL, space and ['.'] that is not an upper-case
    letter. *)
Definition plain_char (c : Z) : Prop :=
  0 < c < 256 /\ c <> 32 /\ c <> 46 /\ ~ is_upper c.

(** ** Tactics *)

(** Membership in a list that is written out. *)
Ltac in_list :=
  rewrite ?elem_of_app, ?elem_of_cons;
  let rec go := first [reflexivity | left; go | right; go] in go.

Ltac not_in_list :=
  rewrite ?not_elem_of_app, ?not_elem_of_cons;
  repeat split; try apply not_elem_of_nil; repeat case_decide; discriminate.

(** * Properties *)

(** ** Bits of the bitmap *)

Lemma land_7_range x : 0 <= Z.land x 7 <= 7.
Proof.
  change (Z.land x 7) with (Z.land x (Z.ones 3)). rewrite Z.land_ones by lia.
  change (2 ^ 3) with 8. pose proof (Z.mod_pos_bound x 8). lia.
Qed.

Lemma bit_mask_pow2 x : bit_mask x = 2 ^ (7 - Z.land x 7).
Proof. unfold bit_mask. apply Z.shiftl_1_l. Qed.

Lemma land_pow2_eq0 b k : 0 <= k -> (Z.land b (2 ^ k) =? 0) = negb (Z.testbit b k).
Proof.
  intros Hk. destruct (Z.testbit b k) eqn:Hb; simpl.
  - apply Z.eqb_neq. intros H0.
    assert (Z.testbit (Z.land b (2 ^ k)) k = false) as Hf by (rewrite H0; apply Z.bits_0).
    rewrite Z.land_spec, Hb, Z.pow2_bits_true in Hf by lia. discriminate.
  - apply Z.eqb_eq. apply Z.bits_inj'. intros n Hn.
    rewrite Z.land_spec, Z.bits_0, Z.pow2_bits_eqb by lia.
    destruct (Z.eqb_spec k n) as [->|]; [by rewrite Hb|apply andb_false_r].
Qed.

Lemma bit_free_testbit bitmap x :
  bit_free bitmap x =
  Z.testbit (byte_at bitmap (Z.to_nat (Z.shiftr x 3))) (7 - Z.land x 7).
Proof.
  unfold bit_free. pose proof (land_7_range x).
  rewrite bit_mask_pow2, land_pow2_eq0 by lia. apply negb_involutive.
Qed.

Lemma u8_testbit z j : 0 <= j < 8 -> Z.testbit (u8 z) j = Z.testbit z j.
Proof. intros. unfold u8. change 256 with (2 ^ 8). apply Z.mod_pow2_bits_low. lia. Qed.


Lemma u8_small z : 0 <= z < 256 -> u8 z = z.
Proof. intros. unfold u8. apply Z.mod_small. lia. Qed.

Lemma byte_at_insert_eq (a : list Z) i v :
  (i < length a)%nat -> byte_at (<[i := v]> a) i = v.
Proof.
  intros Hi. unfold byte_at. apply nth_lookup_Some. by apply list_lookup_insert_eq.
Qed.

Lemma byte_at_insert_ne (a : list Z) i j v :
  i <> j -> byte_at (<[i := v]> a) j = byte_at a j.
Proof.
  intros Hij. unfold byte_at. rewrite !nth_lookup. by rewrite list_lookup_insert_ne.
Qed.

Lemma byte_at_ge (a : list Z) i : (length a <= i)%nat -> byte_at a i = 0.
Proof. intros. unfold byte_at. by apply nth_overflow. Qed.

Lemma bit_position_inj x y :
  0 <= x -> 0 <= y ->
  Z.to_nat (Z.shiftr x 3) = Z.to_nat (Z.shiftr y 3) -> Z.land x 7 = Z.land y 7 -> x = y.
Proof.
  intros Hx Hy. rewrite !Z.shiftr_div_pow2 by lia.
  change 7 with (Z.ones 3). rewrite !Z.land_ones by lia.
  change (2 ^ 3) with 8. intros Hd Hm.
  pose proof (Z.div_mod x 8). pose proof (Z.div_mod y 8).
  assert (0 <= x / 8) by (apply Z.div_pos; lia).
  assert (0 <= y / 8) by (apply Z.div_pos; lia).
  assert (x / 8 = y / 8) by lia. lia.
Qed.

Lemma bit_free_clear_eq bitmap x : bit_free (clear_bit bitmap x) x = false.
Proof.
  rewrite bit_free_testbit. unfold clear_bit.
  pose proof (land_7_range x).
  destruct (decide (Z.to_nat (Z.shiftr x 3) < length bitmap)%nat).
  - rewrite byte_at_insert_eq by done.
    rewrite u8_testbit, Z.land_spec, Z.lnot_spec, bit_mask_pow2 by lia.
    rewrite Z.pow2_bits_true by lia. apply andb_false_r.
  - rewrite byte_at_ge; [apply Z.bits_0|]. rewrite length_insert. lia.
Qed.

Lemma bit_free_clear_ne bitmap x y :
  0 <= x -> 0 <= y -> x <> y -> bit_free (clear_bit bitmap x) y = bit_free bitmap y.
Proof.
  intros Hx Hy Hxy. rewrite !bit_free_testbit. unfold clear_bit.
  pose proof (land_7_range x). pose proof (land_7_range y).
  destruct (decide (Z.to_nat (Z.shiftr x 3) = Z.to_nat (Z.shiftr y 3))) as [Hi|Hi].
  - rewrite Hi.
    destruct (decide (Z.to_nat (Z.shiftr y 3) < length bitmap)%nat).
    + rewrite byte_at_insert_eq by done.
      rewrite u8_testbit, Z.land_spec, Z.lnot_spec, bit_mask_pow2 by lia.
      rewrite Z.pow2_bits_false; [apply andb_true_r|].
      intros Hk. apply Hxy, bit_position_inj; [done..|lia].
    + rewrite list_insert_ge by lia. done.
  - by rewrite byte_at_insert_ne.
Qed.

Lemma bit_free_set_eq bitmap x :
  (Z.to_nat (Z.shiftr x 3) < length bitmap)%nat -> bit_free (set_bit bitmap x) x = true.
Proof.
  intros Hi. rewrite bit_free_testbit. unfold set_bit.
  pose proof (land_7_range x).
  rewrite byte_at_insert_eq by done.
  rewrite u8_testbit, Z.lor_spec, bit_mask_pow2 by lia.
  rewrite Z.pow2_bits_true by lia. apply orb_true_r.
Qed.

Lemma bit_free_set_ne bitmap x y :
  0 <= x -> 0 <= y -> x <> y -> bit_free (set_bit bitmap x) y = bit_free bitmap y.
Proof.
  intros Hx Hy Hxy. rewrite !bit_free_testbit. unfold set_bit.
  pose proof (land_7_range x). pose proof (land_7_range y).
  destruct (decide (Z.to_nat (Z.shiftr x 3) = Z.to_nat (Z.shiftr y 3))) as [Hi|Hi].
  - rewrite Hi.
    destruct (decide (Z.to_nat (Z.shiftr y 3) < length bitmap)%nat).
    + rewrite byte_at_insert_eq by done.
      rewrite u8_testbit, Z.lor_spec, bit_mask_pow2 by lia.
      rewrite Z.pow2_bits_false; [apply orb_false_r|].
      intros Hk. apply Hxy, bit_position_inj; [done..|lia].
    + rewrite list_insert_ge by lia. done.
  - by rewrite byte_at_insert_ne.
Qed.

(** ** [alloc_space] *)

Lemma first_free_filter bitmap n x :
  first_free bitmap x n =
  match filter (fun x => bit_free bitmap x = true) (seqZ x (Z.of_nat n)) with
  | y :: _ => y
  | [] => x + Z.of_nat n
  end.
Proof.
  revert x. induction n as [|n IH]; intros x.
  - simpl. lia.
  - rewrite seqZ_cons by lia. cbn [first_free]. rewrite filter_cons.
    replace (Z.pred (Z.of_nat (S n))) with (Z.of_nat n) by lia.
    destruct (bit_free bitmap x) eqn:Hx.
    + rewrite decide_True by done. done.
    + rewrite decide_False by done.
      rewrite IH. change (Z.succ x) with (x + 1).
      destruct (filter _ _); [lia|done].
Qed.

Lemma filter_agree (P Q : Z -> Prop) `{!forall x, Decision (P x)} `{!forall x, Decision (Q x)}
    (l : list Z) :
  Forall (fun x => P x <-> Q x) l -> filter P l = filter Q l.
Proof.
  induction 1 as [|a l Ha Hl IH]; [done|].
  rewrite !filter_cons, IH. destruct (decide (P a)), (decide (Q a)); tauto.
Qed.

Lemma filter_sorted (P : Z -> Prop) `{!forall x, Decision (P x)} (l : list Z) :
  StronglySorted Z.lt l -> StronglySorted Z.lt (filter P l).
Proof.
  induction 1 as [|a l Hs IH Ha]; [constructor|].
  rewrite filter_cons. destruct (decide (P a)); [|done].
  constructor; [done|]. apply Forall_forall. intros x Hx.
  apply list_elem_of_filter in Hx as [_ Hx]. by eapply Forall_forall in Ha.
Qed.

Lemma filter_clear_head bitmap l y fs :
  NoDup l -> Forall (fun x => 0 <= x) l ->
  filter (fun x => bit_free bitmap x = true) l = y :: fs ->
  filter (fun x => bit_free (clear_bit bitmap y) x = true) l = fs.
Proof.
  induction l as [|a l IH]; intros Hnd Hpos Hf; [done|].
  apply NoDup_cons in Hnd as [Ha Hnd]. apply Forall_cons in Hpos as [Ha0 Hpos].
  rewrite filter_cons in Hf. rewrite filter_cons.
  destruct (decide (bit_free bitmap a = true)) as [Hfree|Hfree].
  - injection Hf as -> <-.
    rewrite decide_False by (rewrite bit_free_clear_eq; discriminate).
    apply filter_agree. apply Forall_forall. intros x Hx.
    rewrite bit_free_clear_ne; [done|..].
    + done.
    + by eapply Forall_forall in Hpos.
    + intros ->. done.
  - assert (y ∈ l) as Hy.
    { eapply (list_elem_of_filter (fun x => bit_free bitmap x = true)).
      rewrite Hf. apply list_elem_of_here. }
    assert (0 <= y) by (by eapply Forall_forall in Hpos).
    rewrite decide_False.
    + by apply IH.
    + rewrite bit_free_clear_ne; [done|lia|done|]. intros ->. done.
Qed.

Lemma free_indices_range ds bitmap x :
  x ∈ free_indices ds bitmap <-> 1 <= x < ds /\ bit_free bitmap x = true.
Proof.
  unfold free_indices. rewrite list_elem_of_filter, elem_of_seqZ. intuition lia.
Qed.

Lemma free_indices_sorted ds bitmap : StronglySorted Z.lt (free_indices ds bitmap).
Proof.
  unfold free_indices. apply filter_sorted.
  generalize 1 at 1. generalize (ds - 1). intros len.
  destruct (decide (0 <= len)) as [Hlen|Hlen].
  - rewrite <- (Z2Nat.id len) by done. generalize (Z.to_nat len). clear.
    intros n. induction n as [|n IH]; intros m; [constructor|].
    rewrite seqZ_cons by lia. constructor.
    + replace (Z.pred (Z.of_nat (S n))) with (Z.of_nat n) by lia. apply IH.
    + apply Forall_forall. intros x Hx. apply elem_of_seqZ in Hx. lia.
  - intros m. rewrite seqZ_nil by lia. constructor.
Qed.

Lemma free_indices_length ds bitmap :
  1 <= ds -> (length (free_indices ds bitmap) < Z.to_nat ds)%nat.
Proof.
  intros Hds. unfold free_indices.
  pose proof (length_filter (fun x => bit_free bitmap x = true) (seqZ 1 (ds - 1))) as Hl.
  rewrite length_seqZ in Hl. lia.
Qed.

Lemma alloc_space_run fuel ds bitmap lst n w :
  1 <= ds ->
  (length (free_indices ds bitmap) < fuel)%nat ->
  alloc_space fuel ds bitmap lst n w =
  if decide (0 <= n <= Z.of_nat (length (free_indices ds bitmap))) then
    Ret (0, lst ++ take (Z.to_nat n) (free_indices ds bitmap),
         foldl clear_bit bitmap (take (Z.to_nat n) (free_indices ds bitmap))) w
  else
    Ret (-1, lst ++ free_indices ds bitmap,
         foldl clear_bit bitmap (free_indices ds bitmap)) (say w Not_enough_space).
Proof.
  intros Hds. revert bitmap lst n.
  induction fuel as [|fuel IH]; intros bitmap lst n Hfuel; [lia|].
  cbn [alloc_space]. destruct (decide (n = 0)) as [->|Hn].
  - rewrite decide_True by lia. simpl. by rewrite app_nil_r.
  - rewrite first_free_filter. rewrite Z2Nat.id by lia.
    fold (free_indices ds bitmap).
    destruct (free_indices ds bitmap) as [|y fs] eqn:Hfs.
    + rewrite decide_True by lia. rewrite decide_False by (simpl; lia).
      simpl. by rewrite app_nil_r.
    + assert (1 <= y < ds) as Hy.
      { apply (free_indices_range ds bitmap). rewrite Hfs. apply list_elem_of_here. }
      rewrite decide_False by lia.
      assert (free_indices ds (clear_bit bitmap y) = fs) as Hfs'.
      { apply filter_clear_head; [apply NoDup_seqZ| |done].
        apply Forall_forall. intros x Hx. apply elem_of_seqZ in Hx. lia. }
      rewrite IH by (rewrite Hfs'; simpl in Hfuel; lia).
      rewrite Hfs'. cbn [length].
      destruct (decide (0 <= n - 1 <= Z.of_nat (length fs))).
      * rewrite decide_True by lia.
        replace (Z.to_nat n) with (S (Z.to_nat (n - 1))) by lia.
        cbn [take foldl]. by rewrite <- app_assoc.
      * rewrite decide_False by lia. cbn [foldl]. by rewrite <- app_assoc.
Qed.

Lemma bit_free_foldl_clear l bitmap x :
  0 <= x -> Forall (fun y => 0 <= y) l ->
  bit_free (foldl clear_bit bitmap l) x = bit_free bitmap x && bool_decide (x ∉ l).
Proof.
  intros Hx. revert bitmap. induction l as [|y l IH]; intros bitmap Hl.
  - cbn [foldl]. rewrite bool_decide_true; [by rewrite andb_true_r|]. apply not_elem_of_nil.
  - apply Forall_cons in Hl as [Hy Hl]. cbn [foldl]. rewrite IH by done.
    destruct (decide (x = y)) as [->|Hxy].
    + rewrite bit_free_clear_eq. rewrite (bool_decide_false (y ∉ y :: l)).
      * by rewrite andb_false_r.
      * intros Hn. apply Hn, list_elem_of_here.
    + rewrite bit_free_clear_ne by done. f_equal.
      apply bool_decide_ext. rewrite not_elem_of_cons. tauto.
Qed.

Lemma free_indices_nonneg ds bitmap : Forall (fun y => 0 <= y) (free_indices ds bitmap).
Proof.
  apply Forall_forall. intros x Hx. apply free_indices_range in Hx. lia.
Qed.

(** C2.  [alloc_space] started on any bitmap, for any number [n] of
    sectors: the free sector numbers in scan range, [free], are
    exactly the [x] with [1 <= x < disk_size] whose bit is set, in
    ascending order.  When [n] of them exist the call returns 0 with
    precisely the first [n] of [free], and when fewer exist it prints
    "Not enough space" and returns -1 after having taken all of [free];
    either way the bitmap comes back with exactly the bits of the
    sectors taken cleared, also on the failure path. *)
Theorem alloc_space_lowest_free (fuel : nat) (ds : Z) (bitmap : list Z) (n : Z) (w : world) :
  1 <= ds -> 0 <= n -> (Z.to_nat ds <= fuel)%nat ->
  (forall x, x ∈ free_indices ds bitmap <-> 1 <= x < ds /\ bit_free bitmap x = true) /\
  StronglySorted Z.lt (free_indices ds bitmap) /\
  exists lst bitmap',
    (forall x, 0 <= x ->
       bit_free bitmap' x = bit_free bitmap x && bool_decide (x ∉ lst)) /\
    if decide (n <= Z.of_nat (length (free_indices ds bitmap))) then
      lst = take (Z.to_nat n) (free_indices ds bitmap) /\
      alloc_space fuel ds bitmap [] n w = Ret (0, lst, bitmap') w
    else
      lst = free_indices ds bitmap /\
      alloc_space fuel ds bitmap [] n w = Ret (-1, lst, bitmap') (say w Not_enough_space).
Proof.
  intros Hds Hn Hfuel.
  split; [apply free_indices_range|]. split; [apply free_indices_sorted|].
  pose proof (free_indices_length ds bitmap Hds) as Hlen.
  pose proof (free_indices_nonneg ds bitmap) as Hpos.
  rewrite alloc_space_run by lia.
  destruct (decide (n <= Z.of_nat (length (free_indices ds bitmap)))) as [Hle|Hgt].
  - rewrite decide_True by lia.
    exists (take (Z.to_nat n) (free_indices ds bitmap)),
           (foldl clear_bit bitmap (take (Z.to_nat n) (free_indices ds bitmap))).
    split; [|done]. intros x Hx. apply bit_free_foldl_clear; [done|].
    by apply Forall_take.
  - rewrite decide_False by lia.
    exists (free_indices ds bitmap), (foldl clear_bit bitmap (free_indices ds bitmap)).
    split; [|done]. intros x Hx. by apply bit_free_foldl_clear.
Qed.

Lemma alloc_space_lowest_free_witness :
  1 <= 720 /\ 0 <= 2 /\ (Z.to_nat 720 <= 720)%nat /\
  exists lst bitmap',
    (forall x, 0 <= x ->
       bit_free bitmap' x = bit_free fresh_bitmap_sd x && bool_decide (x ∉ lst)) /\
    if decide (2 <= Z.of_nat (length (free_indices 720 fresh_bitmap_sd))) then
      lst = take (Z.to_nat 2) (free_indices 720 fresh_bitmap_sd) /\
      alloc_space 720 720 fresh_bitmap_sd [] 2 fresh_sd = Ret (0, lst, bitmap') fresh_sd
    else
      lst = free_indices 720 fresh_bitmap_sd /\
      alloc_space 720 720 fresh_bitmap_sd [] 2 fresh_sd
      = Ret (-1, lst, bitmap') (say fresh_sd Not_enough_space).
Proof.
  split; [lia|]. split; [lia|]. split; [lia|].
  apply (alloc_space_lowest_free 720 720 fresh_bitmap_sd 2 fresh_sd); lia.
Defined.

(** C10.  Whatever the bitmap holds and whatever count is asked for,
    [alloc_space] returns, and every sector number it has stored in the
    list lies between 1 and [disk_size - 1]: sector 0 and the numbers
    from [disk_size] on are never taken, whatever their bits say. *)
Theorem alloc_space_in_range (fuel : nat) (ds : Z) (bitmap : list Z) (n : Z) (w : world) :
  1 <= ds -> (Z.to_nat ds <= fuel)%nat ->
  exists rc lst bitmap' w',
    alloc_space fuel ds bitmap [] n w = Ret (rc, lst, bitmap') w' /\
    Forall (fun x => 1 <= x <= ds - 1) lst.
Proof.
  intros Hds Hfuel.
  pose proof (free_indices_length ds bitmap Hds) as Hlen.
  assert (Forall (fun x => 1 <= x <= ds - 1) (free_indices ds bitmap)) as Hr.
  { apply Forall_forall. intros x Hx. apply free_indices_range in Hx. lia. }
  rewrite alloc_space_run by lia.
  destruct (decide (0 <= n <= _)); do 4 eexists; (split; [reflexivity|]); simpl.
  - by apply Forall_take.
  - done.
Qed.

Lemma alloc_space_in_range_witness :
  1 <= 720 /\ (Z.to_nat 720 <= 720)%nat /\
  exists rc lst bitmap' w',
    alloc_space 720 720 all_free_bitmap [] 800 fresh_sd = Ret (rc, lst, bitmap') w' /\
    Forall (fun x => 1 <= x <= 720 - 1) lst.
Proof.
  split; [lia|]. split; [lia|].
  apply (alloc_space_in_range 720 720 all_free_bitmap 800 fresh_sd); lia.
Defined.

(** ** Sector access *)

(** C7, as the code has it.  [getsect] and [putsect] end the process
    with [exit (-1)], after "Oops, requested sector 0", exactly for
    sector 0.  For every other sector number both return to the caller
    and print nothing, whatever [fseek], [fread] and [fwrite] report:
    no input or output error is passed on. *)
Theorem sector_access_fails_on_zero_only (buf : list Z) (sect : Z) (w : world) :
  if decide (sect = 0) then
    getsect buf sect w = Exit (-1) (say w Oops_sector_0) /\
    putsect buf sect w = Exit (-1) (say w Oops_sector_0)
  else
    (exists buf' w', getsect buf sect w = Ret buf' w' /\ stdout w' = stdout w) /\
    (exists w', putsect buf sect w = Ret tt w' /\ stdout w' = stdout w).
Proof.
  unfold getsect, putsect. destruct (decide (sect = 0)) as [->|Hs].
  - done.
  - split.
    + unfold bind, fseek_disk, fread_disk, ret.
      destruct (fseek (disk w) _) as [rc f] eqn:Hseek. cbn [disk stdout].
      destruct (fread buf _ f) as [[n buf'] f'] eqn:Hread. by eexists _, _.
    + unfold bind, fseek_disk, fwrite_disk, ret.
      destruct (fseek (disk w) _) as [rc f] eqn:Hseek. cbn [disk stdout].
      destruct (fwrite buf _ f) as [n f'] eqn:Hwrite. by eexists _.
Qed.

(** C7 as stated fails.  On a single density image sector 721 lies past
    the end of the file: [fseek] accepts the offset, [fread] transfers
    nothing and reports 0 items, and [getsect] returns with the buffer
    as it was.  For sector -1 the offset is negative: [fseek] reports
    -1, and [getsect] and [putsect] return all the same. *)
Lemma getsect_drops_io_errors :
  (fst (fseek (disk fresh_sd) ((721 - 1) * SECTOR_SIZE + 16)) = 0 /\
   fst (fst (fread auto_buf (Z.to_nat SECTOR_SIZE)
                   (snd (fseek (disk fresh_sd) ((721 - 1) * SECTOR_SIZE + 16))))) = 0 /\
   returned (getsect auto_buf 721 fresh_sd) = Some auto_buf) /\
  (fst (fseek (disk fresh_sd) ((-1 - 1) * SECTOR_SIZE + 16)) = -1 /\
   is_Some (returned (getsect auto_buf (-1) fresh_sd)) /\
   returned (putsect auto_buf (-1) fresh_sd) = Some tt).
Proof.
  split; [split; [|split]|split; [|split]].
  - vm_compute. reflexivity.
  - vm_compute. reflexivity.
  - vm_compute. reflexivity.
  - vm_compute. reflexivity.
  - vm_compute. eexists. reflexivity.
  - vm_compute. reflexivity.
Qed.

(** ** Sectors of the image *)

Lemma lookup_memcpy (dst src : list Z) (p j : nat) :
  (p <= length dst)%nat ->
  memcpy dst p src !! j =
  if decide (j < p)%nat then dst !! j
  else if decide (j < p + length src)%nat then src !! (j - p)%nat
  else dst !! j.
Proof.
  intros Hp. unfold memcpy.
  assert (length (take p dst) = p) as Hlen by (rewrite length_take; lia).
  destruct (decide (j < p)%nat).
  - rewrite lookup_app_l by lia. by apply lookup_take_lt.
  - rewrite lookup_app_r by lia. rewrite Hlen.
    destruct (decide (j < p + length src)%nat).
    + by rewrite lookup_app_l by lia.
    + rewrite lookup_app_r by lia. rewrite lookup_drop. f_equal. lia.
Qed.

Lemma length_memcpy (dst src : list Z) (p : nat) :
  (p + length src <= length dst)%nat -> length (memcpy dst p src) = length dst.
Proof.
  intros Hp. unfold memcpy. rewrite !length_app, length_take, length_drop. lia.
Qed.

Lemma lookup_sector_of img sect i :
  sector_of img sect !! i =
  if decide (i < 128)%nat then img !! (sector_offset sect + i)%nat else None.
Proof.
  unfold sector_of. rewrite lookup_take. change (Z.to_nat SECTOR_SIZE) with 128%nat.
  destruct (decide (i < 128)%nat); [|done]. apply lookup_drop.
Qed.

Lemma length_sector_of img sect :
  in_image img sect -> length (sector_of img sect) = 128%nat.
Proof.
  intros [_ Hs]. unfold sector_of. rewrite length_take, length_drop.
  change (Z.to_nat SECTOR_SIZE) with 128%nat in *. lia.
Qed.

Lemma sector_offset_lt s s' :
  1 <= s -> s < s' -> (sector_offset s + 128 <= sector_offset s')%nat.
Proof. unfold sector_offset, SECTOR_SIZE. lia. Qed.

Lemma length_store_sector img sect buf :
  in_image img sect -> length buf = 128%nat -> length (store_sector img sect buf) = length img.
Proof.
  intros [_ Hs] Hb. apply length_memcpy.
  change (Z.to_nat SECTOR_SIZE) with 128%nat in *. lia.
Qed.

Lemma in_image_store_sector img sect buf s :
  in_image img sect -> length buf = 128%nat ->
  in_image (store_sector img sect buf) s <-> in_image img s.
Proof. intros. unfold in_image. by rewrite length_store_sector. Qed.

Lemma sector_of_store_eq img sect buf :
  in_image img sect -> length buf = 128%nat -> sector_of (store_sector img sect buf) sect = buf.
Proof.
  intros [_ Hs] Hb. change (Z.to_nat SECTOR_SIZE) with 128%nat in *.
  apply list_eq. intros i. rewrite lookup_sector_of.
  destruct (decide (i < 128)%nat).
  - unfold store_sector. rewrite lookup_memcpy by lia.
    rewrite decide_False, decide_True by lia. f_equal. lia.
  - symmetry. apply lookup_ge_None. lia.
Qed.

Lemma sector_of_store_ne img sect buf s :
  in_image img sect -> length buf = 128%nat -> 1 <= s -> s <> sect ->
  sector_of (store_sector img sect buf) s = sector_of img s.
Proof.
  intros [H1 Hs] Hb Hs1 Hne. change (Z.to_nat SECTOR_SIZE) with 128%nat in *.
  apply list_eq. intros i. rewrite !lookup_sector_of.
  destruct (decide (i < 128)%nat); [|done].
  unfold store_sector. rewrite lookup_memcpy by lia.
  destruct (decide (s < sect)).
  - pose proof (sector_offset_lt s sect). rewrite decide_True by lia. done.
  - pose proof (sector_offset_lt sect s). rewrite decide_False, decide_False by lia. done.
Qed.

Lemma getsect_in_image buf sect w :
  in_image (image w) sect -> length buf = 128%nat ->
  exists w', getsect buf sect w = Ret (sector_of (image w) sect) w' /\
             image w' = image w /\ stdout w' = stdout w.
Proof.
  intros [H1 Hs] Hb. unfold getsect. rewrite decide_False by lia.
  unfold bind, fseek_disk, fseek, fread_disk, fread, ret.
  assert (((sect - 1) * SECTOR_SIZE + 16 <? 0) = false) as -> by (unfold SECTOR_SIZE; lia).
  cbn [disk stdout contents fpos snd].
  fold (sector_offset sect). fold (image w). fold (sector_of (image w) sect).
  rewrite length_sector_of by done. rewrite drop_ge by lia. rewrite app_nil_r.
  by eexists.
Qed.

Lemma putsect_in_image buf sect w :
  in_image (image w) sect -> length buf = 128%nat ->
  exists w', putsect buf sect w = Ret tt w' /\
             image w' = store_sector (image w) sect buf /\ stdout w' = stdout w.
Proof.
  intros [H1 Hs] Hb. unfold putsect. rewrite decide_False by lia.
  unfold bind, fseek_disk, fseek, fwrite_disk, fwrite, ret.
  assert (((sect - 1) * SECTOR_SIZE + 16 <? 0) = false) as -> by (unfold SECTOR_SIZE; lia).
  cbn [disk stdout contents fpos snd]. eexists. split; [done|]. split; [|done].
  unfold image at 1. cbn [disk contents]. fold (sector_offset sect). fold (image w).
  replace (sector_offset sect - length (image w))%nat with 0%nat by lia.
  cbn [replicate]. rewrite app_nil_r.
  change (Z.to_nat SECTOR_SIZE) with 128%nat in *.
  rewrite (take_ge buf) by lia. unfold store_sector, memcpy. by rewrite Hb.
Qed.

(** ** The bitmap on disk: [getbitmap] and [putbitmap] *)

Lemma count_byte_range b : 0 <= count_byte b <= 8.
Proof. unfold count_byte, bit_masks. cbn [fold_left]. repeat case_decide; lia. Qed.

Lemma count_free_range n : forall bitmap, 0 <= count_free bitmap n <= 8 * Z.of_nat n.
Proof.
  induction n as [|n IH]; intros bitmap; cbn [count_free]; [lia|].
  pose proof (count_byte_range (byte_at bitmap 0)). pose proof (IH (drop 1 bitmap)). lia.
Qed.

Lemma count_free_take n : forall a b : list Z,
  take n a = take n b -> count_free a n = count_free b n.
Proof.
  induction n as [|n IH]; intros a b Hab; [done|].
  cbn [count_free]. destruct a as [|x a], b as [|y b]; try done.
  injection Hab as -> Hab. unfold byte_at. cbn [nth]. f_equal.
  apply IH. done.
Qed.

Lemma le16_split c : 0 <= c < 65536 -> u8 c + 256 * u8 (Z.shiftr c 8) = c.
Proof.
  intros Hc. unfold u8. rewrite Z.shiftr_div_pow2 by lia. change (2 ^ 8) with 256.
  assert (0 <= c / 256 < 256) by (split; [apply Z.div_pos|apply Z.div_lt_upper_bound]; lia).
  rewrite (Z.mod_small (c / 256)) by lia.
  pose proof (Z.div_mod c 256). lia.
Qed.

Lemma length_auto_buf : length auto_buf = 128%nat.
Proof. done. Qed.

Lemma length_vtoc_of_bitmap bitmap vtoc :
  length vtoc = 128%nat -> (90 <= length bitmap)%nat ->
  length (vtoc_of_bitmap bitmap vtoc) = 128%nat.
Proof.
  intros Hv Hb. unfold vtoc_of_bitmap. rewrite !length_insert.
  rewrite length_memcpy; [done|]. rewrite length_take. unfold VTOC_BITMAP, SD_BITMAP_SIZE. lia.
Qed.

Lemma length_vtoc2_of_bitmap bitmap vtoc2 :
  length vtoc2 = 128%nat -> length bitmap = 128%nat ->
  length (vtoc2_of_bitmap bitmap vtoc2) = 128%nat.
Proof.
  intros Hv Hb. unfold vtoc2_of_bitmap. rewrite !length_insert.
  rewrite length_memcpy; [done|]. rewrite length_take, length_drop.
  unfold ED_BITMAP_SIZE, ED_BITMAP_START. lia.
Qed.

(** The bitmap bytes and the count that [vtoc_of_bitmap] stores. *)
Lemma vtoc_of_bitmap_bits bitmap vtoc :
  length vtoc = 128%nat -> (90 <= length bitmap)%nat ->
  take SD_BITMAP_SIZE (drop VTOC_BITMAP (vtoc_of_bitmap bitmap vtoc)) = take SD_BITMAP_SIZE bitmap.
Proof.
  intros Hv Hb. unfold vtoc_of_bitmap, SD_BITMAP_SIZE, VTOC_BITMAP, VTOC_NUM_UNUSED.
  apply list_eq. intros i. rewrite !lookup_take.
  destruct (decide (i < 90)%nat); [|done].
  rewrite lookup_drop, !list_lookup_insert_ne by lia.
  rewrite lookup_memcpy by lia. rewrite length_take.
  rewrite decide_False, decide_True by lia. rewrite lookup_take_lt by lia. f_equal. lia.
Qed.

Lemma vtoc_of_bitmap_count bitmap vtoc :
  length vtoc = 128%nat -> (90 <= length bitmap)%nat ->
  le16 (vtoc_of_bitmap bitmap vtoc) VTOC_NUM_UNUSED = count_free bitmap SD_BITMAP_SIZE.
Proof.
  intros Hv Hb. unfold le16, vtoc_of_bitmap, VTOC_NUM_UNUSED.
  assert (length (memcpy vtoc VTOC_BITMAP (take SD_BITMAP_SIZE bitmap)) = 128%nat) as Hl.
  { rewrite length_memcpy; [done|]. rewrite length_take. unfold VTOC_BITMAP, SD_BITMAP_SIZE. lia. }
  rewrite byte_at_insert_ne by lia. rewrite byte_at_insert_eq by lia.
  change (3 + 1)%nat with 4%nat. rewrite byte_at_insert_eq by (rewrite length_insert; lia).
  apply le16_split. pose proof (count_free_range SD_BITMAP_SIZE bitmap).
  unfold SD_BITMAP_SIZE in *. lia.
Qed.

(** VTOC2 as [vtoc2_of_bitmap] stores it: bitmap bytes 6 to 127 at the
    start, then the free count of the upper region. *)
Lemma vtoc2_of_bitmap_bytes bitmap vtoc2 :
  length vtoc2 = 128%nat -> length bitmap = 128%nat ->
  take VTOC2_NUM_UNUSED (vtoc2_of_bitmap bitmap vtoc2) = drop ED_BITMAP_START bitmap.
Proof.
  intros Hv Hb. unfold vtoc2_of_bitmap, VTOC2_NUM_UNUSED, ED_BITMAP_START, ED_BITMAP_SIZE.
  apply list_eq. intros i. rewrite lookup_take.
  destruct (decide (i < 122)%nat).
  - rewrite !list_lookup_insert_ne by lia. rewrite lookup_memcpy by lia.
    rewrite length_take, length_drop. rewrite decide_False, decide_True by lia.
    rewrite lookup_take_lt by lia. f_equal. lia.
  - symmetry. apply lookup_ge_None. rewrite length_drop. lia.
Qed.

Lemma vtoc2_of_bitmap_count bitmap vtoc2 :
  length vtoc2 = 128%nat -> length bitmap = 128%nat ->
  le16 (vtoc2_of_bitmap bitmap vtoc2) VTOC2_NUM_UNUSED
  = count_free (drop SD_BITMAP_SIZE bitmap) (ED_BITMAP_SIZE - SD_BITMAP_SIZE).
Proof.
  intros Hv Hb. unfold le16, vtoc2_of_bitmap, VTOC2_NUM_UNUSED.
  set (m := memcpy vtoc2 0 _).
  assert (length m = 128%nat) as Hl.
  { unfold m. rewrite length_memcpy; [done|]. rewrite length_take, length_drop.
    unfold ED_BITMAP_SIZE, ED_BITMAP_START. lia. }
  rewrite byte_at_insert_ne by lia. rewrite byte_at_insert_eq by lia.
  change (122 + 1)%nat with 123%nat. rewrite byte_at_insert_eq by (rewrite length_insert; lia).
  apply le16_split.
  pose proof (count_free_range (ED_BITMAP_SIZE - SD_BITMAP_SIZE) (drop SD_BITMAP_SIZE bitmap)).
  unfold SD_BITMAP_SIZE, ED_BITMAP_SIZE in *. lia.
Qed.

Lemma putbitmap_run ds bitmap w :
  in_image (image w) SECTOR_VTOC ->
  (ds = ED_DISK_SIZE -> in_image (image w) SECTOR_VTOC2) ->
  length bitmap = 128%nat ->
  exists w',
    putbitmap ds bitmap w = Ret tt w' /\ stdout w' = stdout w /\
    image w' =
      let img := store_sector (image w) SECTOR_VTOC
                   (vtoc_of_bitmap bitmap (sector_of (image w) SECTOR_VTOC)) in
      if decide (ds = ED_DISK_SIZE) then
        store_sector img SECTOR_VTOC2
          (vtoc2_of_bitmap bitmap (sector_of (image w) SECTOR_VTOC2))
      else img.
Proof.
  intros Hv Hv2 Hb. unfold putbitmap, bind.
  destruct (getsect_in_image auto_buf SECTOR_VTOC w Hv length_auto_buf) as (w1 & -> & Hi1 & Ho1).
  assert (length (vtoc_of_bitmap bitmap (sector_of (image w) SECTOR_VTOC)) = 128%nat) as Hl1.
  { apply length_vtoc_of_bitmap; [by apply length_sector_of|lia]. }
  rewrite <- Hi1 in Hv.
  destruct (putsect_in_image _ SECTOR_VTOC w1 Hv Hl1) as (w2 & -> & Hi2 & Ho2).
  rewrite Hi1 in Hi2, Hv. cbn zeta.
  destruct (decide (ds = ED_DISK_SIZE)) as [Hed|Hsd].
  - specialize (Hv2 Hed).
    assert (in_image (image w2) SECTOR_VTOC2) as Hv2'.
    { rewrite Hi2. by apply in_image_store_sector. }
    destruct (getsect_in_image auto_buf SECTOR_VTOC2 w2 Hv2' length_auto_buf)
      as (w3 & -> & Hi3 & Ho3).
    assert (sector_of (image w2) SECTOR_VTOC2 = sector_of (image w) SECTOR_VTOC2) as Hs2.
    { rewrite Hi2. by apply sector_of_store_ne. }
    rewrite Hs2.
    assert (length (vtoc2_of_bitmap bitmap (sector_of (image w) SECTOR_VTOC2)) = 128%nat) as Hl2.
    { apply length_vtoc2_of_bitmap; [by apply length_sector_of|done]. }
    rewrite <- Hi3 in Hv2'.
    destruct (putsect_in_image _ SECTOR_VTOC2 w3 Hv2' Hl2) as (w4 & -> & Hi4 & Ho4).
    exists w4. split; [done|]. split; [congruence|]. rewrite Hi4, Hi3, Hi2. done.
  - exists w2. split; [done|]. split; [congruence|]. done.
Qed.

Lemma check_vtoc_run ds bitmap vtoc w :
  check_vtoc ds bitmap vtoc w = Ret tt (says w (vtoc_report ds bitmap vtoc)).
Proof.
  unfold check_vtoc, vtoc_report, bind, printf, say, says. cbn zeta.
  repeat case_decide; cbn [disk stdout]; by rewrite <- !app_assoc.
Qed.

Lemma check_vtoc2_run bitmap vtoc2 w :
  check_vtoc2 bitmap vtoc2 w = Ret tt (says w (vtoc2_report bitmap vtoc2)).
Proof.
  unfold check_vtoc2, vtoc2_report, bind, printf, say, says. cbn zeta.
  repeat case_decide; cbn [disk stdout]; by rewrite <- !app_assoc.
Qed.

Lemma getbitmap_run ds bitmap check w :
  in_image (image w) SECTOR_VTOC ->
  (ds = ED_DISK_SIZE -> in_image (image w) SECTOR_VTOC2) ->
  exists w',
    let vtoc := sector_of (image w) SECTOR_VTOC in
    let vtoc2 := sector_of (image w) SECTOR_VTOC2 in
    let bitmap1 := bitmap_of_vtoc bitmap vtoc in
    let bitmap2 := bitmap_of_vtoc2 bitmap1 vtoc2 in
    getbitmap ds bitmap check w
    = Ret (if decide (ds = ED_DISK_SIZE) then bitmap2 else bitmap1) w' /\
    image w' = image w /\
    stdout w' = stdout w ++
      (if check then vtoc_report ds bitmap1 vtoc else []) ++
      (if decide (ds = ED_DISK_SIZE) then if check then vtoc2_report bitmap2 vtoc2 else []
       else []).
Proof.
  intros Hv Hv2. unfold getbitmap, bind.
  destruct (getsect_in_image auto_buf SECTOR_VTOC w Hv length_auto_buf) as (w1 & -> & Hi1 & Ho1).
  set (vtoc := sector_of (image w) SECTOR_VTOC).
  set (bitmap1 := bitmap_of_vtoc bitmap vtoc).
  assert (exists w2, (if check then check_vtoc ds bitmap1 vtoc else ret tt) w1 = Ret tt w2 /\
            image w2 = image w /\
            stdout w2 = stdout w ++ (if check then vtoc_report ds bitmap1 vtoc else []))
    as (w2 & -> & Hi2 & Ho2).
  { destruct check.
    - rewrite check_vtoc_run. eexists. split; [done|]. unfold says, image in *.
      cbn [disk stdout]. by rewrite Ho1.
    - exists w1. rewrite app_nil_r. done. }
  destruct (decide (ds = ED_DISK_SIZE)) as [Hed|Hsd].
  - specialize (Hv2 Hed). rewrite <- Hi2 in Hv2.
    destruct (getsect_in_image auto_buf SECTOR_VTOC2 w2 Hv2 length_auto_buf)
      as (w3 & -> & Hi3 & Ho3).
    rewrite Hi2. set (vtoc2 := sector_of (image w) SECTOR_VTOC2).
    set (bitmap2 := bitmap_of_vtoc2 bitmap1 vtoc2).
    destruct check.
    + rewrite check_vtoc2_run. unfold ret. eexists. split; [done|].
      unfold says, image in *. cbn [disk stdout]. split; [congruence|].
      rewrite Ho3, Ho2. by rewrite <- app_assoc.
    + unfold ret. exists w3. split; [done|]. split; [congruence|].
      rewrite Ho3, Ho2. done.
  - unfold ret. exists w2. split; [done|]. split; [done|]. rewrite Ho2.
    by rewrite app_nil_r.
Qed.

Lemma bitmap_of_vtoc_take bitmap vtoc :
  length vtoc = 128%nat ->
  take SD_BITMAP_SIZE (bitmap_of_vtoc bitmap vtoc) = take SD_BITMAP_SIZE (drop VTOC_BITMAP vtoc).
Proof.
  intros Hv. unfold bitmap_of_vtoc, memcpy. rewrite take_0, app_nil_l.
  rewrite take_app_length'; [done|].
  rewrite length_take, length_drop. unfold SD_BITMAP_SIZE, VTOC_BITMAP. lia.
Qed.

Lemma bitmap_of_vtoc2_take bitmap vtoc2 :
  (90 <= length bitmap)%nat ->
  take SD_BITMAP_SIZE (bitmap_of_vtoc2 bitmap vtoc2) = take SD_BITMAP_SIZE bitmap.
Proof.
  intros Hb. unfold bitmap_of_vtoc2, memcpy.
  rewrite take_app_length'; [done|]. rewrite length_take. unfold SD_BITMAP_SIZE. lia.
Qed.

Lemma bitmap_of_vtoc2_drop bitmap vtoc2 :
  length bitmap = 128%nat -> length vtoc2 = 128%nat ->
  drop SD_BITMAP_SIZE (bitmap_of_vtoc2 bitmap vtoc2)
  = take (ED_BITMAP_SIZE - SD_BITMAP_SIZE) (drop (SD_BITMAP_SIZE - ED_BITMAP_START) vtoc2).
Proof.
  intros Hb Hv. unfold bitmap_of_vtoc2, memcpy.
  rewrite drop_app_length'; [|rewrite length_take; unfold SD_BITMAP_SIZE; lia].
  rewrite (drop_ge bitmap); [apply app_nil_r|].
  rewrite length_take, length_drop. unfold SD_BITMAP_SIZE, ED_BITMAP_SIZE, ED_BITMAP_START. lia.
Qed.

Lemma length_bitmap_of_vtoc bitmap vtoc :
  length bitmap = 128%nat -> length vtoc = 128%nat ->
  length (bitmap_of_vtoc bitmap vtoc) = 128%nat.
Proof.
  intros Hb Hv. unfold bitmap_of_vtoc. rewrite length_memcpy; [done|].
  rewrite length_take, length_drop. unfold SD_BITMAP_SIZE, VTOC_BITMAP. lia.
Qed.

Lemma length_bitmap_of_vtoc2 bitmap vtoc2 :
  length bitmap = 128%nat -> length vtoc2 = 128%nat ->
  length (bitmap_of_vtoc2 bitmap vtoc2) = 128%nat.
Proof.
  intros Hb Hv. unfold bitmap_of_vtoc2. rewrite length_memcpy; [done|].
  rewrite length_take, length_drop. unfold SD_BITMAP_SIZE, ED_BITMAP_SIZE, ED_BITMAP_START. lia.
Qed.

Lemma vtoc2_of_bitmap_upper bitmap vtoc2 :
  length vtoc2 = 128%nat -> length bitmap = 128%nat ->
  take (ED_BITMAP_SIZE - SD_BITMAP_SIZE)
       (drop (SD_BITMAP_SIZE - ED_BITMAP_START) (vtoc2_of_bitmap bitmap vtoc2))
  = drop SD_BITMAP_SIZE bitmap.
Proof.
  intros Hv Hb. rewrite take_drop_commute.
  change (SD_BITMAP_SIZE - ED_BITMAP_START + (ED_BITMAP_SIZE - SD_BITMAP_SIZE))%nat
    with VTOC2_NUM_UNUSED.
  rewrite vtoc2_of_bitmap_bytes by done. rewrite drop_drop. done.
Qed.

(** The sectors that [putbitmap] leaves on the disk. *)
Lemma putbitmap_sectors ds bitmap w :
  in_image (image w) SECTOR_VTOC ->
  (ds = ED_DISK_SIZE -> in_image (image w) SECTOR_VTOC2) ->
  length bitmap = 128%nat ->
  exists w',
    putbitmap ds bitmap w = Ret tt w' /\ stdout w' = stdout w /\
    length (image w') = length (image w) /\
    sector_of (image w') SECTOR_VTOC
      = vtoc_of_bitmap bitmap (sector_of (image w) SECTOR_VTOC) /\
    (ds = ED_DISK_SIZE ->
     sector_of (image w') SECTOR_VTOC2
       = vtoc2_of_bitmap bitmap (sector_of (image w) SECTOR_VTOC2)) /\
    (forall s, 1 <= s -> s <> SECTOR_VTOC -> s <> SECTOR_VTOC2 ->
       sector_of (image w') s = sector_of (image w) s) /\
    (ds <> ED_DISK_SIZE -> forall s, 1 <= s -> s <> SECTOR_VTOC ->
       sector_of (image w') s = sector_of (image w) s).
Proof.
  intros Hv Hv2 Hb.
  destruct (putbitmap_run ds bitmap w Hv Hv2 Hb) as (w' & Hrun & Ho & Hi).
  exists w'. split; [done|]. split; [done|]. cbn zeta in Hi.
  assert (length (vtoc_of_bitmap bitmap (sector_of (image w) SECTOR_VTOC)) = 128%nat) as Hl1.
  { apply length_vtoc_of_bitmap; [by apply length_sector_of|lia]. }
  destruct (decide (ds = ED_DISK_SIZE)) as [Hed|Hsd].
  - specialize (Hv2 Hed).
    assert (length (vtoc2_of_bitmap bitmap (sector_of (image w) SECTOR_VTOC2)) = 128%nat) as Hl2.
    { apply length_vtoc2_of_bitmap; [by apply length_sector_of|done]. }
    assert (in_image (store_sector (image w) SECTOR_VTOC
              (vtoc_of_bitmap bitmap (sector_of (image w) SECTOR_VTOC))) SECTOR_VTOC2) as Hv2'.
    { by apply in_image_store_sector. }
    rewrite Hi. split; [by rewrite !length_store_sector|].
    split; [|split; [|split]].
    + rewrite sector_of_store_ne by done. by apply sector_of_store_eq.
    + intros _. by apply sector_of_store_eq.
    + intros s Hs H1 H2. rewrite sector_of_store_ne by done. by apply sector_of_store_ne.
    + done.
  - rewrite Hi. split; [by rewrite length_store_sector|].
    split; [|split; [|split]].
    + by apply sector_of_store_eq.
    + done.
    + intros s Hs H1 H2. by apply sector_of_store_ne.
    + intros _ s Hs H1. by apply sector_of_store_ne.
Qed.

(** C4.  On an image that holds the VTOC sector (and VTOC2 when the
    geometry is the extended one), [putbitmap] of any bitmap followed by
    [getbitmap] with [check] set reports matching free counts: the
    count that [putbitmap] stored in the VTOC equals the count that the
    check recomputes from the stored bits, "It's OK (count is ...)" is
    printed and no mismatch is, and under the extended geometry the
    same holds for the count of the upper region in VTOC2. *)
Theorem putbitmap_getbitmap_counts_match (ds : Z) (bitmap buf : list Z) (w : world) :
  in_image (image w) SECTOR_VTOC ->
  (ds = ED_DISK_SIZE -> in_image (image w) SECTOR_VTOC2) ->
  length bitmap = 128%nat -> length buf = 128%nat ->
  exists w1 bitmap' w2 out,
    putbitmap ds bitmap w = Ret tt w1 /\
    getbitmap ds buf true w1 = Ret bitmap' w2 /\
    stdout w2 = stdout w ++ out /\
    take SD_BITMAP_SIZE bitmap' = take SD_BITMAP_SIZE bitmap /\
    le16 (sector_of (image w1) SECTOR_VTOC) VTOC_NUM_UNUSED
      = count_free bitmap' SD_BITMAP_SIZE /\
    Vtoc_count_ok (count_free bitmap SD_BITMAP_SIZE) ∈ out /\
    (forall a b, Vtoc_count_mismatch a b ∉ out) /\
    if decide (ds = ED_DISK_SIZE) then
      bitmap' = bitmap /\
      le16 (sector_of (image w1) SECTOR_VTOC2) VTOC2_NUM_UNUSED
        = count_free (drop SD_BITMAP_SIZE bitmap') (ED_BITMAP_SIZE - SD_BITMAP_SIZE) /\
      Vtoc2_count_ok (count_free (drop SD_BITMAP_SIZE bitmap) (ED_BITMAP_SIZE - SD_BITMAP_SIZE))
        ∈ out /\
      (forall a b, Vtoc2_count_mismatch a b ∉ out)
    else
      Checking_vtoc2_count ∉ out.
Proof.
  intros Hv Hv2 Hb Hbuf.
  destruct (putbitmap_sectors ds bitmap w Hv Hv2 Hb)
    as (w1 & Hput & Ho1 & Hlen & Hs1 & Hs2 & _).
  assert (forall s, in_image (image w) s -> in_image (image w1) s) as Hin.
  { intros s. unfold in_image. by rewrite Hlen. }
  destruct (getbitmap_run ds buf true w1 (Hin _ Hv) (fun H => Hin _ (Hv2 H)))
    as (w2 & Hget & Hi2 & Ho2).
  cbn zeta in Hget, Ho2. rewrite Hs1 in Hget, Ho2.
  set (vtoc0 := sector_of (image w) SECTOR_VTOC) in *.
  set (vtoc := vtoc_of_bitmap bitmap vtoc0) in *.
  assert (length vtoc0 = 128%nat) as Hl0 by (by apply length_sector_of).
  assert (length vtoc = 128%nat) as Hl1 by (apply length_vtoc_of_bitmap; [done|lia]).
  assert (take SD_BITMAP_SIZE (bitmap_of_vtoc buf vtoc) = take SD_BITMAP_SIZE bitmap) as Ht1.
  { rewrite bitmap_of_vtoc_take by done. apply vtoc_of_bitmap_bits; [done|lia]. }
  assert (le16 vtoc VTOC_NUM_UNUSED = count_free (bitmap_of_vtoc buf vtoc) SD_BITMAP_SIZE) as Hc1.
  { unfold vtoc. rewrite vtoc_of_bitmap_count by (done || lia).
    symmetry. by apply count_free_take. }
  assert (count_free (bitmap_of_vtoc buf vtoc) SD_BITMAP_SIZE = count_free bitmap SD_BITMAP_SIZE)
    as Hc1' by (by apply count_free_take).
  assert (length (bitmap_of_vtoc buf vtoc) = 128%nat) as Hlb by (by apply length_bitmap_of_vtoc).
  unfold vtoc_report in Ho2. rewrite <- Hc1 in Ho2. rewrite decide_False in Ho2 by tauto.
  rewrite Hc1, Hc1' in Ho2.
  destruct (decide (ds = ED_DISK_SIZE)) as [Hed|Hsd].
  - specialize (Hs2 Hed). specialize (Hv2 Hed). rewrite Hs2 in Hget, Ho2.
    set (vtoc20 := sector_of (image w) SECTOR_VTOC2) in *.
    set (vtoc2 := vtoc2_of_bitmap bitmap vtoc20) in *.
    assert (length vtoc20 = 128%nat) as Hl20 by (by apply length_sector_of).
    assert (length vtoc2 = 128%nat) as Hl2 by (by apply length_vtoc2_of_bitmap).
    assert (drop SD_BITMAP_SIZE (bitmap_of_vtoc2 (bitmap_of_vtoc buf vtoc) vtoc2)
            = drop SD_BITMAP_SIZE bitmap) as Hd2.
    { rewrite bitmap_of_vtoc2_drop by done. by apply vtoc2_of_bitmap_upper. }
    assert (take SD_BITMAP_SIZE (bitmap_of_vtoc2 (bitmap_of_vtoc buf vtoc) vtoc2)
            = take SD_BITMAP_SIZE bitmap) as Ht2.
    { rewrite bitmap_of_vtoc2_take by lia. done. }
    assert (bitmap_of_vtoc2 (bitmap_of_vtoc buf vtoc) vtoc2 = bitmap) as Hbm.
    { rewrite <- (take_drop SD_BITMAP_SIZE (bitmap_of_vtoc2 _ _)).
      rewrite Ht2, Hd2. apply take_drop. }
    unfold vtoc2_report in Ho2. rewrite Hbm in Hget, Ho2.
    assert (le16 vtoc2 VTOC2_NUM_UNUSED
            = count_free (drop SD_BITMAP_SIZE bitmap) (ED_BITMAP_SIZE - SD_BITMAP_SIZE)) as Hc2.
    { by apply vtoc2_of_bitmap_count. }
    rewrite Hc2 in Ho2.
    rewrite (decide_False (P := count_free (drop SD_BITMAP_SIZE bitmap) _ <> _)) in Ho2
      by (intros Hne; by apply Hne).
    eexists w1, bitmap, w2, _. split; [done|]. split; [done|].
    split; [rewrite Ho2, Ho1; reflexivity|].
    split; [done|]. split; [by rewrite Hs1, <- Hc1'|].
    split; [in_list|]. split; [intros a b; not_in_list|].
    split; [done|]. split; [by rewrite Hs2|].
    split; [in_list|]. intros a b. not_in_list.
  - eexists w1, _, w2, _. split; [done|]. split; [done|].
    split; [rewrite Ho2, Ho1; reflexivity|].
    split; [done|]. split; [by rewrite Hs1|].
    split; [in_list|]. split; [intros a b; not_in_list|].
    not_in_list.
Qed.

Lemma fresh_sd_length : Z.of_nat (length (image fresh_sd)) = 92176.
Proof. vm_compute. reflexivity. Qed.

Lemma fresh_ed_length : Z.of_nat (length (image fresh_ed)) = 133136.
Proof. vm_compute. reflexivity. Qed.

Lemma scribbled_ed_length : Z.of_nat (length (image scribbled_ed)) = 133136.
Proof. vm_compute. reflexivity. Qed.

(** Every sector up to the last one of the geometry lies in the image. *)
Lemma in_image_by_length img sect :
  1 <= sect -> sect * 128 + 16 <= Z.of_nat (length img) -> in_image img sect.
Proof. unfold in_image, sector_offset, SECTOR_SIZE. lia. Qed.

Lemma putbitmap_getbitmap_counts_match_witness :
  in_image (image fresh_sd) SECTOR_VTOC /\
  (720 = ED_DISK_SIZE -> in_image (image fresh_sd) SECTOR_VTOC2) /\
  length all_free_bitmap = 128%nat /\ length auto_buf = 128%nat /\
  exists w1 bitmap' w2 out,
    putbitmap 720 all_free_bitmap fresh_sd = Ret tt w1 /\
    getbitmap 720 auto_buf true w1 = Ret bitmap' w2 /\
    stdout w2 = stdout fresh_sd ++ out /\
    take SD_BITMAP_SIZE bitmap' = take SD_BITMAP_SIZE all_free_bitmap /\
    le16 (sector_of (image w1) SECTOR_VTOC) VTOC_NUM_UNUSED
      = count_free bitmap' SD_BITMAP_SIZE /\
    Vtoc_count_ok (count_free all_free_bitmap SD_BITMAP_SIZE) ∈ out /\
    (forall a b, Vtoc_count_mismatch a b ∉ out) /\
    if decide (720 = ED_DISK_SIZE) then
      bitmap' = all_free_bitmap /\
      le16 (sector_of (image w1) SECTOR_VTOC2) VTOC2_NUM_UNUSED
        = count_free (drop SD_BITMAP_SIZE bitmap') (ED_BITMAP_SIZE - SD_BITMAP_SIZE) /\
      Vtoc2_count_ok
        (count_free (drop SD_BITMAP_SIZE all_free_bitmap) (ED_BITMAP_SIZE - SD_BITMAP_SIZE))
        ∈ out /\
      (forall a b, Vtoc2_count_mismatch a b ∉ out)
    else
      Checking_vtoc2_count ∉ out.
Proof.
  assert (in_image (image fresh_sd) SECTOR_VTOC) as Hv.
  { apply in_image_by_length; [done|]. rewrite fresh_sd_length. done. }
  split; [exact Hv|]. split; [discriminate|]. split; [reflexivity|]. split; [reflexivity|].
  apply (putbitmap_getbitmap_counts_match 720 all_free_bitmap auto_buf fresh_sd);
    [exact Hv|discriminate|reflexivity|reflexivity].
Defined.

(** ** VTOC2 and its mirror of the VTOC bitmap *)

Lemma byte_at_drop (l : list Z) n i : byte_at (drop n l) i = byte_at l (n + i).
Proof. unfold byte_at. by rewrite !nth_lookup, lookup_drop. Qed.

Lemma byte_at_take (l : list Z) n i : (i < n)%nat -> byte_at (take n l) i = byte_at l i.
Proof. intros. unfold byte_at. by rewrite !nth_lookup, lookup_take_lt. Qed.

Lemma bit_free_drop (l : list Z) k x :
  0 <= x -> bit_free (drop k l) x = bit_free l (x + 8 * Z.of_nat k).
Proof.
  intros Hx. rewrite !bit_free_testbit, byte_at_drop.
  assert (Z.shiftr (x + 8 * Z.of_nat k) 3 = Z.shiftr x 3 + Z.of_nat k) as ->.
  { rewrite !Z.shiftr_div_pow2 by lia. change (2 ^ 3) with 8.
    rewrite (Z.mul_comm 8), Z.div_add by lia. done. }
  assert (Z.land (x + 8 * Z.of_nat k) 7 = Z.land x 7) as ->.
  { change 7 with (Z.ones 3). rewrite !Z.land_ones by lia. change (2 ^ 3) with 8.
    rewrite (Z.mul_comm 8), Z.mod_add by lia. done. }
  assert (0 <= Z.shiftr x 3) by (by apply Z.shiftr_nonneg).
  do 2 f_equal. lia.
Qed.

Lemma bit_free_take (l : list Z) n x :
  0 <= x < 8 * Z.of_nat n -> bit_free (take n l) x = bit_free l x.
Proof.
  intros Hx. rewrite !bit_free_testbit, byte_at_take; [done|].
  rewrite Z.shiftr_div_pow2 by lia. change (2 ^ 3) with 8.
  assert (0 <= x / 8 < Z.of_nat n); [|lia].
  split; [apply Z.div_pos; lia|apply Z.div_lt_upper_bound; lia].
Qed.

Lemma le16_drop (l : list Z) n i : le16 (drop n l) i = le16 l (n + i).
Proof. unfold le16. rewrite !byte_at_drop. do 3 f_equal. lia. Qed.

(** [getbitmap] on the extended geometry, as one expression: the two
    copies fill bytes 0 to 127 of the caller's array. *)
Lemma bitmap_of_vtoc2_of_vtoc (buf vtoc vtoc2 : list Z) :
  length vtoc = 128%nat -> length vtoc2 = 128%nat ->
  bitmap_of_vtoc2 (bitmap_of_vtoc buf vtoc) vtoc2
  = take 90 (drop 10 vtoc) ++ take 38 (drop 84 vtoc2) ++ drop 128 buf.
Proof.
  intros Hv Hv2. unfold bitmap_of_vtoc2, bitmap_of_vtoc, memcpy.
  change (ED_BITMAP_SIZE - SD_BITMAP_SIZE)%nat with 38%nat.
  change (SD_BITMAP_SIZE - ED_BITMAP_START)%nat with 84%nat.
  change SD_BITMAP_SIZE with 90%nat. change VTOC_BITMAP with 10%nat.
  rewrite take_0, app_nil_l.
  assert (length (take 90 (drop 10 vtoc)) = 90%nat) as H1
    by (rewrite length_take, length_drop; lia).
  assert (length (take 38 (drop 84 vtoc2)) = 38%nat) as H2
    by (rewrite length_take, length_drop; lia).
  rewrite H1, H2. cbn [Nat.add].
  rewrite take_app_length' by done. do 2 f_equal.
  change 128%nat with (90 + 38)%nat at 1. rewrite <- drop_drop.
  rewrite drop_app_length' by done. rewrite drop_drop. done.
Qed.

(** C9.  Under the extended geometry [putbitmap] writes into VTOC2, on
    every call, bitmap bytes 6 to 89 at bytes 0 to 83 (the bits of
    sectors 48 to 719 once more), bitmap bytes 90 to 127 at bytes 84 to
    121 (the bits of sectors 720 to 1023) and the free count of that
    upper region at bytes 122 and 123.  [getbitmap] builds the bitmap
    from the VTOC and from bytes 84 to 121 of VTOC2 alone: bytes 0 to
    89 of the result are bytes 10 to 99 of the VTOC, bytes 90 to 127
    are bytes 84 to 121 of VTOC2, and what the caller's array holds
    behind byte 127 stays; so on two images that agree there it
    returns the same bitmap, whatever bytes 0 to 83 of VTOC2 hold; the
    report of the check is the same as well when the stored counts at
    bytes 122 and 123 agree. *)
Theorem vtoc2_mirror_written_not_read
    (bitmap buf : list Z) (check : bool) (w wa wb : world) :
  in_image (image w) SECTOR_VTOC -> in_image (image w) SECTOR_VTOC2 ->
  length bitmap = 128%nat ->
  in_image (image wa) SECTOR_VTOC -> in_image (image wa) SECTOR_VTOC2 ->
  in_image (image wb) SECTOR_VTOC -> in_image (image wb) SECTOR_VTOC2 ->
  sector_of (image wa) SECTOR_VTOC = sector_of (image wb) SECTOR_VTOC ->
  take 38 (drop 84 (sector_of (image wa) SECTOR_VTOC2))
    = take 38 (drop 84 (sector_of (image wb) SECTOR_VTOC2)) ->
  (exists w1,
     putbitmap ED_DISK_SIZE bitmap w = Ret tt w1 /\
     take 84 (sector_of (image w1) SECTOR_VTOC2) = take 84 (drop 6 bitmap) /\
     take 38 (drop 84 (sector_of (image w1) SECTOR_VTOC2)) = drop 90 bitmap /\
     le16 (sector_of (image w1) SECTOR_VTOC2) 122 = count_free (drop 90 bitmap) 38 /\
     forall x, 48 <= x < 1024 ->
       bit_free (sector_of (image w1) SECTOR_VTOC2) (x - 48) = bit_free bitmap x) /\
  (exists bitmap' wa' wb',
     getbitmap ED_DISK_SIZE buf check wa = Ret bitmap' wa' /\
     getbitmap ED_DISK_SIZE buf check wb = Ret bitmap' wb' /\
     bitmap' = take 90 (drop 10 (sector_of (image wa) SECTOR_VTOC)) ++
               take 38 (drop 84 (sector_of (image wa) SECTOR_VTOC2)) ++
               drop 128 buf /\
     (le16 (sector_of (image wa) SECTOR_VTOC2) VTOC2_NUM_UNUSED
        = le16 (sector_of (image wb) SECTOR_VTOC2) VTOC2_NUM_UNUSED ->
      exists out, stdout wa' = stdout wa ++ out /\ stdout wb' = stdout wb ++ out)).
Proof.
  intros Hv Hv2 Hb Hva Hva2 Hvb Hvb2 Hsame Hupper. split.
  - destruct (putbitmap_sectors ED_DISK_SIZE bitmap w Hv (fun _ => Hv2) Hb)
      as (w1 & Hput & _ & _ & _ & Hs2 & _).
    specialize (Hs2 eq_refl). exists w1. split; [done|]. rewrite Hs2.
    assert (length (sector_of (image w) SECTOR_VTOC2) = 128%nat) as Hl
      by (by apply length_sector_of).
    pose proof (vtoc2_of_bitmap_bytes bitmap _ Hl Hb) as Hbytes.
    unfold VTOC2_NUM_UNUSED, ED_BITMAP_START in Hbytes.
    split; [|split; [|split]].
    + rewrite <- Hbytes, take_take. done.
    + by apply vtoc2_of_bitmap_upper.
    + by apply vtoc2_of_bitmap_count.
    + intros x Hx. rewrite <- (bit_free_take _ 122) by lia.
      rewrite Hbytes, bit_free_drop by lia. f_equal. lia.
  - destruct (getbitmap_run ED_DISK_SIZE buf check wa Hva (fun _ => Hva2))
      as (wa' & Hga & _ & Hoa).
    destruct (getbitmap_run ED_DISK_SIZE buf check wb Hvb (fun _ => Hvb2))
      as (wb' & Hgb & _ & Hob).
    cbn zeta in *.
    rewrite decide_True in Hga by done. rewrite decide_True in Hgb by done.
    rewrite decide_True in Hoa by done. rewrite decide_True in Hob by done.
    assert (bitmap_of_vtoc2 (bitmap_of_vtoc buf (sector_of (image wb) SECTOR_VTOC))
                            (sector_of (image wb) SECTOR_VTOC2)
            = take 90 (drop 10 (sector_of (image wa) SECTOR_VTOC)) ++
              take 38 (drop 84 (sector_of (image wa) SECTOR_VTOC2)) ++
              drop 128 buf) as Hbits.
    { rewrite bitmap_of_vtoc2_of_vtoc by (by apply length_sector_of).
      by rewrite Hsame, Hupper. }
    rewrite Hsame in Hga, Hoa.
    set (bitmap1 := bitmap_of_vtoc buf (sector_of (image wb) SECTOR_VTOC)) in *.
    assert (bitmap_of_vtoc2 bitmap1 (sector_of (image wa) SECTOR_VTOC2)
            = bitmap_of_vtoc2 bitmap1 (sector_of (image wb) SECTOR_VTOC2)) as Hbm.
    { unfold bitmap_of_vtoc2.
      change (ED_BITMAP_SIZE - SD_BITMAP_SIZE)%nat with 38%nat.
      change (SD_BITMAP_SIZE - ED_BITMAP_START)%nat with 84%nat. by rewrite Hupper. }
    rewrite Hbm in Hga, Hoa. eexists _, wa', wb'. split; [done|]. split; [done|].
    split; [exact Hbits|].
    intros Hc. unfold vtoc2_report in Hoa. rewrite Hc in Hoa.
    by eexists.
Qed.

Lemma vtoc2_mirror_written_not_read_witness :
  in_image (image fresh_ed) SECTOR_VTOC /\ in_image (image fresh_ed) SECTOR_VTOC2 /\
  length all_free_bitmap = 128%nat /\
  in_image (image fresh_ed) SECTOR_VTOC /\ in_image (image fresh_ed) SECTOR_VTOC2 /\
  in_image (image scribbled_ed) SECTOR_VTOC /\ in_image (image scribbled_ed) SECTOR_VTOC2 /\
  sector_of (image fresh_ed) SECTOR_VTOC = sector_of (image scribbled_ed) SECTOR_VTOC /\
  take 38 (drop 84 (sector_of (image fresh_ed) SECTOR_VTOC2))
    = take 38 (drop 84 (sector_of (image scribbled_ed) SECTOR_VTOC2)) /\
  take 84 (sector_of (image fresh_ed) SECTOR_VTOC2)
    <> take 84 (sector_of (image scribbled_ed) SECTOR_VTOC2) /\
  (exists w1,
     putbitmap ED_DISK_SIZE all_free_bitmap fresh_ed = Ret tt w1 /\
     take 84 (sector_of (image w1) SECTOR_VTOC2) = take 84 (drop 6 all_free_bitmap) /\
     take 38 (drop 84 (sector_of (image w1) SECTOR_VTOC2)) = drop 90 all_free_bitmap /\
     le16 (sector_of (image w1) SECTOR_VTOC2) 122 = count_free (drop 90 all_free_bitmap) 38 /\
     forall x, 48 <= x < 1024 ->
       bit_free (sector_of (image w1) SECTOR_VTOC2) (x - 48) = bit_free all_free_bitmap x) /\
  (exists bitmap' wa' wb',
     getbitmap ED_DISK_SIZE auto_buf true fresh_ed = Ret bitmap' wa' /\
     getbitmap ED_DISK_SIZE auto_buf true scribbled_ed = Ret bitmap' wb' /\
     bitmap' = take 90 (drop 10 (sector_of (image fresh_ed) SECTOR_VTOC)) ++
               take 38 (drop 84 (sector_of (image fresh_ed) SECTOR_VTOC2)) ++
               drop 128 auto_buf /\
     (le16 (sector_of (image fresh_ed) SECTOR_VTOC2) VTOC2_NUM_UNUSED
        = le16 (sector_of (image scribbled_ed) SECTOR_VTOC2) VTOC2_NUM_UNUSED ->
      exists out, stdout wa' = stdout fresh_ed ++ out /\
                  stdout wb' = stdout scribbled_ed ++ out)).
Proof.
  assert (in_image (image fresh_ed) SECTOR_VTOC) as Hv.
  { apply in_image_by_length; [done|]. rewrite fresh_ed_length. done. }
  assert (in_image (image fresh_ed) SECTOR_VTOC2) as Hv2.
  { apply in_image_by_length; [done|]. rewrite fresh_ed_length. done. }
  assert (in_image (image scribbled_ed) SECTOR_VTOC) as Hvb.
  { apply in_image_by_length; [done|]. rewrite scribbled_ed_length. done. }
  assert (in_image (image scribbled_ed) SECTOR_VTOC2) as Hvb2.
  { apply in_image_by_length; [done|]. rewrite scribbled_ed_length. done. }
  assert (sector_of (image fresh_ed) SECTOR_VTOC = sector_of (image scribbled_ed) SECTOR_VTOC)
    as Hsame by (vm_compute; reflexivity).
  assert (take 38 (drop 84 (sector_of (image fresh_ed) SECTOR_VTOC2))
          = take 38 (drop 84 (sector_of (image scribbled_ed) SECTOR_VTOC2)))
    as Hupper by (vm_compute; reflexivity).
  do 9 (split; [first [assumption | reflexivity]|]).
  split; [vm_compute; discriminate|].
  apply (vtoc2_mirror_written_not_read all_free_bitmap auto_buf true
           fresh_ed fresh_ed scribbled_ed); first [assumption | reflexivity].
Defined.

(** ** The directory: [find_file] and [find_empty_entry] *)

Lemma in_image_mono img s s' : in_image img s -> 1 <= s' <= s -> in_image img s'.
Proof. unfold in_image, sector_offset, SECTOR_SIZE. lia. Qed.

Lemma dir_sectors_present img :
  dir_present img -> Forall (in_image img) dir_sectors.
Proof.
  intros Hd. apply Forall_forall. intros x Hx. apply elem_of_seqZ in Hx.
  eapply in_image_mono; [exact Hd|]. unfold SECTOR_DIR, SECTOR_DIR_SIZE in *. lia.
Qed.

Lemma cstring_idem s : cstring (cstring s) = cstring s.
Proof.
  induction s as [|c s IH]; [done|]. cbn [cstring].
  destruct (decide (c = 0)); [done|]. cbn [cstring]. rewrite decide_False by done.
  by rewrite IH.
Qed.

Lemma getname_cstring d : cstring (getname d) = getname d.
Proof. unfold getname. apply cstring_idem. Qed.

Lemma file_entry_in_find buf filename ys :
  file_entry_in buf filename ys
  = snd <$> list_find (fun y => names_file filename (dirent_at buf y)) ys.
Proof.
  induction ys as [|y ys IH]; [done|]. cbn [file_entry_in list_find].
  unfold strcmp_eq. rewrite getname_cstring.
  destruct (decide (Z.land (flag (dirent_at buf y)) FLAG_IN_USE = 0)) as [H0|H0].
  - rewrite decide_False by (unfold names_file, in_use; tauto). rewrite IH.
    by destruct (list_find _ ys) as [[]|].
  - destruct (decide (getname (dirent_at buf y) = cstring filename)) as [Hn|Hn].
    + rewrite bool_decide_true by done.
      rewrite decide_True by done. done.
    + rewrite bool_decide_false by done.
      rewrite decide_False by (unfold names_file; tauto). rewrite IH.
      by destruct (list_find _ ys) as [[]|].
Qed.

Lemma empty_entry_in_find buf ys :
  empty_entry_in buf ys = snd <$> list_find (fun y => ~ in_use (dirent_at buf y)) ys.
Proof.
  induction ys as [|y ys IH]; [done|]. cbn [empty_entry_in list_find].
  destruct (decide (Z.land (flag (dirent_at buf y)) FLAG_IN_USE = 0)) as [H0|H0].
  - rewrite decide_True by (unfold in_use; tauto). done.
  - rewrite decide_False by (unfold in_use; tauto). rewrite IH.
    by destruct (list_find _ ys) as [[]|].
Qed.

(** The slots of the directory sectors [xs], in storage order. *)
Lemma list_find_slots (P : Z * nat -> Prop) `{!forall s, Decision (P s)} x (xs : list Z) :
  list_find P (x' ← x :: xs; (pair x' <$> entry_offsets)) =
  match list_find (fun y => P (x, y)) entry_offsets with
  | Some (j, y) => Some (j, (x, y))
  | None =>
      prod_map (fun n => (n + 8)%nat) id
        <$> list_find P (x' ← xs; (pair x' <$> entry_offsets))
  end.
Proof.
  cbn [mbind list_bind].
  destruct (list_find (fun y => P (x, y)) entry_offsets) as [[j y]|] eqn:Hf.
  - apply list_find_app_l. rewrite list_find_fmap.
    change (P ∘ pair x) with (fun y => P (x, y)). by rewrite Hf.
  - rewrite list_find_app_r.
    + done.
    + rewrite list_find_fmap. change (P ∘ pair x) with (fun y => P (x, y)). by rewrite Hf.
Qed.

Lemma find_file_in_run filename del xs : forall buf w,
  Forall (in_image (image w)) xs -> length buf = 128%nat ->
  exists w',
    find_file_in xs buf filename del w =
      Ret (match list_find (fun s => names_file filename (entry (image w) s))
                           (x ← xs; (pair x <$> entry_offsets)) with
           | Some (_, s) => start_sector (entry (image w) s)
           | None => -1
           end) w' /\
    stdout w' = stdout w /\
    image w' =
      match list_find (fun s => names_file filename (entry (image w) s))
                      (x ← xs; (pair x <$> entry_offsets)) with
      | Some (_, s) =>
          if del then
            store_sector (image w) (fst s) (<[snd s := 0x80]> (sector_of (image w) (fst s)))
          else image w
      | None => image w
      end.
Proof.
  induction xs as [|x xs IH]; intros buf w Hxs Hbuf.
  - exists w. done.
  - apply Forall_cons in Hxs as [Hx Hxs]. cbn [find_file_in]. unfold bind.
    destruct (getsect_in_image buf x w Hx Hbuf) as (w1 & -> & Hi1 & Ho1).
    rewrite file_entry_in_find, list_find_slots.
    change (fun y => names_file filename (entry (image w) (x, y)))
      with (fun y => names_file filename (dirent_at (sector_of (image w) x) y)).
    destruct (list_find _ entry_offsets) as [[j y]|] eqn:Hf; cbn [fmap option_fmap option_map snd fst].
    + destruct del.
      * assert (in_image (image w1) x) as Hx1 by (by rewrite Hi1).
        assert (length (<[y := 0x80]> (sector_of (image w) x)) = 128%nat) as Hl.
        { rewrite length_insert. by apply length_sector_of. }
        destruct (putsect_in_image _ x w1 Hx1 Hl) as (w2 & -> & Hi2 & Ho2).
        exists w2. unfold ret. split; [done|]. split; [congruence|]. by rewrite Hi2, Hi1.
      * exists w1. unfold ret. done.
    + rewrite <- Hi1 in Hxs.
      destruct (IH (sector_of (image w) x) w1 Hxs) as (w2 & -> & Ho2 & Hi2).
      { apply length_sector_of. done. }
      rewrite Hi1 in *. exists w2.
      destruct (list_find _ (_ ≫= _)) as [[k s]|]; cbn [fmap option_fmap option_map prod_map];
        (split; [done|]); (split; [congruence|done]).
Qed.

Lemma find_empty_entry_in_run xs : forall buf w,
  Forall (in_image (image w)) xs -> length buf = 128%nat ->
  exists w',
    find_empty_entry_in xs buf w =
      Ret (match list_find (fun s => ~ in_use (entry (image w) s))
                           (x ← xs; (pair x <$> entry_offsets)) with
           | Some (_, s) => slot_number (fst s) (snd s)
           | None => -1
           end) w' /\
    stdout w' = stdout w /\ image w' = image w.
Proof.
  induction xs as [|x xs IH]; intros buf w Hxs Hbuf.
  - exists w. done.
  - apply Forall_cons in Hxs as [Hx Hxs]. cbn [find_empty_entry_in]. unfold bind.
    destruct (getsect_in_image buf x w Hx Hbuf) as (w1 & -> & Hi1 & Ho1).
    rewrite empty_entry_in_find, list_find_slots.
    change (fun y => ~ in_use (entry (image w) (x, y)))
      with (fun y => ~ in_use (dirent_at (sector_of (image w) x) y)).
    destruct (list_find _ entry_offsets) as [[j y]|] eqn:Hf; cbn [fmap option_fmap option_map snd fst].
    + exists w1. unfold ret. done.
    + rewrite <- Hi1 in Hxs.
      destruct (IH (sector_of (image w) x) w1 Hxs) as (w2 & -> & Ho2 & Hi2).
      { apply length_sector_of. done. }
      rewrite Hi1 in *. exists w2.
      destruct (list_find _ (_ ≫= _)) as [[k s]|]; cbn [fmap option_fmap option_map prod_map];
        (split; [done|]); (split; [congruence|done]).
Qed.

(** The slot number that [find_empty_entry] computes is the position
    of the slot in storage order. *)
Lemma slot_number_position k s :
  dir_slots !! k = Some s -> slot_number (fst s) (snd s) = Z.of_nat k.
Proof.
  intros Hk.
  assert (imap (fun k s => slot_number (fst s) (snd s) - Z.of_nat k) dir_slots
          = replicate 64 0) as Himap by (vm_compute; reflexivity).
  assert (imap (fun k s => slot_number (fst s) (snd s) - Z.of_nat k) dir_slots !! k = Some 0)
    as Hz.
  { rewrite Himap. apply lookup_replicate_2.
    apply lookup_lt_Some in Hk. by vm_compute in Hk. }
  rewrite list_lookup_imap, Hk in Hz. injection Hz as Hz. lia.
Qed.

Lemma one_file_sd_length : Z.of_nat (length (image one_file_sd)) = 92176.
Proof. vm_compute. reflexivity. Qed.

Lemma lower_not_upper c : ~ is_upper (lower c).
Proof.
  unfold is_upper, lower.
  destruct (65 <=? c) eqn:H1, (c <=? 90) eqn:H2; cbn [andb]; lia.
Qed.

Lemma elem_of_cstring c s : c ∈ cstring s -> c ∈ s.
Proof.
  induction s as [|a s IH]; [done|]. cbn [cstring].
  destruct (decide (a = 0)); [by intros ?%elem_of_nil|].
  rewrite !elem_of_cons. intros [->|Hc]; [by left|right; by apply IH].
Qed.

Lemma elem_of_take_list (c : Z) n s : c ∈ take n s -> c ∈ s.
Proof. intros Hc. rewrite <- (take_drop n s). apply elem_of_app. by left. Qed.

(** [getname] never gives an upper-case letter. *)
Lemma getname_no_upper d c : c ∈ getname d -> ~ is_upper c.
Proof.
  unfold getname. intros Hc%elem_of_cstring.
  assert (c ∈ (take (zap_spaces (map lower (name d)) (length (map lower (name d))))
                    (map lower (name d)) ++ [46]) ++ map lower (suffix d)) as Hin.
  { destruct (decide _) in Hc; [apply elem_of_take_list in Hc|];
      by apply elem_of_take_list in Hc. }
  rewrite !elem_of_app in Hin. destruct Hin as [[Hn|Hdot]|Hs].
  - apply elem_of_take_list, list_elem_of_fmap in Hn as (c' & -> & _). apply lower_not_upper.
  - apply list_elem_of_singleton in Hdot as ->. unfold is_upper. lia.
  - apply list_elem_of_fmap in Hs as (c' & -> & _). apply lower_not_upper.
Qed.

Lemma map_lower_idem l : map lower (map lower l) = map lower l.
Proof.
  rewrite map_map. apply map_ext. intros c. unfold lower.
  destruct ((65 <=? c) && (c <=? 90)) eqn:E.
  - destruct ((65 <=? c - 65 + 97) && (c - 65 + 97 <=? 90)) eqn:E2; [|done].
    apply andb_true_iff in E as [? ?]. apply andb_true_iff in E2 as [? ?]. lia.
  - by rewrite E.
Qed.

(** C6, as the code has it.  [find_file] visits the 64 slots in
    storage order and returns the start sector of the first entry that
    is in use and whose name, as [getname] gives it (lower case,
    dotted), is exactly the name asked for; it returns -1 when there is
    none, and leaves the disk as it was.  The letters stored in the
    entry count whatever their case, since [getname] lowers them; the
    name asked for is taken as it is, so that a request with an
    upper-case letter finds nothing. *)
Theorem find_file_first_exact_match (filename : list Z) (w : world) :
  dir_present (image w) ->
  exists w',
    find_file filename false w =
      Ret (match list_find (fun s => names_file filename (entry (image w) s)) dir_slots with
           | Some (_, s) => start_sector (entry (image w) s)
           | None => -1
           end) w' /\
    image w' = image w /\ stdout w' = stdout w /\
    (forall d, getname d
               = getname (mkDirent (flag d) (count_lo d) (count_hi d) (start_lo d) (start_hi d)
                                   (map lower (name d)) (map lower (suffix d)))) /\
    ((exists c, c ∈ cstring filename /\ is_upper c) ->
     find_file filename false w = Ret (-1) w').
Proof.
  intros Hd.
  destruct (find_file_in_run filename false dir_sectors auto_buf w
              (dir_sectors_present _ Hd) length_auto_buf) as (w' & Hrun & Ho & Hi).
  fold dir_slots in Hrun, Hi. unfold find_file. exists w'.
  split; [done|]. split; [by destruct (list_find _ _) as [[]|]|]. split; [done|]. split.
  - intros d. unfold getname. cbn [name suffix]. by rewrite !map_lower_idem.
  - intros (c & Hc & Hup). rewrite Hrun.
    destruct (list_find _ _) as [[k s]|] eqn:Hf; [|done].
    apply list_find_Some in Hf as (_ & [_ Hn] & _).
    rewrite <- Hn in Hc. by apply getname_no_upper in Hc.
Qed.

Lemma find_file_first_exact_match_witness :
  dir_present (image one_file_sd) /\
  exists w',
    find_file test_txt false one_file_sd =
      Ret (match list_find (fun s => names_file test_txt (entry (image one_file_sd) s))
                           dir_slots with
           | Some (_, s) => start_sector (entry (image one_file_sd) s)
           | None => -1
           end) w' /\
    image w' = image one_file_sd /\ stdout w' = stdout one_file_sd /\
    (forall d, getname d
               = getname (mkDirent (flag d) (count_lo d) (count_hi d) (start_lo d) (start_hi d)
                                   (map lower (name d)) (map lower (suffix d)))) /\
    ((exists c, c ∈ cstring test_txt /\ is_upper c) ->
     find_file test_txt false one_file_sd = Ret (-1) w').
Proof.
  assert (dir_present (image one_file_sd)) as Hd.
  { apply in_image_by_length; [done|]. rewrite one_file_sd_length. done. }
  split; [exact Hd|]. apply (find_file_first_exact_match test_txt one_file_sd Hd).
Defined.

(** C6 as stated fails.  The directory of [one_file_sd] holds the name
    TEST.TXT in slot 0, in use.  Asked for ["TEST.TXT"], or for
    ["Test.txt"], which differs from it in letter case only,
    [find_file] returns -1; only ["test.txt"] finds start sector 4. *)
Lemma find_file_is_case_sensitive :
  name (entry (image one_file_sd) (SECTOR_DIR, 0%nat)) ++ [46]
    ++ suffix (entry (image one_file_sd) (SECTOR_DIR, 0%nat))
  = [84; 69; 83; 84; 32; 32; 32; 32; 46; 84; 88; 84] /\
  Z.land (flag (entry (image one_file_sd) (SECTOR_DIR, 0%nat))) FLAG_IN_USE = FLAG_IN_USE /\
  returned (find_file TEST_TXT false one_file_sd) = Some (-1) /\
  returned (find_file Test_txt false one_file_sd) = Some (-1) /\
  returned (find_file test_txt false one_file_sd) = Some 4.
Proof. repeat apply conj; vm_compute; reflexivity. Qed.

(** ** Deleting an entry *)

Lemma entry_offsets_spec y : y ∈ entry_offsets -> exists j, (j < 8)%nat /\ y = (16 * j)%nat.
Proof.
  unfold entry_offsets. rewrite !elem_of_cons, elem_of_nil.
  intros [->|[->|[->|[->|[->|[->|[->|[->|[]]]]]]]]];
    [exists 0%nat|exists 1%nat|exists 2%nat|exists 3%nat|exists 4%nat|exists 5%nat
    |exists 6%nat|exists 7%nat]; lia.
Qed.

Lemma dir_slots_spec s :
  s ∈ dir_slots -> fst s ∈ dir_sectors /\ exists j, (j < 8)%nat /\ snd s = (16 * j)%nat.
Proof.
  unfold dir_slots. intros (x & Hs & Hx)%list_elem_of_bind.
  apply list_elem_of_fmap in Hs as (y & -> & Hy). split; [done|]. by apply entry_offsets_spec.
Qed.

Lemma dir_slots_NoDup : NoDup dir_slots.
Proof. apply (bool_decide_unpack _). vm_compute. reflexivity. Qed.

Lemma flag_dirent_at_insert (buf : list Z) y v :
  (y < length buf)%nat -> flag (dirent_at (<[y := v]> buf) y) = v.
Proof. intros. unfold dirent_at. cbn [flag]. by apply byte_at_insert_eq. Qed.

Lemma dirent_at_insert_other (buf : list Z) y y' v :
  (y < y' \/ y' + 16 <= y)%nat -> dirent_at (<[y := v]> buf) y' = dirent_at buf y'.
Proof.
  intros Hy. unfold dirent_at. cbn [map seq].
  rewrite !byte_at_insert_ne by lia. done.
Qed.

(** C5, as the code has it.  When [find_file] is called with [del] set
    and slot [k] is the first whose entry matches, the flag byte of
    that entry is overwritten with 0x80: the deleted flag set and the
    in-use flag cleared, every other entry left as it was.  The empty
    slot scan [find_empty_entry] then does return a slot, one at or
    before [k], and slot [k] itself when the slots before it are all
    in use. *)
Theorem find_file_delete_frees_slot (filename : list Z) (w : world) (k : nat) (s : Z * nat) :
  dir_present (image w) ->
  list_find (fun s => names_file filename (entry (image w) s)) dir_slots = Some (k, s) ->
  exists w1 e w2,
    find_file filename true w = Ret (start_sector (entry (image w) s)) w1 /\
    flag (entry (image w1) s) = FLAG_DELETED /\
    ~ in_use (entry (image w1) s) /\
    (forall s', s' ∈ dir_slots -> s' <> s -> entry (image w1) s' = entry (image w) s') /\
    find_empty_entry w1 = Ret e w2 /\
    0 <= e <= Z.of_nat k /\
    ((forall j s', (j < k)%nat -> dir_slots !! j = Some s' -> in_use (entry (image w) s')) ->
     e = Z.of_nat k).
Proof.
  intros Hd Hfind.
  destruct (find_file_in_run filename true dir_sectors auto_buf w
              (dir_sectors_present _ Hd) length_auto_buf) as (w1 & Hrun & Ho1 & Hi1).
  fold dir_slots in Hrun, Hi1. rewrite Hfind in Hrun, Hi1.
  pose proof Hfind as (Hk & _ & _)%list_find_Some.
  assert (s ∈ dir_slots) as Hs by (by eapply list_elem_of_lookup_2).
  destruct s as [x y]. cbn [fst snd] in Hi1.
  destruct (dir_slots_spec _ Hs) as (Hx & j & Hj & Hy). cbn [fst snd] in Hx, Hy.
  assert (in_image (image w) x) as Hxin.
  { pose proof (dir_sectors_present _ Hd) as Hall. by eapply Forall_forall in Hall. }
  assert (1 <= x) as Hx1 by apply Hxin.
  pose proof (length_sector_of _ _ Hxin) as Hlen.
  assert (length (<[y := 0x80]> (sector_of (image w) x)) = 128%nat) as Hlen'
    by (by rewrite length_insert).
  assert (flag (entry (image w1) (x, y)) = FLAG_DELETED) as Hflag.
  { unfold entry. cbn [fst snd]. rewrite Hi1, sector_of_store_eq by done.
    apply flag_dirent_at_insert. lia. }
  assert (~ in_use (entry (image w1) (x, y))) as Hfree.
  { unfold in_use. rewrite Hflag. intros Hn. by apply Hn. }
  assert (forall s', s' ∈ dir_slots -> s' <> (x, y) ->
            entry (image w1) s' = entry (image w) s') as Hothers.
  { intros [x' y'] Hs' Hne.
    destruct (dir_slots_spec _ Hs') as (Hx' & j' & Hj' & Hy'). cbn [fst snd] in Hx', Hy'.
    assert (1 <= x') by (apply elem_of_seqZ in Hx'; unfold SECTOR_DIR in Hx'; lia).
    unfold entry. cbn [fst snd]. rewrite Hi1.
    destruct (decide (x' = x)) as [->|Hxx].
    - rewrite sector_of_store_eq by done. apply dirent_at_insert_other.
      assert (j <> j') by (intros ->; apply Hne; by subst). lia.
    - by rewrite sector_of_store_ne. }
  assert (dir_present (image w1)) as Hd1.
  { unfold dir_present, in_image in *. rewrite Hi1, length_store_sector by done. done. }
  destruct (find_empty_entry_in_run dir_sectors auto_buf w1
              (dir_sectors_present _ Hd1) length_auto_buf) as (w2 & Hrun2 & _ & _).
  fold dir_slots in Hrun2.
  destruct (list_find (fun s => ~ in_use (entry (image w1) s)) dir_slots) as [[i s']|] eqn:Hf2.
  - apply list_find_Some in Hf2 as (Hi & Hsfree & Hmin).
    rewrite (slot_number_position i s' Hi) in Hrun2.
    assert (i <= k)%nat as Hik.
    { destruct (decide (i <= k)%nat); [done|]. exfalso.
      apply (Hmin k (x, y)); [done|lia|done]. }
    exists w1, (Z.of_nat i), w2. unfold find_file, find_empty_entry.
    split; [done|]. split; [done|]. split; [done|]. split; [done|]. split; [done|].
    split; [lia|]. intros Hused.
    destruct (decide (i = k)) as [->|Hne]; [done|]. exfalso.
    apply Hsfree. rewrite Hothers.
    + apply (Hused i); [lia|done].
    + by eapply list_elem_of_lookup_2.
    + intros ->. apply Hne. by eapply NoDup_lookup; [apply dir_slots_NoDup|..].
  - exfalso. apply list_find_None in Hf2.
    eapply Forall_forall in Hf2; [|exact Hs]. by apply Hf2.
Qed.

Lemma find_file_delete_frees_slot_witness :
  dir_present (image one_file_sd) /\
  list_find (fun s => names_file test_txt (entry (image one_file_sd) s)) dir_slots
    = Some (0%nat, (SECTOR_DIR, 0%nat)) /\
  exists w1 e w2,
    find_file test_txt true one_file_sd
      = Ret (start_sector (entry (image one_file_sd) (SECTOR_DIR, 0%nat))) w1 /\
    flag (entry (image w1) (SECTOR_DIR, 0%nat)) = FLAG_DELETED /\
    ~ in_use (entry (image w1) (SECTOR_DIR, 0%nat)) /\
    (forall s', s' ∈ dir_slots -> s' <> (SECTOR_DIR, 0%nat) ->
       entry (image w1) s' = entry (image one_file_sd) s') /\
    find_empty_entry w1 = Ret e w2 /\
    0 <= e <= Z.of_nat 0 /\
    ((forall j s', (j < 0)%nat -> dir_slots !! j = Some s' ->
        in_use (entry (image one_file_sd) s')) ->
     e = Z.of_nat 0).
Proof.
  assert (dir_present (image one_file_sd)) as Hd.
  { apply in_image_by_length; [done|]. rewrite one_file_sd_length. done. }
  assert (list_find (fun s => names_file test_txt (entry (image one_file_sd) s)) dir_slots
          = Some (0%nat, (SECTOR_DIR, 0%nat))) as Hf by (vm_compute; reflexivity).
  split; [exact Hd|]. split; [exact Hf|].
  apply (find_file_delete_frees_slot test_txt one_file_sd 0 (SECTOR_DIR, 0%nat) Hd Hf).
Defined.

(** C5 as stated fails.  On [one_file_sd] the file test.txt is in slot
    0 with flag 0x42.  After [find_file] with [del] set the flag byte
    of slot 0 is 0x80, the in-use flag is clear, and [find_empty_entry]
    returns slot 0, the slot just deleted. *)
Lemma deleted_slot_is_handed_out_again :
  flag (entry (image one_file_sd) (SECTOR_DIR, 0%nat)) = 0x42 /\
  returned (find_file test_txt true one_file_sd) = Some 4 /\
  returned ((_ <- find_file test_txt true ;;
             buf <- getsect auto_buf SECTOR_DIR ;;
             ret (flag (dirent_at buf 0))) one_file_sd) = Some 0x80 /\
  Z.land 0x80 FLAG_IN_USE = 0 /\
  returned ((_ <- find_file test_txt true ;; find_empty_entry) one_file_sd) = Some 0.
Proof. repeat apply conj; vm_compute; reflexivity. Qed.

(** ** Data sectors: [write_file] *)

(** The trailer bytes decode to what was encoded, for every 10 bit
    sector number and 6 bit file number. *)
Lemma trailer_decode next file_no :
  0 <= next < 1024 -> 0 <= file_no < 64 ->
  u8 next + Z.shiftl (Z.land 3 (u8 (Z.lor (u8 (Z.shiftr next 8)) (Z.shiftl file_no 2)))) 8
    = next /\
  Z.land (Z.shiftr (u8 (Z.lor (u8 (Z.shiftr next 8)) (Z.shiftl file_no 2))) 2) 0x3F = file_no.
Proof.
  intros Hn Hf.
  assert (Z.shiftr next 8 ∈ seqZ 0 4) as Hhi.
  { apply elem_of_seqZ. rewrite Z.shiftr_div_pow2 by lia. change (2 ^ 8) with 256.
    split; [apply Z.div_pos; lia|]. apply Z.div_lt_upper_bound; lia. }
  assert (file_no ∈ seqZ 0 64) as Hfn by (apply elem_of_seqZ; lia).
  assert (forallb (fun hi => forallb (fun f =>
            (Z.land 3 (u8 (Z.lor (u8 hi) (Z.shiftl f 2))) =? hi) &&
            (Z.land (Z.shiftr (u8 (Z.lor (u8 hi) (Z.shiftl f 2))) 2) 0x3F =? f))
            (seqZ 0 64)) (seqZ 0 4) = true) as Hall by (vm_compute; reflexivity).
  rewrite forallb_forall in Hall. specialize (Hall _ (proj1 (list_elem_of_In _ _) Hhi)).
  rewrite forallb_forall in Hall. specialize (Hall _ (proj1 (list_elem_of_In _ _) Hfn)).
  apply andb_true_iff in Hall as [H1%Z.eqb_eq H2%Z.eqb_eq]. split; [|done].
  rewrite H1. unfold u8. rewrite Z.shiftr_div_pow2, Z.shiftl_mul_pow2 by lia.
  change (2 ^ 8) with 256. pose proof (Z.div_mod next 256). lia.
Qed.

Lemma byte_at_trailer (content l : list Z) i :
  length content = 125%nat -> byte_at (content ++ l) (125 + i) = byte_at l i.
Proof.
  intros Hc. unfold byte_at. rewrite !nth_lookup, lookup_app_r by lia. do 2 f_equal. lia.
Qed.

(** What [read_file] decodes from a sector laid out by [data_sector]. *)
Lemma data_sector_decode content file_no next count :
  length content = 125%nat -> 0 <= next < 1024 -> 0 <= file_no < 64 -> 0 <= count < 256 ->
  length (data_sector content file_no next count) = 128%nat /\
  take 125 (data_sector content file_no next count) = content /\
  next_sector (data_sector content file_no next count) = next /\
  file_number (data_sector content file_no next count) = file_no /\
  bytes_used (data_sector content file_no next count) = count.
Proof.
  intros Hc Hn Hf Hcnt. unfold data_sector, next_sector, file_number, bytes_used.
  unfold DATA_NEXT_LOW, DATA_NEXT_HIGH, DATA_FILE_NUM, DATA_BYTES.
  rewrite (byte_at_trailer content _ 0 Hc), (byte_at_trailer content _ 1 Hc),
    (byte_at_trailer content _ 2 Hc).
  unfold byte_at. cbn [nth]. destruct (trailer_decode next file_no Hn Hf) as [H1 H2].
  split; [rewrite length_app; cbn [length]; lia|].
  split; [by rewrite take_app_length'|]. split; [done|]. split; [done|]. by apply u8_small.
Qed.

(** One round of [write_file] stores a sector in the [data_sector]
    layout, whatever the buffer held before. *)
Lemma fill_sector_layout bf buf lst x sects file_no size :
  length bf = 128%nat -> 0 <= x ->
  (Z.to_nat (DATA_SIZE * x) + 125 <= length buf)%nat ->
  fill_sector bf buf lst x sects file_no size =
  data_sector (take 125 (drop (Z.to_nat (DATA_SIZE * x)) buf)) file_no
    (if decide (x + 1 = sects) then 0 else list_at lst (x + 1))
    (if decide (x + 1 = sects) then size else DATA_SIZE).
Proof.
  intros Hbf Hx Hbuf. unfold fill_sector, data_sector.
  change (Z.to_nat DATA_SIZE) with 125%nat.
  set (content := take 125 (drop (Z.to_nat (DATA_SIZE * x)) buf)).
  assert (length content = 125%nat) as Hc.
  { unfold content. rewrite length_take, length_drop. lia. }
  assert (exists a b c, memcpy bf 0 content = content ++ [a; b; c]) as (a & b & c & ->).
  { unfold memcpy. rewrite take_0, app_nil_l, Hc.
    destruct (drop (0 + 125) bf) as [|a [|b [|c [|]]]] eqn:Hd;
      apply (f_equal length) in Hd; rewrite length_drop in Hd; cbn [length] in Hd; try lia.
    by exists a, b, c. }
  unfold DATA_BYTES, DATA_NEXT_HIGH, DATA_NEXT_LOW, DATA_FILE_NUM.
  assert (forall a' (l : list Z),
            <[125%nat := a']> (content ++ l) = content ++ <[0%nat := a']> l) as H125.
  { intros a' l. change 125%nat with (125 + 0)%nat. rewrite <- Hc. apply insert_app_r. }
  assert (forall a' (l : list Z),
            <[126%nat := a']> (content ++ l) = content ++ <[1%nat := a']> l) as H126.
  { intros a' l. change 126%nat with (125 + 1)%nat. rewrite <- Hc. apply insert_app_r. }
  assert (forall a' (l : list Z),
            <[127%nat := a']> (content ++ l) = content ++ <[2%nat := a']> l) as H127.
  { intros a' l. change 127%nat with (125 + 2)%nat. rewrite <- Hc. apply insert_app_r. }
  assert (forall l : list Z, byte_at (content ++ l) 125 = byte_at l 0) as Hb125.
  { intros l. by apply (byte_at_trailer content l 0). }
  destruct (decide (x + 1 = sects)).
  - rewrite H126, H125, H127, Hb125, H125. cbn [list_insert insert byte_at nth]. done.
  - rewrite H126, H125, H127, Hb125, H125. cbn [list_insert insert byte_at nth]. done.
Qed.

Lemma length_data_sector content file_no next count :
  length content = 125%nat -> length (data_sector content file_no next count) = 128%nat.
Proof. intros Hc. unfold data_sector. rewrite length_app. cbn [length]. lia. Qed.

Lemma list_at_lookup lst i :
  0 <= i < Z.of_nat (length lst) -> lst !! Z.to_nat i = Some (list_at lst i).
Proof.
  intros Hi. unfold list_at.
  destruct (nth_lookup_or_length lst (Z.to_nat i) 0) as [H|H]; [done|lia].
Qed.

Lemma list_at_inj lst i j :
  NoDup lst -> 0 <= i < Z.of_nat (length lst) -> 0 <= j < Z.of_nat (length lst) ->
  list_at lst i = list_at lst j -> i = j.
Proof.
  intros Hnd Hi Hj Heq.
  pose proof (list_at_lookup lst i Hi) as H1. pose proof (list_at_lookup lst j Hj) as H2.
  rewrite Heq in H1. pose proof (NoDup_lookup _ _ _ _ Hnd H1 H2). lia.
Qed.

Lemma write_sectors_run buf lst sects file_no :
  NoDup lst -> Z.of_nat (length lst) = sects ->
  Z.of_nat (length buf) = DATA_SIZE * sects ->
  forall n x bf size w,
    Z.of_nat n + x = sects -> 0 <= x -> length bf = 128%nat ->
    (forall s, s ∈ lst -> in_image (image w) s) ->
    exists w',
      write_sectors n bf buf lst x sects file_no size w = Ret tt w' /\
      stdout w' = stdout w /\
      length (image w') = length (image w) /\
      (forall i, x <= i < sects ->
         sector_of (image w') (list_at lst i) =
         data_sector (take 125 (drop (Z.to_nat (DATA_SIZE * i)) buf)) file_no
           (if decide (i + 1 = sects) then 0 else list_at lst (i + 1))
           (if decide (i + 1 = sects) then size - DATA_SIZE * (i - x) else DATA_SIZE)) /\
      (forall s, 1 <= s -> (forall i, x <= i < sects -> list_at lst i <> s) ->
         sector_of (image w') s = sector_of (image w) s).
Proof.
  intros Hnd Hlen Hbuf. induction n as [|n IH]; intros x bf size w Hn Hx Hbf Hin.
  - exists w. cbn [write_sectors]. unfold ret. split; [done|]. split; [done|]. split; [done|].
    split; [intros i Hi; lia|done].
  - cbn [write_sectors]. unfold bind.
    assert (Z.to_nat (DATA_SIZE * x) + 125 <= length buf)%nat as Hroom
      by (unfold DATA_SIZE in *; lia).
    rewrite fill_sector_layout by done.
    set (bf' := data_sector _ _ _ _).
    assert (length bf' = 128%nat) as Hbf'.
    { apply length_data_sector. rewrite length_take, length_drop. lia. }
    assert (list_at lst x ∈ lst) as Hxin.
    { eapply list_elem_of_lookup_2. apply list_at_lookup. lia. }
    pose proof (Hin _ Hxin) as Hxim.
    destruct (putsect_in_image bf' (list_at lst x) w Hxim Hbf') as (w1 & -> & Hi1 & Ho1).
    assert (forall s, in_image (image w1) s <-> in_image (image w) s) as Him1.
    { intros s. rewrite Hi1. by apply in_image_store_sector. }
    destruct (IH (x + 1) bf' (size - DATA_SIZE) w1) as (w' & Hrun & Ho & Hl & Hsec & Hframe);
      [lia|lia|done|by intros s Hs; apply Him1, Hin|].
    exists w'. split; [done|]. split; [congruence|].
    split; [rewrite Hl, Hi1; by apply length_store_sector|]. split.
    + intros i Hi. destruct (decide (i = x)) as [->|Hne].
      * rewrite Hframe.
        -- rewrite Hi1, sector_of_store_eq by done. unfold bf'.
           replace (size - DATA_SIZE * (x - x)) with size by lia. done.
        -- apply Hxim.
        -- intros j Hj Heq. apply list_at_inj in Heq; [lia|done|lia|lia].
      * rewrite Hsec by lia.
        replace (size - DATA_SIZE - DATA_SIZE * (i - (x + 1))) with (size - DATA_SIZE * (i - x))
          by lia.
        done.
    + intros s Hs Hnot. rewrite Hframe; [|done|intros i Hi; apply Hnot; lia].
      rewrite Hi1. apply sector_of_store_ne; [done..|]. intros ->. by apply (Hnot x); [lia|].
Qed.

Lemma free_indices_NoDup ds bitmap : NoDup (free_indices ds bitmap).
Proof. unfold free_indices. apply NoDup_filter, NoDup_seqZ. Qed.

Lemma free_indices_take_NoDup ds bitmap n : NoDup (take n (free_indices ds bitmap)).
Proof. eapply sublist_NoDup; [apply free_indices_NoDup|apply sublist_take]. Qed.

Lemma free_indices_take_range ds bitmap n s :
  s ∈ take n (free_indices ds bitmap) -> 1 <= s < ds.
Proof.
  intros Hs. apply (subseteq_take n) in Hs. by apply free_indices_range in Hs as [? _].
Qed.

(** [write_file] when the space is there: the sectors taken, the
    bitmap, and what is on the disk afterwards. *)
Lemma write_file_run fuel ds bitmap buf sects file_no size w :
  1 <= ds -> (Z.to_nat ds <= fuel)%nat ->
  (forall s, 1 <= s < ds -> in_image (image w) s) ->
  0 <= sects <= Z.of_nat (length (free_indices ds bitmap)) ->
  Z.of_nat (length buf) = DATA_SIZE * sects ->
  exists w',
    let lst := take (Z.to_nat sects) (free_indices ds bitmap) in
    write_file fuel ds bitmap buf sects file_no size w
      = Ret (list_at lst 0, foldl clear_bit bitmap lst) w' /\
    stdout w' = stdout w /\
    length (image w') = length (image w) /\
    (forall i, 0 <= i < sects ->
       sector_of (image w') (list_at lst i) =
       data_sector (take 125 (drop (Z.to_nat (DATA_SIZE * i)) buf)) file_no
         (if decide (i + 1 = sects) then 0 else list_at lst (i + 1))
         (if decide (i + 1 = sects) then size - DATA_SIZE * i else DATA_SIZE)) /\
    (forall s, 1 <= s -> s ∉ lst -> sector_of (image w') s = sector_of (image w) s).
Proof.
  intros Hds Hfuel Himg Hsects Hbuf. cbn zeta.
  pose proof (free_indices_length ds bitmap Hds) as Hlen.
  unfold write_file, bind. rewrite alloc_space_run by lia.
  rewrite decide_True by lia. rewrite app_nil_l. rewrite decide_False by (intros H; by apply H).
  set (lst := take (Z.to_nat sects) (free_indices ds bitmap)).
  assert (Z.of_nat (length lst) = sects) as Hl.
  { unfold lst. rewrite length_take. lia. }
  destruct (write_sectors_run buf lst sects file_no (free_indices_take_NoDup _ _ _) Hl Hbuf
              (Z.to_nat sects) 0 auto_buf size w) as (w' & -> & Ho & Hlw & Hsec & Hframe);
    [lia|lia|done| |].
  { intros s Hs. apply Himg. by eapply free_indices_take_range. }
  exists w'. unfold ret. split; [done|]. split; [done|]. split; [done|]. split.
  - intros i Hi. rewrite Hsec by done. replace (i - 0) with i by lia. done.
  - intros s Hs Hnot. apply Hframe; [done|]. intros i Hi <-. apply Hnot.
    eapply list_elem_of_lookup_2. apply list_at_lookup. lia.
Qed.

(** [write_file] when the space is not there: nothing is written. *)
Lemma write_file_no_space fuel ds bitmap buf sects file_no size w :
  1 <= ds -> (Z.to_nat ds <= fuel)%nat ->
  ~ (0 <= sects <= Z.of_nat (length (free_indices ds bitmap))) ->
  exists bitmap',
    write_file fuel ds bitmap buf sects file_no size w
      = Ret (-1, bitmap') (say w Not_enough_space).
Proof.
  intros Hds Hfuel Hsects.
  pose proof (free_indices_length ds bitmap Hds) as Hlen.
  unfold write_file, bind. rewrite alloc_space_run by lia.
  rewrite decide_False by done. rewrite decide_True by done. by eexists.
Qed.



(** ** Directory entries: [putname] and [write_dir] *)

Lemma copy_upper_length to_dot room : forall s,
  (length (fst (copy_upper to_dot s room)) <= room)%nat.
Proof.
  induction room as [|room IH]; intros s; [destruct s; cbn; lia|].
  destruct s as [|c s]; [cbn; lia|]. cbn [copy_upper].
  destruct (to_dot && (c =? 46)); [cbn; lia|].
  specialize (IH s). destruct (copy_upper to_dot s room). cbn [fst length] in *. lia.
Qed.

Lemma length_pad s n : (length s <= n)%nat -> length (pad s n) = n.
Proof. intros. unfold pad. rewrite length_app, length_replicate. lia. Qed.

Lemma putname_length filename :
  length (fst (putname filename)) = 8%nat /\ length (snd (putname filename)) = 3%nat.
Proof.
  unfold putname.
  pose proof (copy_upper_length true 8 (cstring filename)) as H8.
  destruct (copy_upper true (cstring filename) 8) as [nm rest]. cbn [fst snd] in *.
  split; [by apply length_pad|]. apply length_pad.
  destruct (skip_to_dot rest) as [|c rest']; [cbn; lia|]. apply copy_upper_length.
Qed.

Lemma length_dirent_bytes filename first_sect sects :
  length (dirent_bytes (new_dirent filename first_sect sects)) = 16%nat.
Proof.
  unfold dirent_bytes, new_dirent. cbn [flag count_lo count_hi start_lo start_hi name suffix].
  destruct (putname_length filename) as [H8 H3].
  rewrite !length_app, H8, H3. done.
Qed.

Lemma write_dir_run file_no filename first_sect sects w :
  0 <= file_no < 64 -> dir_present (image w) ->
  exists w',
    write_dir file_no filename first_sect sects w = Ret 0 w' /\
    stdout w' = stdout w /\
    image w' =
      store_sector (image w) (SECTOR_DIR + file_no / 8)
        (memcpy (sector_of (image w) (SECTOR_DIR + file_no / 8))
                (Z.to_nat (16 * (file_no mod 8)))
                (dirent_bytes (new_dirent filename first_sect sects))).
Proof.
  intros Hf Hd. unfold write_dir.
  pose proof (length_dirent_bytes filename first_sect sects) as Hlen.
  unfold new_dirent in *. destruct (putname filename) as [nm sfx]. cbn [fst snd] in *.
  change (Z.quot SECTOR_SIZE ENTRY_SIZE) with 8.
  rewrite Z.quot_div_nonneg, Z.rem_mod_nonneg by lia. change ENTRY_SIZE with 16.
  assert (0 <= file_no / 8 < 8) as Hq.
  { split; [apply Z.div_pos; lia|apply Z.div_lt_upper_bound; lia]. }
  pose proof (Z.mod_pos_bound file_no 8) as Hm.
  assert (in_image (image w) (SECTOR_DIR + file_no / 8)) as Hin.
  { eapply in_image_mono; [exact Hd|]. unfold SECTOR_DIR, SECTOR_DIR_SIZE. lia. }
  unfold bind.
  destruct (getsect_in_image auto_buf _ w Hin length_auto_buf) as (w1 & -> & Hi1 & Ho1).
  set (dir_buf := memcpy _ _ _).
  assert (length dir_buf = 128%nat) as Hl.
  { unfold dir_buf. rewrite length_memcpy; [by apply length_sector_of|].
    rewrite Hlen, length_sector_of by done. lia. }
  rewrite <- Hi1 in Hin.
  destruct (putsect_in_image dir_buf _ w1 Hin Hl) as (w2 & -> & Hi2 & Ho2).
  exists w2. unfold ret. split; [done|]. split; [congruence|]. by rewrite Hi2, Hi1.
Qed.

Lemma rm_run_none fuel ds filename ignore w :
  dir_present (image w) ->
  list_find (fun s => names_file filename (entry (image w) s)) dir_slots = None ->
  exists w', rm fuel ds filename ignore w = Ret (-1) w' /\
             image w' = image w /\
             stdout w' = stdout w ++ (if ignore then [] else [File_not_found filename]).
Proof.
  intros Hd Hnone. unfold rm, bind, find_file.
  destruct (find_file_in_run filename true dir_sectors auto_buf w
              (dir_sectors_present _ Hd) length_auto_buf) as (w1 & -> & Ho1 & Hi1).
  fold dir_slots in Hi1 |- *. rewrite Hnone in Hi1 |- *.
  rewrite decide_False by (intros H; by apply H). unfold ret, printf, say.
  destruct ignore.
  - exists w1. rewrite app_nil_r. done.
  - eexists. split; [done|]. unfold image in *. cbn [disk stdout]. by rewrite Ho1.
Qed.

Lemma sectors_for_spec size :
  0 <= size ->
  size + DATA_SIZE - 1 - Z.rem (size + DATA_SIZE - 1) DATA_SIZE = DATA_SIZE * sectors_for size /\
  size <= DATA_SIZE * sectors_for size < size + DATA_SIZE.
Proof.
  intros Hs. unfold sectors_for, DATA_SIZE. cbn zeta.
  rewrite Z.rem_mod_nonneg by lia.
  pose proof (Z.div_mod (size + 125 - 1) 125) as Hdm.
  pose proof (Z.mod_pos_bound (size + 125 - 1) 125) as Hm.
  replace (size + 125 - 1 - (size + 125 - 1) mod 125) with (125 * ((size + 125 - 1) / 125))
    by lia.
  rewrite Z.quot_div_nonneg by (try apply Z.mul_nonneg_nonneg; try apply Z.div_pos; lia).
  rewrite (Z.mul_comm 125), Z.div_mul by lia. lia.
Qed.

Lemma volume_ok_in_image ds img s :
  volume_ok ds img -> 1 <= s <= ds -> in_image img s.
Proof.
  unfold volume_ok, geometry. intros Hg Hs. apply in_image_by_length; [lia|].
  repeat case_decide; try discriminate; injection Hg as <-;
    unfold SD_DISK_SIZE, ED_DISK_SIZE in *; lia.
Qed.

Lemma volume_ok_size ds img :
  volume_ok ds img -> ds = SD_DISK_SIZE \/ ds = ED_DISK_SIZE.
Proof.
  unfold volume_ok, geometry. intros Hg.
  repeat case_decide; try discriminate; injection Hg as <-; auto.
Qed.

Lemma volume_ok_length ds img img' :
  length img' = length img -> volume_ok ds img -> volume_ok ds img'.
Proof. unfold volume_ok. by intros ->. Qed.

(** ** [put_file] *)

Lemma volume_ok_dir_present ds img : volume_ok ds img -> dir_present img.
Proof.
  intros Hv. apply (volume_ok_in_image ds); [done|].
  destruct (volume_ok_size _ _ Hv) as [-> | ->];
    unfold SECTOR_DIR, SECTOR_DIR_SIZE, SD_DISK_SIZE, ED_DISK_SIZE; lia.
Qed.

Lemma volume_ok_vtoc ds img :
  volume_ok ds img ->
  in_image img SECTOR_VTOC /\ (ds = ED_DISK_SIZE -> in_image img SECTOR_VTOC2).
Proof.
  intros Hv. split.
  - apply (volume_ok_in_image ds); [done|].
    destruct (volume_ok_size _ _ Hv) as [-> | ->];
      unfold SECTOR_VTOC, SD_DISK_SIZE, ED_DISK_SIZE; lia.
  - intros ->. apply (volume_ok_in_image ED_DISK_SIZE); [done|].
    unfold SECTOR_VTOC2, ED_DISK_SIZE. lia.
Qed.

Lemma length_padded data :
  Z.of_nat (length (padded data)) = DATA_SIZE * sectors_for (Z.of_nat (length data)).
Proof.
  unfold padded. rewrite length_app, length_replicate.
  pose proof (sectors_for_spec (Z.of_nat (length data))). lia.
Qed.

(** The first part of [put_file] when no entry has the name: nothing
    changes, and the rest depends on the first empty slot. *)
Lemma put_file_run fuel ds data filename w :
  volume_ok ds (image w) ->
  list_find (fun s => names_file filename (entry (image w) s)) dir_slots = None ->
  exists w3,
    image w3 = image w /\ stdout w3 = stdout w /\
    put_file fuel ds data filename w =
      match list_find (fun s => ~ in_use (entry (image w) s)) dir_slots with
      | None => Ret (-1) w3
      | Some (k, _) =>
          put_file_write fuel ds (disk_bitmap ds (image w)) (padded data) filename
            (Z.of_nat k) (sectors_for (Z.of_nat (length data))) (Z.of_nat (length data)) w3
      end.
Proof.
  intros Hv Hnone. pose proof (volume_ok_dir_present _ _ Hv) as Hd.
  destruct (volume_ok_vtoc _ _ Hv) as [Hvt Hvt2].
  unfold put_file. cbn zeta. unfold bind at 1.
  destruct (rm_run_none fuel ds filename true w Hd Hnone) as (w1 & -> & Hi1 & Ho1).
  rewrite app_nil_r in Ho1. unfold bind at 1.
  destruct (getbitmap_run ds auto_buf false w1) as (w2 & Hget & Hi2 & Ho2);
    [by rewrite Hi1|by rewrite Hi1|].
  cbn zeta in Hget. rewrite Hget. rewrite Hi1 in *.
  fold (disk_bitmap ds (image w)).
  unfold bind at 1, find_empty_entry.
  destruct (find_empty_entry_in_run dir_sectors auto_buf w2) as (w3 & -> & Ho3 & Hi3);
    [rewrite Hi2; by apply dir_sectors_present|done|].
  fold dir_slots. rewrite Hi2.
  exists w3. split; [congruence|]. split.
  { rewrite Ho3, Ho2, Ho1. destruct (decide _); by rewrite !app_nil_r. }
  destruct (list_find (fun s => ~ in_use (entry (image w) s)) dir_slots) as [[k s]|] eqn:Hf.
  - apply list_find_Some in Hf as (Hk & _ & _).
    rewrite (slot_number_position k s Hk). rewrite decide_False by lia.
    destruct (sectors_for_spec (Z.of_nat (length data))) as [Hup _]; [lia|].
    rewrite Hup. unfold padded.
    replace (Z.quot (DATA_SIZE * sectors_for (Z.of_nat (length data))) DATA_SIZE)
      with (sectors_for (Z.of_nat (length data))); [done|].
    rewrite (Z.mul_comm DATA_SIZE), Z.quot_mul; [done|discriminate].
  - rewrite decide_True by done. done.
Qed.

Lemma length_foldl_clear lst : forall bitmap,
  length (foldl clear_bit bitmap lst) = length bitmap.
Proof.
  induction lst as [|x lst IH]; intros bitmap; [done|].
  cbn [foldl]. rewrite IH. unfold clear_bit. apply length_insert.
Qed.

Lemma list_at_free_nonneg ds bitmap n i :
  0 <= list_at (take n (free_indices ds bitmap)) i.
Proof.
  unfold list_at.
  destruct (nth_lookup_or_length (take n (free_indices ds bitmap)) (Z.to_nat i) 0) as [H|H].
  - apply list_elem_of_lookup_2, free_indices_take_range in H. lia.
  - rewrite nth_overflow by done. lia.
Qed.

(** The last part of [put_file]: either the space is there, and the
    file, its directory entry and the bitmap are written, or it is not,
    and nothing is written. *)
Lemma put_file_write_run fuel ds bitmap buf filename file_no sects size w :
  volume_ok ds (image w) -> (Z.to_nat ds <= fuel)%nat ->
  0 <= file_no < 64 -> 0 <= sects ->
  Z.of_nat (length buf) = DATA_SIZE * sects -> length bitmap = 128%nat ->
  if decide (sects <= Z.of_nat (length (free_indices ds bitmap))) then
    exists w4 w5 w',
      put_file_write fuel ds bitmap buf filename file_no sects size w = Ret 0 w' /\
      stdout w' = stdout w /\
      length (image w4) = length (image w) /\
      (forall i, 0 <= i < sects ->
         sector_of (image w4) (list_at (take (Z.to_nat sects) (free_indices ds bitmap)) i) =
         data_sector (take 125 (drop (Z.to_nat (DATA_SIZE * i)) buf)) file_no
           (if decide (i + 1 = sects) then 0
            else list_at (take (Z.to_nat sects) (free_indices ds bitmap)) (i + 1))
           (if decide (i + 1 = sects) then size - DATA_SIZE * i else DATA_SIZE)) /\
      (forall s, 1 <= s -> s ∉ take (Z.to_nat sects) (free_indices ds bitmap) ->
         sector_of (image w4) s = sector_of (image w) s) /\
      image w5 =
        store_sector (image w4) (SECTOR_DIR + file_no / 8)
          (memcpy (sector_of (image w4) (SECTOR_DIR + file_no / 8))
                  (Z.to_nat (16 * (file_no mod 8)))
                  (dirent_bytes
                     (new_dirent filename
                        (list_at (take (Z.to_nat sects) (free_indices ds bitmap)) 0) sects))) /\
      length (image w') = length (image w) /\
      (forall s, 1 <= s -> s <> SECTOR_VTOC -> s <> SECTOR_VTOC2 ->
         sector_of (image w') s = sector_of (image w5) s)
  else
    put_file_write fuel ds bitmap buf filename file_no sects size w
    = Ret (-1) (says w [Not_enough_space; Couldnt_write_file]) .
Proof.
  intros Hv Hfuel Hfile Hsects Hbuf Hbm.
  assert (1 <= ds) as Hds.
  { destruct (volume_ok_size _ _ Hv) as [-> | ->]; done. }
  unfold put_file_write.
  destruct (decide (sects <= Z.of_nat (length (free_indices ds bitmap)))) as [Hroom|Hroom].
  - unfold bind at 1.
    destruct (write_file_run fuel ds bitmap buf sects file_no size w)
      as (w4 & Hrun & Ho4 & Hl4 & Hsec & Hframe); [done|done| |lia|done|].
    { intros s Hs. apply (volume_ok_in_image ds); [done|lia]. }
    cbn zeta in *. rewrite Hrun.
    set (lst := take (Z.to_nat sects) (free_indices ds bitmap)) in *.
    assert (0 <= list_at lst 0) as Hfirst by apply list_at_free_nonneg.
    rewrite decide_False by lia.
    assert (volume_ok ds (image w4)) as Hv4 by (by eapply volume_ok_length).
    unfold bind at 1.
    destruct (write_dir_run file_no filename (list_at lst 0) sects w4 Hfile)
      as (w5 & -> & Ho5 & Hi5); [by eapply volume_ok_dir_present|].
    rewrite decide_False by (intros H; by apply H).
    assert (length (image w5) = length (image w4)) as Hl5.
    { rewrite Hi5. apply length_store_sector.
      - eapply in_image_mono; [eapply volume_ok_dir_present; exact Hv4|].
        assert (0 <= file_no / 8 < 8)
          by (split; [apply Z.div_pos; lia|apply Z.div_lt_upper_bound; lia]).
        unfold SECTOR_DIR, SECTOR_DIR_SIZE. lia.
      - rewrite length_memcpy; [apply length_sector_of|].
        + eapply in_image_mono; [eapply volume_ok_dir_present; exact Hv4|].
          assert (0 <= file_no / 8 < 8)
            by (split; [apply Z.div_pos; lia|apply Z.div_lt_upper_bound; lia]).
          unfold SECTOR_DIR, SECTOR_DIR_SIZE. lia.
        + rewrite length_dirent_bytes, length_sector_of.
          * pose proof (Z.mod_pos_bound file_no 8). lia.
          * eapply in_image_mono; [eapply volume_ok_dir_present; exact Hv4|].
            assert (0 <= file_no / 8 < 8)
              by (split; [apply Z.div_pos; lia|apply Z.div_lt_upper_bound; lia]).
            unfold SECTOR_DIR, SECTOR_DIR_SIZE. lia. }
    assert (volume_ok ds (image w5)) as Hv5 by (by eapply volume_ok_length).
    destruct (volume_ok_vtoc _ _ Hv5) as [Hvt Hvt2].
    unfold bind.
    destruct (putbitmap_sectors ds (foldl clear_bit bitmap lst) w5 Hvt Hvt2)
      as (w' & -> & Ho' & Hl' & _ & _ & Hrest & _); [by rewrite length_foldl_clear|].
    exists w4, w5, w'. unfold ret.
    split; [done|]. split; [congruence|]. split; [done|]. split; [done|]. split; [done|].
    split; [done|]. split; [congruence|done].
  - unfold bind at 1.
    destruct (write_file_no_space fuel ds bitmap buf sects file_no size w Hds Hfuel)
      as (bitmap' & ->); [lia|].
    rewrite decide_True by done. unfold bind, printf, ret, say, says. cbn [disk stdout].
    by rewrite <- app_assoc.
Qed.

Lemma length_disk_bitmap ds img :
  volume_ok ds img -> length (disk_bitmap ds img) = 128%nat.
Proof.
  intros Hv. destruct (volume_ok_vtoc _ _ Hv) as [Hvt Hvt2]. unfold disk_bitmap.
  pose proof (length_bitmap_of_vtoc auto_buf _ length_auto_buf (length_sector_of _ _ Hvt)).
  destruct (decide (ds = ED_DISK_SIZE)) as [Hed|]; [|done].
  apply length_bitmap_of_vtoc2; [done|]. apply length_sector_of. by apply Hvt2.
Qed.

Lemma dir_slots_length : length dir_slots = 64%nat.
Proof. reflexivity. Qed.

(** C8, as the code has it.  When no in-use entry has the name asked
    for, [put_file] returns; it returns -1 exactly when the directory
    has no empty slot or the bitmap shows fewer free sectors than the
    file needs, and then the image is as it was before the call.  [rm]
    of a name that no entry has returns -1 and leaves the image as it
    was, too.  (When an entry has the name, [put_file] deletes that
    file first, whatever happens next.) *)
Theorem put_file_failure_keeps_volume (fuel : nat) (ds : Z) (data filename : list Z)
    (w : world) :
  volume_ok ds (image w) -> (Z.to_nat ds <= fuel)%nat ->
  list_find (fun s => names_file filename (entry (image w) s)) dir_slots = None ->
  exists rc w',
    put_file fuel ds data filename w = Ret rc w' /\
    (rc = -1 <->
       list_find (fun s => ~ in_use (entry (image w) s)) dir_slots = None \/
       Z.of_nat (length (free_indices ds (disk_bitmap ds (image w))))
         < sectors_for (Z.of_nat (length data))) /\
    (rc <> -1 -> rc = 0) /\
    (rc = -1 -> image w' = image w) /\
    exists w'', rm fuel ds filename false w = Ret (-1) w'' /\ image w'' = image w.
Proof.
  intros Hv Hfuel Hnone.
  destruct (put_file_run fuel ds data filename w Hv Hnone) as (w3 & Hi3 & Ho3 & Hrun).
  assert (exists w'', rm fuel ds filename false w = Ret (-1) w'' /\ image w'' = image w) as Hrm.
  { destruct (rm_run_none fuel ds filename false w (volume_ok_dir_present _ _ Hv) Hnone)
      as (w'' & Hrm & Hi & _). by exists w''. }
  rewrite Hrun.
  destruct (list_find (fun s => ~ in_use (entry (image w) s)) dir_slots) as [[k s]|] eqn:Hf.
  - apply list_find_Some in Hf as (Hk & _ & _).
    apply lookup_lt_Some in Hk. rewrite dir_slots_length in Hk.
    destruct (sectors_for_spec (Z.of_nat (length data))) as [_ Hsz]; [lia|].
    pose proof (put_file_write_run fuel ds (disk_bitmap ds (image w)) (padded data) filename
                  (Z.of_nat k) (sectors_for (Z.of_nat (length data)))
                  (Z.of_nat (length data)) w3) as Hw.
    rewrite Hi3 in Hw. specialize (Hw Hv Hfuel).
    destruct (decide (sectors_for (Z.of_nat (length data))
                      <= Z.of_nat (length (free_indices ds (disk_bitmap ds (image w))))))
      as [Hroom|Hroom].
    + destruct Hw as (w4 & w5 & w' & -> & _); [lia|unfold DATA_SIZE in *; lia
                                               |apply length_padded|by apply length_disk_bitmap|].
      exists 0, w'. split; [done|]. split; [|split; [done|split; [done|exact Hrm]]].
      split; [done|]. intros [H|H]; [done|lia].
    + rewrite Hw; [|lia|unfold DATA_SIZE in *; lia|apply length_padded
                   |by apply length_disk_bitmap].
      exists (-1), (says w3 [Not_enough_space; Couldnt_write_file]).
      split; [done|]. split; [|split; [done|split; [done|exact Hrm]]].
      split; [intros _; right; lia|done].
  - exists (-1), w3. split; [done|]. split; [|split; [done|split; [done|exact Hrm]]].
    split; [by left|done].
Qed.

Lemma fresh_sd_volume_ok : volume_ok 720 (image fresh_sd).
Proof. unfold volume_ok. rewrite fresh_sd_length. reflexivity. Qed.

Lemma one_file_sd_volume_ok : volume_ok 720 (image one_file_sd).
Proof. unfold volume_ok. rewrite one_file_sd_length. reflexivity. Qed.

Lemma put_file_failure_keeps_volume_witness :
  volume_ok 720 (image fresh_sd) /\ (Z.to_nat 720 <= 720)%nat /\
  list_find (fun s => names_file test_txt (entry (image fresh_sd) s)) dir_slots = None /\
  exists rc w',
    put_file 720 720 big_file test_txt fresh_sd = Ret rc w' /\
    (rc = -1 <->
       list_find (fun s => ~ in_use (entry (image fresh_sd) s)) dir_slots = None \/
       Z.of_nat (length (free_indices 720 (disk_bitmap 720 (image fresh_sd))))
         < sectors_for (Z.of_nat (length big_file))) /\
    (rc <> -1 -> rc = 0) /\
    (rc = -1 -> image w' = image fresh_sd) /\
    exists w'', rm 720 720 test_txt false fresh_sd = Ret (-1) w'' /\ image w'' = image fresh_sd.
Proof.
  assert (list_find (fun s => names_file test_txt (entry (image fresh_sd) s)) dir_slots = None)
    as Hnone by (vm_compute; reflexivity).
  split; [exact fresh_sd_volume_ok|]. split; [lia|]. split; [exact Hnone|].
  apply (put_file_failure_keeps_volume 720 720 big_file test_txt fresh_sd
           fresh_sd_volume_ok); [lia|exact Hnone].
Defined.

(** C8 as stated fails.  [one_file_sd] holds test.txt, found at sector
    4.  [put_file] of 90000 bytes under that name needs 720 sectors,
    more than are free: it prints "Not enough space" and "Couldn't
    write file" and returns -1.  By then the old file has been
    deleted: its flag byte is 0x80 and [find_file] no longer finds the
    name. *)
Lemma put_file_failure_loses_old_file :
  returned (find_file test_txt false one_file_sd) = Some 4 /\
  returned (put_file 720 720 big_file test_txt one_file_sd) = Some (-1) /\
  stdout <$> final (put_file 720 720 big_file test_txt one_file_sd)
    = Some [Not_enough_space; Couldnt_write_file] /\
  returned ((_ <- put_file 720 720 big_file test_txt ;;
             find_file test_txt false) one_file_sd) = Some (-1) /\
  returned ((_ <- put_file 720 720 big_file test_txt ;;
             buf <- getsect auto_buf SECTOR_DIR ;; ret (byte_at buf 0)) one_file_sd)
    = Some 0x80 /\
  byte_at (sector_of (image one_file_sd) SECTOR_DIR) 0 = 0x42.
Proof. repeat apply conj; vm_compute; reflexivity. Qed.

(** ** Writing a file and reading it back *)

(** C1 fails for the empty file.  [put_file] of no bytes on a freshly
    formatted image returns 0; the directory entry it writes has
    sector count 0 and start sector 0.  Reading the file back through
    [cat] asks [getsect] for sector 0: "Oops, requested sector 0" and
    [exit (-1)], where the claim has 0 bytes returned.  A second
    [put_file] under the name ends the same way, in [del_file]. *)
Theorem empty_file_cannot_be_read_back :
  returned (put_file 720 720 [] test_txt fresh_sd) = Some 0 /\
  returned ((_ <- put_file 720 720 [] test_txt ;;
             buf <- getsect auto_buf SECTOR_DIR ;; ret (take 5 buf)) fresh_sd)
    = Some [FLAG_IN_USE; 0; 0; 0; 0] /\
  returned ((_ <- put_file 720 720 [] test_txt ;; find_file test_txt false) fresh_sd)
    = Some 0 /\
  exited ((_ <- put_file 720 720 [] test_txt ;; cat 720 false test_txt) fresh_sd)
    = Some (-1, [Oops_sector_0]) /\
  exited ((_ <- put_file 720 720 [] test_txt ;; put_file 720 720 [1] test_txt) fresh_sd)
    = Some (-1, [Oops_sector_0]).
Proof. repeat apply conj; vm_compute; reflexivity. Qed.

Lemma byte_at_memcpy_in (dst src : list Z) p i :
  (p <= length dst)%nat -> (i < length src)%nat ->
  byte_at (memcpy dst p src) (p + i) = byte_at src i.
Proof.
  intros Hp Hi. unfold byte_at. rewrite !nth_lookup, lookup_memcpy by done.
  rewrite decide_False, decide_True by lia. do 2 f_equal. lia.
Qed.

Lemma byte_at_memcpy_out (dst src : list Z) p j :
  (p <= length dst)%nat -> (j < p \/ p + length src <= j)%nat ->
  byte_at (memcpy dst p src) j = byte_at dst j.
Proof.
  intros Hp Hj. unfold byte_at. rewrite !nth_lookup, lookup_memcpy by done.
  destruct (decide (j < p)%nat); [done|]. rewrite decide_False by lia. done.
Qed.

(** An entry stored by [memcpy] is read back by the cast. *)
Lemma dirent_at_memcpy_eq (buf : list Z) y d :
  (y + 16 <= length buf)%nat -> length (name d) = 8%nat -> length (suffix d) = 3%nat ->
  dirent_at (memcpy buf y (dirent_bytes d)) y = d.
Proof.
  intros Hy Hn Hs. destruct d as [fl cl ch sl sh nm sfx]. cbn [name suffix] in *.
  destruct nm as [|n0 [|n1 [|n2 [|n3 [|n4 [|n5 [|n6 [|n7 [|]]]]]]]]]; try discriminate.
  destruct sfx as [|s0 [|s1 [|s2 [|]]]]; try discriminate.
  unfold dirent_at, dirent_bytes. cbn [flag count_lo count_hi start_lo start_hi name suffix app].
  cbn [map seq].
  replace y with (y + 0)%nat at 2 by lia.
  replace (y + 5 + 0)%nat with (y + 5)%nat by lia.
  replace (y + 5 + 1)%nat with (y + 6)%nat by lia.
  replace (y + 5 + 2)%nat with (y + 7)%nat by lia.
  replace (y + 5 + 3)%nat with (y + 8)%nat by lia.
  replace (y + 5 + 4)%nat with (y + 9)%nat by lia.
  replace (y + 5 + 5)%nat with (y + 10)%nat by lia.
  replace (y + 5 + 6)%nat with (y + 11)%nat by lia.
  replace (y + 5 + 7)%nat with (y + 12)%nat by lia.
  replace (y + 13 + 0)%nat with (y + 13)%nat by lia.
  replace (y + 13 + 1)%nat with (y + 14)%nat by lia.
  replace (y + 13 + 2)%nat with (y + 15)%nat by lia.
  rewrite !byte_at_memcpy_in by (cbn [length]; lia). done.
Qed.

Lemma dirent_at_memcpy_ne (buf src : list Z) y y' :
  (y + length src <= length buf)%nat -> length src = 16%nat ->
  (y' + 16 <= y \/ y + 16 <= y')%nat ->
  dirent_at (memcpy buf y src) y' = dirent_at buf y'.
Proof.
  intros Hy Hs Hd. unfold dirent_at. cbn [map seq].
  rewrite !byte_at_memcpy_out by lia. done.
Qed.

(** Where slot [k] lies: its directory sector and its offset there. *)
Lemma dir_slots_lookup k s :
  dir_slots !! k = Some s ->
  fst s = SECTOR_DIR + Z.of_nat k / 8 /\ snd s = Z.to_nat (16 * (Z.of_nat k mod 8)).
Proof.
  intros Hk.
  assert (imap (fun k s => bool_decide
            (fst s = SECTOR_DIR + Z.of_nat k / 8 /\ snd s = Z.to_nat (16 * (Z.of_nat k mod 8))))
            dir_slots = replicate 64 true) as Himap by (vm_compute; reflexivity).
  assert (imap (fun k s => bool_decide
            (fst s = SECTOR_DIR + Z.of_nat k / 8 /\ snd s = Z.to_nat (16 * (Z.of_nat k mod 8))))
            dir_slots !! k = Some true) as Ht.
  { rewrite Himap. apply lookup_replicate_2.
    apply lookup_lt_Some in Hk. by rewrite dir_slots_length in Hk. }
  rewrite list_lookup_imap, Hk in Ht. injection Ht as Ht. by apply bool_decide_eq_true in Ht.
Qed.

(** The loop of [read_file] along a chain of sectors laid out by
    [write_file], whatever [buf] held before. *)
Lemma read_sectors_chain buf lst sects file_no size :
  Z.of_nat (length buf) = DATA_SIZE * sects ->
  0 <= file_no < 64 ->
  (forall i, 0 <= i < sects -> 1 <= list_at lst i < 1024) ->
  0 <= size - DATA_SIZE * (sects - 1) <= DATA_SIZE ->
  forall n i bf f fuel w,
    length bf = 128%nat ->
    Z.of_nat n + i = sects -> (1 <= n)%nat -> 0 <= i -> (n <= fuel)%nat ->
    (forall j, 0 <= j < sects ->
       in_image (image w) (list_at lst j) /\
       sector_of (image w) (list_at lst j) =
       data_sector (take 125 (drop (Z.to_nat (DATA_SIZE * j)) buf)) file_no
         (if decide (j + 1 = sects) then 0 else list_at lst (j + 1))
         (if decide (j + 1 = sects) then size - DATA_SIZE * j else DATA_SIZE)) ->
    exists w',
      read_sectors fuel false bf (list_at lst i) f w
      = Ret (f ++ take (Z.to_nat (size - DATA_SIZE * i)) (drop (Z.to_nat (DATA_SIZE * i)) buf)) w' /\
      image w' = image w /\ stdout w' = stdout w.
Proof.
  intros Hbuf Hfile Hlst Hsize.
  induction n as [|n IH]; intros i bf f fuel w Hbf Hn Hn1 Hi Hfuel Hchain.
  { lia. }
  destruct fuel as [|fuel]; [lia|]. cbn [read_sectors]. unfold bind.
  destruct (Hchain i) as [Hin Hsec]; [lia|].
  destruct (getsect_in_image bf _ w Hin Hbf) as (w1 & -> & Hi1 & Ho1).
  rewrite Hsec.
  set (content := take 125 (drop (Z.to_nat (DATA_SIZE * i)) buf)).
  assert (length content = 125%nat) as Hc.
  { unfold content. rewrite length_take, length_drop. unfold DATA_SIZE in *. lia. }
  destruct (decide (i + 1 = sects)) as [Hlast|Hmore].
  - assert (0 <= size - DATA_SIZE * i <= 125) as Hcnt.
    { replace i with (sects - 1) by lia. unfold DATA_SIZE in *. lia. }
    destruct (data_sector_decode content file_no 0 (size - DATA_SIZE * i))
      as (Hl & Htake & -> & _ & ->); [done|lia|done|lia|].
    rewrite take_app_le by (rewrite Hl; lia).
    rewrite decide_True by done. exists w1. unfold ret. split; [|done]. do 2 f_equal.
    assert (forall l : list Z,
              take (Z.to_nat (size - DATA_SIZE * i)) l
              = take (Z.to_nat (size - DATA_SIZE * i)) (take 125 l)) as Hshort.
    { intros l. rewrite take_take. f_equal. lia. }
    rewrite Hshort, Htake. unfold content. by rewrite <- Hshort.
  - destruct (Hlst (i + 1)) as [Hn0 Hn1024]; [lia|].
    destruct (data_sector_decode content file_no (list_at lst (i + 1)) DATA_SIZE)
      as (Hl & Htake & -> & _ & ->); [done|lia|done|unfold DATA_SIZE; lia|].
    rewrite take_app_le by (rewrite Hl; unfold DATA_SIZE; lia).
    rewrite decide_False by lia.
    destruct (IH (i + 1) (data_sector content file_no (list_at lst (i + 1)) DATA_SIZE)
                 (f ++ take (Z.to_nat DATA_SIZE)
                            (data_sector content file_no (list_at lst (i + 1)) DATA_SIZE))
                 fuel w1) as (w' & -> & Hi' & Ho'); [done|lia|lia|lia|lia|by rewrite Hi1|].
    exists w'. split; [|split; congruence]. f_equal.
    change (Z.to_nat DATA_SIZE) with 125%nat. rewrite Htake, <- app_assoc. f_equal.
    unfold content.
    replace (Z.to_nat (DATA_SIZE * (i + 1))) with (Z.to_nat (DATA_SIZE * i) + 125)%nat
      by (unfold DATA_SIZE; lia).
    rewrite <- drop_drop, take_take_drop. f_equal. unfold DATA_SIZE in *. lia.
Qed.

(** [read_file] along a chain of sectors laid out by [write_file]. *)
Lemma read_file_chain buf lst sects file_no size :
  Z.of_nat (length buf) = DATA_SIZE * sects ->
  0 <= file_no < 64 ->
  (forall i, 0 <= i < sects -> 1 <= list_at lst i < 1024) ->
  0 <= size - DATA_SIZE * (sects - 1) <= DATA_SIZE ->
  forall n i f fuel w,
    Z.of_nat n + i = sects -> (1 <= n)%nat -> 0 <= i -> (n <= fuel)%nat ->
    (forall j, 0 <= j < sects ->
       in_image (image w) (list_at lst j) /\
       sector_of (image w) (list_at lst j) =
       data_sector (take 125 (drop (Z.to_nat (DATA_SIZE * j)) buf)) file_no
         (if decide (j + 1 = sects) then 0 else list_at lst (j + 1))
         (if decide (j + 1 = sects) then size - DATA_SIZE * j else DATA_SIZE)) ->
    exists w',
      read_file fuel false (list_at lst i) f w
      = Ret (f ++ take (Z.to_nat (size - DATA_SIZE * i)) (drop (Z.to_nat (DATA_SIZE * i)) buf)) w' /\
      image w' = image w /\ stdout w' = stdout w.
Proof.
  intros Hbuf Hfile Hlst Hsize n i f fuel w Hn Hn1 Hi Hfuel Hchain. unfold read_file.
  by apply (read_sectors_chain buf lst sects file_no size Hbuf Hfile Hlst Hsize n).
Qed.

Lemma start_sector_new_dirent filename first_sect sects :
  0 <= first_sect < 65536 -> start_sector (new_dirent filename first_sect sects) = first_sect.
Proof.
  intros Hf. unfold start_sector, new_dirent. cbn [start_hi start_lo].
  rewrite Z.shiftl_mul_pow2 by lia. change (2 ^ 8) with 256.
  pose proof (le16_split first_sect Hf). lia.
Qed.

Lemma getname_new_dirent filename first_sect sects :
  getname (new_dirent filename first_sect sects) = getname (new_dirent filename 0 0).
Proof. done. Qed.

Lemma in_use_new_dirent filename first_sect sects :
  in_use (new_dirent filename first_sect sects).
Proof. unfold in_use, new_dirent. cbn [flag]. done. Qed.

(** The directory after the last part of [put_file]: the new entry in
    its slot, every other entry as before. *)
Lemma entry_after_write_dir (img img4 img5 img' : list Z) k s d
    (lst : list Z) s' :
  dir_present img -> length img4 = length img ->
  dir_slots !! k = Some s -> s' ∈ dir_slots ->
  length (name d) = 8%nat -> length (suffix d) = 3%nat ->
  (forall x, 1 <= x -> x ∉ lst -> sector_of img4 x = sector_of img x) ->
  (forall x, x ∈ lst -> ~ metadata_sector x) ->
  img5 = store_sector img4 (SECTOR_DIR + Z.of_nat k / 8)
           (memcpy (sector_of img4 (SECTOR_DIR + Z.of_nat k / 8))
                   (Z.to_nat (16 * (Z.of_nat k mod 8))) (dirent_bytes d)) ->
  (forall x, 1 <= x -> x <> SECTOR_VTOC -> x <> SECTOR_VTOC2 ->
     sector_of img' x = sector_of img5 x) ->
  entry img' s' = if decide (s' = s) then d else entry img s'.
Proof.
  intros Hd Hl4 Hk Hs' Hn Hsf Hframe Hres -> Hrest.
  destruct (dir_slots_lookup k s Hk) as [Hx Hy].
  assert (s ∈ dir_slots) as Hs by (by eapply list_elem_of_lookup_2).
  destruct s as [x y], s' as [x' y']. cbn [fst snd] in Hx, Hy.
  destruct (dir_slots_spec _ Hs) as (Hxd & j & Hj & Hyj).
  destruct (dir_slots_spec _ Hs') as (Hxd' & j' & Hj' & Hyj'). cbn [fst snd] in *.
  apply elem_of_seqZ in Hxd, Hxd'. unfold SECTOR_DIR, SECTOR_DIR_SIZE in Hxd, Hxd'.
  assert (forall x0, 361 <= x0 < 361 + 8 -> sector_of img4 x0 = sector_of img x0) as Hdir4.
  { intros x0 Hx0. apply Hframe; [lia|]. intros Hin%Hres. apply Hin.
    unfold metadata_sector, SECTOR_VTOC, SECTOR_DIR, SECTOR_DIR_SIZE. lia. }
  assert (forall x0, 361 <= x0 < 361 + 8 -> in_image img x0) as Hdin.
  { intros x0 Hx0. eapply in_image_mono; [exact Hd|]. unfold SECTOR_DIR, SECTOR_DIR_SIZE. lia. }
  assert (forall x0, 361 <= x0 < 361 + 8 -> in_image img4 x0) as Hdin4.
  { intros x0 Hx0. specialize (Hdin x0 Hx0). unfold in_image in *. by rewrite Hl4. }
  pose proof (length_sector_of _ _ (Hdin x Hxd)) as Hlen.
  assert (length (dirent_bytes d) = 16%nat) as Hlb.
  { unfold dirent_bytes. rewrite !length_app, Hn, Hsf. done. }
  unfold entry. cbn [fst snd].
  rewrite Hrest by (unfold SECTOR_VTOC, SECTOR_VTOC2; lia).
  rewrite <- Hx, <- Hy, (Hdir4 x Hxd).
  assert (length (memcpy (sector_of img x) y (dirent_bytes d)) = 128%nat) as Hlm.
  { rewrite length_memcpy; [done|]. rewrite Hlb, Hlen. lia. }
  destruct (decide (x' = x)) as [->|Hxx].
  - rewrite sector_of_store_eq by (done || by apply Hdin4).
    destruct (decide (y' = y)) as [->|Hyy].
    + rewrite decide_True by done. apply dirent_at_memcpy_eq; [lia|done|done].
    + rewrite decide_False by congruence. apply dirent_at_memcpy_ne; [lia|done|lia].
  - rewrite sector_of_store_ne by (done || lia || by apply Hdin4).
    rewrite decide_False by congruence. by rewrite (Hdir4 x' Hxd').
Qed.

(** Writing then reading, for every file of at least one byte.  On a
    volume that passed the geometry check, with no entry of that name,
    an empty slot, enough free sectors, none of them a VTOC or
    directory sector, and a name that the directory gives back as it
    was given: [put_file] returns 0 and [cat] of the name then returns
    exactly the bytes written.  This covers the lengths 1, 124, 125,
    126, 249 and 10000 of C1; the empty file is the case above. *)
Theorem put_file_cat_round_trip (fuel : nat) (ds : Z) (data filename : list Z) (w : world) :
  volume_ok ds (image w) -> (Z.to_nat ds <= fuel)%nat ->
  (1 <= length data)%nat ->
  list_find (fun s => names_file filename (entry (image w) s)) dir_slots = None ->
  canonical_name filename ->
  is_Some (list_find (fun s => ~ in_use (entry (image w) s)) dir_slots) ->
  sectors_for (Z.of_nat (length data))
    <= Z.of_nat (length (free_indices ds (disk_bitmap ds (image w)))) ->
  (forall s, s ∈ free_indices ds (disk_bitmap ds (image w)) -> ~ metadata_sector s) ->
  exists w1 w2,
    put_file fuel ds data filename w = Ret 0 w1 /\
    cat fuel false filename w1 = Ret data w2.
Proof.
  intros Hv Hfuel Hdata Hnone Hcanon [[k s] Hempty] Hroom Hres.
  set (size := Z.of_nat (length data)) in *.
  set (sects := sectors_for size) in *.
  set (bitmap := disk_bitmap ds (image w)) in *.
  destruct (sectors_for_spec size) as [_ Hsz]; [lia|]. fold sects in Hsz.
  assert (1 <= sects) as Hsects by (unfold DATA_SIZE in *; lia).
  assert (1 <= ds <= 1024) as Hds.
  { destruct (volume_ok_size _ _ Hv) as [-> | ->]; done. }
  destruct (put_file_run fuel ds data filename w Hv Hnone) as (w3 & Hi3 & Ho3 & Hrun).
  rewrite Hempty in Hrun. fold size sects bitmap in Hrun.
  pose proof Hempty as (Hk & _ & _)%list_find_Some.
  pose proof (lookup_lt_Some _ _ _ Hk) as Hk64. rewrite dir_slots_length in Hk64.
  pose proof (put_file_write_run fuel ds bitmap (padded data) filename (Z.of_nat k)
                sects size w3) as Hw.
  rewrite Hi3 in Hw. rewrite decide_True in Hw by done.
  destruct Hw as (w4 & w5 & w' & Hput & Ho' & Hl4 & Hsec & Hframe & Hi5 & Hl' & Hrest);
    [done|done|lia|lia|apply length_padded|by apply length_disk_bitmap|].
  set (lst := take (Z.to_nat sects) (free_indices ds bitmap)) in *.
  assert (Z.of_nat (length lst) = sects) as Hllst by (unfold lst; rewrite length_take; lia).
  assert (forall i, 0 <= i < sects -> list_at lst i ∈ lst) as Hlin.
  { intros i Hi. eapply list_elem_of_lookup_2. apply list_at_lookup. lia. }
  assert (forall i, 0 <= i < sects -> 1 <= list_at lst i < ds) as Hlrange.
  { intros i Hi. eapply free_indices_take_range. by apply Hlin. }
  assert (forall x, x ∈ lst -> ~ metadata_sector x) as Hres'.
  { intros x Hx. apply Hres. by apply (subseteq_take (Z.to_nat sects)). }
  exists w'. rewrite Hrun, Hput.
  (* the directory of the new image *)
  destruct (putname_length filename) as [Hn8 Hs3].
  assert (forall s', s' ∈ dir_slots ->
            entry (image w') s' =
            if decide (s' = s) then new_dirent filename (list_at lst 0) sects
            else entry (image w) s') as Hentry.
  { intros s' Hs'.
    eapply (entry_after_write_dir (image w) (image w4) (image w5) (image w') k s _ lst);
      [by eapply volume_ok_dir_present|done|done|done|done|done|done|done|exact Hi5|done]. }
  assert (list_find (fun s' => names_file filename (entry (image w') s')) dir_slots
          = Some (k, s)) as Hfind.
  { apply list_find_Some. split; [done|]. split.
    - rewrite Hentry by (by eapply list_elem_of_lookup_2). rewrite decide_True by done.
      split; [apply in_use_new_dirent|]. by rewrite getname_new_dirent.
    - intros j sj Hj Hjk. rewrite Hentry by (by eapply list_elem_of_lookup_2).
      rewrite decide_False.
      + apply list_find_None in Hnone. eapply Forall_forall in Hnone; [exact Hnone|].
        by eapply list_elem_of_lookup_2.
      + intros ->. pose proof (NoDup_lookup _ _ _ _ dir_slots_NoDup Hj Hk). lia. }
  assert (volume_ok ds (image w')) as Hv'.
  { eapply volume_ok_length; [|exact Hv]. congruence. }
  unfold cat, bind, find_file.
  destruct (find_file_in_run filename false dir_sectors auto_buf w'
              (dir_sectors_present _ (volume_ok_dir_present _ _ Hv')) length_auto_buf)
    as (w6 & -> & Ho6 & Hi6).
  fold dir_slots in Hi6 |- *. rewrite Hfind in Hi6 |- *.
  rewrite Hentry by (by eapply list_elem_of_lookup_2).
  destruct (decide (s = s)) as [_|]; [|done].
  pose proof (Hlrange 0 ltac:(lia)) as Hfirst.
  rewrite start_sector_new_dirent by lia. rewrite decide_False by lia.
  (* the chain of the new image *)
  destruct (read_file_chain (padded data) lst sects (Z.of_nat k) size) with
    (n := Z.to_nat sects) (i := 0) (f := @nil Z) (fuel := fuel) (w := w6)
    as (w7 & Hread & _ & _).
  - apply length_padded.
  - lia.
  - intros i Hi. specialize (Hlrange i Hi). lia.
  - unfold DATA_SIZE in *. lia.
  - lia.
  - lia.
  - lia.
  - pose proof (free_indices_length ds bitmap ltac:(lia)). lia.
  - intros j Hj. rewrite Hi6. pose proof (Hlrange j Hj) as Hjr.
    pose proof (Hres' _ (Hlin j Hj)) as Hjm.
    unfold metadata_sector, SECTOR_VTOC, SECTOR_DIR, SECTOR_DIR_SIZE in Hjm.
    split; [apply (volume_ok_in_image ds); [done|lia]|].
    rewrite Hrest by (unfold SECTOR_VTOC, SECTOR_VTOC2; lia).
    rewrite Hi5, sector_of_store_ne.
    + by apply Hsec.
    + apply (volume_ok_in_image ds).
      * eapply volume_ok_length; [|exact Hv]. congruence.
      * assert (0 <= Z.of_nat k / 8 < 8)
          by (split; [apply Z.div_pos; lia|apply Z.div_lt_upper_bound; lia]).
        unfold SECTOR_DIR. destruct (volume_ok_size _ _ Hv) as [-> | ->];
          unfold SD_DISK_SIZE, ED_DISK_SIZE; lia.
    + rewrite length_memcpy; [apply length_sector_of|].
      * apply (volume_ok_in_image ds); [eapply volume_ok_length; [|exact Hv]; congruence|].
        assert (0 <= Z.of_nat k / 8 < 8)
          by (split; [apply Z.div_pos; lia|apply Z.div_lt_upper_bound; lia]).
        unfold SECTOR_DIR. destruct (volume_ok_size _ _ Hv) as [-> | ->];
          unfold SD_DISK_SIZE, ED_DISK_SIZE; lia.
      * rewrite length_dirent_bytes, length_sector_of.
        -- pose proof (Z.mod_pos_bound (Z.of_nat k) 8). lia.
        -- apply (volume_ok_in_image ds); [eapply volume_ok_length; [|exact Hv]; congruence|].
           assert (0 <= Z.of_nat k / 8 < 8)
             by (split; [apply Z.div_pos; lia|apply Z.div_lt_upper_bound; lia]).
           unfold SECTOR_DIR. destruct (volume_ok_size _ _ Hv) as [-> | ->];
             unfold SD_DISK_SIZE, ED_DISK_SIZE; lia.
    + lia.
    + assert (0 <= Z.of_nat k / 8 < 8)
        by (split; [apply Z.div_pos; lia|apply Z.div_lt_upper_bound; lia]).
      unfold SECTOR_DIR. lia.
  - exists w7. split; [done|]. rewrite Hread. f_equal. rewrite app_nil_l.
    replace (Z.to_nat (DATA_SIZE * 0)) with 0%nat by (unfold DATA_SIZE; lia).
    rewrite drop_0. replace (size - DATA_SIZE * 0) with size by lia.
    unfold padded, size. rewrite Nat2Z.id. apply take_app_length.
Qed.

(** The lengths of C1 other than 0 on a freshly formatted volume:
    whatever the bytes, [put_file] then [cat] gives them back. *)
Theorem round_trip_on_fresh_volume (data : list Z) :
  Z.of_nat (length data) ∈ [1; 124; 125; 126; 249; 10000] ->
  exists w1 w2,
    put_file 720 720 data test_txt fresh_sd = Ret 0 w1 /\
    cat 720 false test_txt w1 = Ret data w2.
Proof.
  intros Hlen.
  assert (Z.of_nat (length (free_indices 720 (disk_bitmap 720 (image fresh_sd)))) = 707)
    as Hfree by (vm_compute; reflexivity).
  apply put_file_cat_round_trip.
  - exact fresh_sd_volume_ok.
  - lia.
  - rewrite !elem_of_cons, elem_of_nil in Hlen. lia.
  - vm_compute. reflexivity.
  - vm_compute. reflexivity.
  - eexists. vm_compute. reflexivity.
  - rewrite Hfree. rewrite !elem_of_cons, elem_of_nil in Hlen.
    destruct Hlen as [->|[->|[->|[->|[->|[->|[]]]]]]]; vm_compute; discriminate.
  - apply Forall_forall. apply (bool_decide_unpack _). vm_compute. reflexivity.
Qed.

(** * Further properties of the code *)

(** ** The sector layer: what is written is what is read *)

Lemma take_store_sector img sect buf :
  in_image img sect -> take 16 (store_sector img sect buf) = take 16 img.
Proof.
  intros [Hs Hl]. unfold store_sector, memcpy.
  assert (16 <= sector_offset sect)%nat as Ho by (unfold sector_offset, SECTOR_SIZE; lia).
  rewrite take_app_le by (rewrite length_take; lia).
  rewrite take_take. by rewrite Nat.min_l.
Qed.

(** X1 ([getsect], [putsect]): a sector of the image that is written
    with [putsect] is read back by [getsect] byte for byte; the length of
    the image, its 16 byte header and every other sector stay as they
    were, and nothing is printed. *)
Theorem putsect_getsect_round_trip (buf buf0 : list Z) (sect : Z) (w : world) :
  in_image (image w) sect -> length buf = 128%nat -> length buf0 = 128%nat ->
  exists w1 w2,
    putsect buf sect w = Ret tt w1 /\
    getsect buf0 sect w1 = Ret buf w2 /\
    stdout w2 = stdout w /\
    length (image w2) = length (image w) /\
    take 16 (image w2) = take 16 (image w) /\
    forall s, 1 <= s -> s <> sect -> sector_of (image w2) s = sector_of (image w) s.
Proof.
  intros Hin Hb Hb0.
  destruct (putsect_in_image buf sect w Hin Hb) as (w1 & Hp & Hi1 & Ho1).
  assert (in_image (image w1) sect) as Hin1.
  { rewrite Hi1. by apply in_image_store_sector. }
  destruct (getsect_in_image buf0 sect w1 Hin1 Hb0) as (w2 & Hg & Hi2 & Ho2).
  exists w1, w2. rewrite Hg, Hi2, Hi1, Ho2, Ho1.
  rewrite sector_of_store_eq by done.
  repeat split; try done.
  - by apply length_store_sector.
  - by apply take_store_sector.
  - intros s Hs Hne. by apply sector_of_store_ne.
Qed.

Lemma putsect_getsect_round_trip_witness :
  in_image (image fresh_sd) 5 /\ length (replicate 128 7) = 128%nat /\
  length auto_buf = 128%nat /\
  exists w1 w2,
    putsect (replicate 128 7) 5 fresh_sd = Ret tt w1 /\
    getsect auto_buf 5 w1 = Ret (replicate 128 7) w2 /\
    stdout w2 = stdout fresh_sd /\
    length (image w2) = length (image fresh_sd) /\
    take 16 (image w2) = take 16 (image fresh_sd) /\
    forall s, 1 <= s -> s <> 5 -> sector_of (image w2) s = sector_of (image fresh_sd) s.
Proof.
  assert (in_image (image fresh_sd) 5) as Hin.
  { apply in_image_by_length; [lia|]. rewrite fresh_sd_length. lia. }
  split; [exact Hin|]. split; [reflexivity|]. split; [reflexivity|].
  exact (putsect_getsect_round_trip (replicate 128 7) auto_buf 5 fresh_sd Hin eq_refl eq_refl).
Defined.

(** ** The directory: the slot that [find_empty_entry] hands out *)

(** X2 ([find_empty_entry]): the result is the number of the first of
    the 64 directory slots whose in-use bit is clear, in storage order,
    and -1 exactly when all 64 are in use; the image is not changed and
    nothing is printed. *)
Theorem find_empty_entry_lowest_unused (w : world) :
  dir_present (image w) ->
  exists e w',
    find_empty_entry w = Ret e w' /\ image w' = image w /\ stdout w' = stdout w /\
    -1 <= e < 64 /\
    (e = -1 <-> forall s, s ∈ dir_slots -> in_use (entry (image w) s)) /\
    (forall k s, dir_slots !! k = Some s ->
       (e = Z.of_nat k <->
        ~ in_use (entry (image w) s) /\
        forall j s', (j < k)%nat -> dir_slots !! j = Some s' -> in_use (entry (image w) s'))).
Proof.
  intros Hd. apply dir_sectors_present in Hd.
  destruct (find_empty_entry_in_run dir_sectors auto_buf w Hd length_auto_buf)
    as (w' & He & Ho & Hi).
  fold dir_slots in He. unfold find_empty_entry. rewrite He. clear He.
  eexists _, w'. split; [reflexivity|]. split; [done|]. split; [done|].
  destruct (list_find _ dir_slots) as [[k0 s0]|] eqn:Hf.
  - apply list_find_Some in Hf as (Hk0 & Hfree & Hlow).
    rewrite (slot_number_position k0 s0 Hk0).
    assert (k0 < 64)%nat as Hlt.
    { apply lookup_lt_Some in Hk0. by rewrite dir_slots_length in Hk0. }
    split; [lia|]. split.
    + split; [lia|]. intros Hall. exfalso. apply Hfree, Hall.
      by eapply list_elem_of_lookup_2.
    + intros k s Hk. split.
      * intros Hek. assert (k = k0) as -> by lia.
        assert (s = s0) as -> by congruence.
        split; [done|]. intros j s' Hj Hs'.
        destruct (decide (in_use (entry (image w) s'))) as [|Hn]; [done|].
        exfalso. by eapply Hlow.
      * intros [Hfk Hlk]. f_equal.
        destruct (Nat.lt_trichotomy k k0) as [Hlt'|[->|Hgt]]; [|done|].
        -- exfalso. by eapply Hlow.
        -- exfalso. apply Hfree. by eapply Hlk.
  - apply list_find_None in Hf. split; [lia|]. split.
    + split; [|done]. intros _ s Hs.
      rewrite Forall_forall in Hf. specialize (Hf s Hs).
      destruct (decide (in_use (entry (image w) s))); [done|]. by exfalso.
    + intros k s Hk. split; [lia|]. intros [Hfk _]. exfalso.
      rewrite Forall_forall in Hf. eapply Hf; [|exact Hfk]. by eapply list_elem_of_lookup_2.
Qed.

Lemma find_empty_entry_lowest_unused_witness :
  dir_present (image one_file_sd) /\
  exists e w',
    find_empty_entry one_file_sd = Ret e w' /\ image w' = image one_file_sd /\
    stdout w' = stdout one_file_sd /\
    -1 <= e < 64 /\
    (e = -1 <-> forall s, s ∈ dir_slots -> in_use (entry (image one_file_sd) s)) /\
    (forall k s, dir_slots !! k = Some s ->
       (e = Z.of_nat k <->
        ~ in_use (entry (image one_file_sd) s) /\
        forall j s', (j < k)%nat -> dir_slots !! j = Some s' ->
                     in_use (entry (image one_file_sd) s'))).
Proof.
  assert (dir_present (image one_file_sd)) as Hd.
  { apply (volume_ok_dir_present 720), one_file_sd_volume_ok. }
  split; [exact Hd|]. exact (find_empty_entry_lowest_unused one_file_sd Hd).
Defined.

(** ** Reading a file with line ending conversion *)

(** A sector inside the image is read in full: the array holds it
    afterwards whatever it held before, and the stream is left in the
    same state. *)
Lemma getsect_in_image_any sect w :
  in_image (image w) sect ->
  exists w', (forall buf, length buf = 128%nat ->
                getsect buf sect w = Ret (sector_of (image w) sect) w') /\
             image w' = image w /\ stdout w' = stdout w.
Proof.
  intros [H1 Hs].
  exists (mkWorld (mkFILE (contents (disk w))
                          ((sect - 1) * SECTOR_SIZE + 16 + Z.of_nat (Z.to_nat SECTOR_SIZE)))
                  (stdout w)).
  split; [|done]. intros buf Hb. unfold getsect. rewrite decide_False by lia.
  unfold bind, fseek_disk, fseek, fread_disk, fread, ret.
  assert (((sect - 1) * SECTOR_SIZE + 16 <? 0) = false) as -> by (unfold SECTOR_SIZE; lia).
  cbn [disk stdout contents fpos snd].
  fold (sector_offset sect). fold (image w). fold (sector_of (image w) sect).
  rewrite length_sector_of by done. rewrite drop_ge by lia. rewrite app_nil_r.
  done.
Qed.

Lemma length_convert_endings buf bytes :
  length (convert_endings buf bytes) = length buf.
Proof.
  unfold convert_endings. rewrite length_app, length_map, length_take, length_drop. lia.
Qed.

(** What the loop of [read_file] has written so far only grows. *)
Lemma read_sectors_acc fuel cvt : forall buf sector f w,
  read_sectors fuel cvt buf sector f w =
  match read_sectors fuel cvt buf sector [] w with
  | Ret out w' => Ret (f ++ out) w'
  | Exit code w' => Exit code w'
  | Spin => Spin
  end.
Proof.
  induction fuel as [|fuel IH]; intros buf sector f w; [done|].
  cbn [read_sectors]. unfold bind.
  destruct (getsect buf sector w) as [bf w1|code w1|]; [|done|done].
  cbn zeta. destruct (decide (next_sector bf = 0)); [done|].
  rewrite IH. rewrite (IH _ _ ([] ++ _)).
  destruct (read_sectors fuel cvt _ (next_sector bf) [] w1); [|done|done].
  by rewrite app_assoc.
Qed.

Lemma take_convert_endings buf bytes :
  take bytes (convert_endings buf bytes)
  = map (fun b => if decide (b = 0x9b) then 10 else b) (take bytes buf).
Proof.
  unfold convert_endings.
  destruct (decide (bytes <= length buf)%nat).
  - rewrite take_app_length'; [done|]. rewrite length_map, length_take. lia.
  - rewrite drop_ge by lia. rewrite app_nil_r. apply take_ge.
    rewrite length_map, length_take. lia.
Qed.

(** The two modes of the loop on a chain inside the image: the arrays
    of the two runs differ, by the bytes converted in place, but each
    round overwrites them. *)
Lemma read_sectors_cvt fuel : forall sector bf bf' f w,
  length bf = 128%nat -> length bf' = 128%nat ->
  Forall (fun x => in_image (image w) x /\ bytes_used (sector_of (image w) x) <= 128)
         (chain_sectors fuel (image w) sector) ->
  read_sectors fuel true bf sector f w =
  match read_sectors fuel false bf' sector [] w with
  | Ret out w' => Ret (f ++ map (fun b => if decide (b = 0x9b) then 10 else b) out) w'
  | Exit code w' => Exit code w'
  | Spin => Spin
  end.
Proof.
  induction fuel as [|fuel IH]; intros sector bf bf' f w Hbf Hbf' Hchain; [done|].
  cbn [chain_sectors] in Hchain. apply Forall_cons in Hchain as [[Hin Hbytes] Hchain].
  destruct (getsect_in_image_any sector w Hin) as (w1 & Hget & Hi1 & _).
  cbn [read_sectors]. unfold bind. rewrite !Hget by done. cbn zeta.
  pose proof (length_sector_of _ _ Hin) as Hls.
  set (sec := sector_of (image w) sector) in *.
  rewrite !take_app_le by (rewrite ?length_convert_endings, Hls; lia).
  rewrite take_convert_endings. change (next_sector sec) with (chain_next (image w) sector).
  destruct (decide (chain_next (image w) sector = 0)); [done|].
  rewrite (IH _ _ sec); [|by rewrite length_convert_endings|done|by rewrite Hi1].
  rewrite (read_sectors_acc fuel false _ _ ([] ++ _)).
  destruct (read_sectors fuel false sec _ [] w1); [|done|done].
  by rewrite map_app, app_assoc.
Qed.

(** X3 ([read_file], [cvt_ending]): on a chain whose sectors lie in the
    image and hold byte counts of at most 128, with [cvt_ending] set the
    call ends as it does without, on the same sectors, and writes the
    same bytes with every 0x9b replaced by a line feed.  (Where a
    sector of the chain lies outside the image the array keeps the
    bytes of the round before, converted or not, and the two modes can
    follow different chains.) *)
Theorem read_file_cvt_ending (fuel : nat) (sector : Z) (f : list Z) (w : world) :
  Forall (fun x => in_image (image w) x /\ bytes_used (sector_of (image w) x) <= 128)
         (chain_sectors fuel (image w) sector) ->
  read_file fuel true sector f w =
  match read_file fuel false sector [] w with
  | Ret out w' => Ret (f ++ map (fun b => if decide (b = 0x9b) then 10 else b) out) w'
  | Exit code w' => Exit code w'
  | Spin => Spin
  end.
Proof.
  intros Hchain. unfold read_file. by apply read_sectors_cvt.
Qed.

Lemma read_file_cvt_ending_witness :
  Forall (fun x => in_image (image one_file_sd) x /\
                   bytes_used (sector_of (image one_file_sd) x) <= 128)
         (chain_sectors 720 (image one_file_sd) 4) /\
  read_file 720 true 4 [] one_file_sd =
  match read_file 720 false 4 [] one_file_sd with
  | Ret out w' => Ret ([] ++ map (fun b => if decide (b = 0x9b) then 10 else b) out) w'
  | Exit code w' => Exit code w'
  | Spin => Spin
  end.
Proof.
  assert (Forall (fun x => in_image (image one_file_sd) x /\
                           bytes_used (sector_of (image one_file_sd) x) <= 128)
                 (chain_sectors 720 (image one_file_sd) 4)) as Hchain.
  { assert (chain_sectors 720 (image one_file_sd) 4 = [4]) as -> by (vm_compute; reflexivity).
    apply Forall_cons. split; [|apply Forall_nil_2]. split.
    - apply in_image_by_length; [done|]. rewrite one_file_sd_length. done.
    - vm_compute. discriminate. }
  split; [exact Hchain|]. exact (read_file_cvt_ending 720 4 [] one_file_sd Hchain).
Defined.

(** [getsect] of a sector behind the end of the image: [fread]
    transfers nothing and the array keeps what it held. *)
Lemma getsect_past_end buf sect w :
  1 <= sect -> Z.of_nat (length (image w)) <= (sect - 1) * SECTOR_SIZE + 16 ->
  exists w', getsect buf sect w = Ret buf w' /\ image w' = image w /\ stdout w' = stdout w.
Proof.
  intros H1 Hend. unfold getsect. rewrite decide_False by lia.
  unfold bind, fseek_disk, fseek, fread_disk, fread, ret.
  assert (((sect - 1) * SECTOR_SIZE + 16 <? 0) = false) as -> by (unfold SECTOR_SIZE; lia).
  cbn [disk stdout contents fpos snd]. unfold image in Hend.
  rewrite drop_ge by lia. rewrite take_nil. cbn [length app]. rewrite drop_0.
  eexists. split; [reflexivity|]. done.
Qed.

(** Conversion and the chain outside the image: on [stale_sd]
    sector 4 names sector 768, which the image does not hold,
    so the second round finds the bytes of sector 4 in the array.
    Without [cvt_ending] they name sector 768 again, for ever; with it
    byte 125 has become a line feed, the next sector is 512, and the
    call returns. *)
Lemma read_file_stale_buffer :
  (exists w', read_file 3 true 4 [] stale_sd
              = Ret ((replicate 125 0 ++ [10]) ++ (replicate 125 0 ++ [10])) w') /\
  (forall fuel, read_file fuel false 4 [] stale_sd = Spin).
Proof.
  split.
  { assert (match read_file 3 true 4 [] stale_sd with
            | Ret out _ => out = (replicate 125 0 ++ [10]) ++ (replicate 125 0 ++ [10])
            | _ => False
            end) as H by (vm_compute; reflexivity).
    destruct (read_file 3 true 4 [] stale_sd) as [out w'| |]; [|done|done].
    exists w'. by rewrite H. }
  assert (Z.of_nat (length (image stale_sd)) = 92176) as Hlen by (vm_compute; reflexivity).
  assert (forall fuel f w, image w = image stale_sd ->
            read_sectors fuel false stale_data 768 f w = Spin) as Hspin.
  { induction fuel as [|fuel IH]; intros f w Hw; [done|].
    cbn [read_sectors]. unfold bind.
    destruct (getsect_past_end stale_data 768 w) as (w1 & -> & Hi1 & _);
      [lia|rewrite Hw; unfold SECTOR_SIZE; lia|].
    cbn zeta. change (next_sector stale_data) with 768.
    rewrite decide_False by lia. apply IH. congruence. }
  intros [|fuel]; [done|]. unfold read_file. cbn [read_sectors]. unfold bind.
  assert (in_image (image stale_sd) 4) as Hin.
  { apply in_image_by_length; [done|]. rewrite Hlen. done. }
  destruct (getsect_in_image auto_buf 4 stale_sd Hin length_auto_buf) as (w1 & -> & Hi1 & _).
  cbn zeta.
  assert (sector_of (image stale_sd) 4 = stale_data) as -> by (vm_compute; reflexivity).
  change (next_sector stale_data) with 768. rewrite decide_False by lia.
  by apply Hspin.
Qed.

(** ** Marking a sector in the bitmap *)

(** X4 ([mark_space]): the call changes the bit of sector [start] and
    no other: afterwards that sector is free when [alloc] is 0 and in use
    otherwise, and every other sector is as before. *)
Theorem mark_space_changes_one_bit (bitmap : list Z) (start x : Z) (alloc : bool) :
  0 <= start -> 0 <= x -> (Z.to_nat (Z.shiftr start 3) < length bitmap)%nat ->
  length (mark_space bitmap start alloc) = length bitmap /\
  bit_free (mark_space bitmap start alloc) x
  = if decide (x = start) then negb alloc else bit_free bitmap x.
Proof.
  intros Hs Hx Hl. unfold mark_space. split.
  - destruct alloc; unfold clear_bit, set_bit; by rewrite length_insert.
  - destruct (decide (x = start)) as [->|Hne].
    + destruct alloc; [apply bit_free_clear_eq|by apply bit_free_set_eq].
    + destruct alloc; [by apply bit_free_clear_ne|by apply bit_free_set_ne].
Qed.

Lemma mark_space_changes_one_bit_witness :
  0 <= 4 /\ 0 <= 5 /\ (Z.to_nat (Z.shiftr 4 3) < length fresh_bitmap_sd)%nat /\
  length (mark_space fresh_bitmap_sd 4 true) = length fresh_bitmap_sd /\
  bit_free (mark_space fresh_bitmap_sd 4 true) 5
  = if decide (5 = 4) then negb true else bit_free fresh_bitmap_sd 5.
Proof.
  split; [lia|]. split; [lia|].
  assert (Z.to_nat (Z.shiftr 4 3) < length fresh_bitmap_sd)%nat as Hl by (vm_compute; lia).
  split; [exact Hl|].
  apply (mark_space_changes_one_bit fresh_bitmap_sd 4 5 true); [lia|lia|exact Hl].
Defined.

(** ** What [putbitmap] leaves alone *)

Lemma lookup_store_sector img sect buf i :
  in_image img sect -> length buf = 128%nat ->
  store_sector img sect buf !! i =
  if decide (sector_offset sect <= i < sector_offset sect + 128)%nat
  then buf !! (i - sector_offset sect)%nat else img !! i.
Proof.
  intros [Hs Hl] Hb. unfold store_sector. rewrite lookup_memcpy by lia. rewrite Hb.
  repeat case_decide; try done; lia.
Qed.

Lemma lookup_vtoc_of_bitmap bitmap vtoc j :
  length vtoc = 128%nat -> (90 <= length bitmap)%nat ->
  ~ (3 <= j < 5)%nat -> ~ (10 <= j < 100)%nat ->
  vtoc_of_bitmap bitmap vtoc !! j = vtoc !! j.
Proof.
  intros Hv Hb H1 H2. unfold vtoc_of_bitmap. cbn zeta.
  unfold VTOC_NUM_UNUSED, VTOC_BITMAP, SD_BITMAP_SIZE.
  rewrite !list_lookup_insert_ne by lia.
  rewrite lookup_memcpy by lia. rewrite length_take.
  repeat case_decide; try done; lia.
Qed.

Lemma lookup_vtoc2_of_bitmap bitmap vtoc2 j :
  length vtoc2 = 128%nat -> length bitmap = 128%nat -> (124 <= j)%nat ->
  vtoc2_of_bitmap bitmap vtoc2 !! j = vtoc2 !! j.
Proof.
  intros Hv Hb Hj. unfold vtoc2_of_bitmap. cbn zeta.
  unfold VTOC2_NUM_UNUSED, ED_BITMAP_SIZE, ED_BITMAP_START, SD_BITMAP_SIZE.
  rewrite !list_lookup_insert_ne by lia.
  rewrite lookup_memcpy by lia. rewrite length_take, length_drop.
  repeat case_decide; try done; lia.
Qed.

(** X5 ([putbitmap]): the call rewrites the bitmap and its free counts
    and nothing else: outside bytes 3, 4 and 10 to 99 of the VTOC and
    (enhanced density) bytes 0 to 123 of VTOC2 every byte of the image,
    the VTOC type code and usable sector count among them, is as it was. *)
Theorem putbitmap_touches_only_bitmap_bytes (ds : Z) (bitmap : list Z) (w : world) :
  in_image (image w) SECTOR_VTOC ->
  (ds = ED_DISK_SIZE -> in_image (image w) SECTOR_VTOC2) ->
  length bitmap = 128%nat ->
  exists w',
    putbitmap ds bitmap w = Ret tt w' /\ stdout w' = stdout w /\
    length (image w') = length (image w) /\
    forall i, ~ bitmap_byte ds i -> image w' !! i = image w !! i.
Proof.
  intros Hv Hv2 Hb.
  destruct (putbitmap_run ds bitmap w Hv Hv2 Hb) as (w' & Hp & Ho & Hi).
  exists w'. split; [done|]. split; [done|]. cbn zeta in Hi.
  pose proof (length_sector_of _ _ Hv) as Hlv.
  assert (length (vtoc_of_bitmap bitmap (sector_of (image w) SECTOR_VTOC)) = 128%nat) as Hl1.
  { apply length_vtoc_of_bitmap; [done|lia]. }
  assert (forall i, ~ bitmap_byte ds i ->
            store_sector (image w) SECTOR_VTOC
              (vtoc_of_bitmap bitmap (sector_of (image w) SECTOR_VTOC)) !! i
            = image w !! i) as Hfirst.
  { intros i Hn. rewrite lookup_store_sector by done.
    destruct (decide (_ <= i < _)%nat) as [Hr|Hr]; [|done].
    rewrite lookup_vtoc_of_bitmap; [|done|lia|..].
    - rewrite lookup_sector_of. rewrite decide_True by lia. f_equal. lia.
    - intros ?. apply Hn. left. lia.
    - intros ?. apply Hn. right. left. lia. }
  destruct (decide (ds = ED_DISK_SIZE)) as [Hed|Hsd].
  - specialize (Hv2 Hed). pose proof (length_sector_of _ _ Hv2) as Hlv2.
    assert (length (vtoc2_of_bitmap bitmap (sector_of (image w) SECTOR_VTOC2)) = 128%nat)
      as Hl2 by (by apply length_vtoc2_of_bitmap).
    assert (in_image (store_sector (image w) SECTOR_VTOC
                        (vtoc_of_bitmap bitmap (sector_of (image w) SECTOR_VTOC)))
                     SECTOR_VTOC2) as Hin2 by (by apply in_image_store_sector).
    split.
    + rewrite Hi, !length_store_sector; done.
    + intros i Hn. rewrite Hi. rewrite lookup_store_sector by done.
      destruct (decide (_ <= i < _)%nat) as [Hr|Hr]; [|by apply Hfirst].
      assert (sector_offset SECTOR_VTOC2 + 124 <= i)%nat as Hhi.
      { destruct (decide (sector_offset SECTOR_VTOC2 + 124 <= i)%nat); [done|].
        exfalso. apply Hn. right. right. split; [done|lia]. }
      rewrite lookup_vtoc2_of_bitmap by (done || lia).
      rewrite lookup_sector_of. rewrite decide_True by lia. f_equal. lia.
  - split.
    + rewrite Hi, length_store_sector; done.
    + intros i Hn. rewrite Hi. by apply Hfirst.
Qed.

Lemma putbitmap_touches_only_bitmap_bytes_witness :
  in_image (image fresh_ed) SECTOR_VTOC /\
  (1024 = ED_DISK_SIZE -> in_image (image fresh_ed) SECTOR_VTOC2) /\
  length all_free_bitmap = 128%nat /\
  exists w',
    putbitmap 1024 all_free_bitmap fresh_ed = Ret tt w' /\ stdout w' = stdout fresh_ed /\
    length (image w') = length (image fresh_ed) /\
    forall i, ~ bitmap_byte 1024 i -> image w' !! i = image fresh_ed !! i.
Proof.
  assert (in_image (image fresh_ed) SECTOR_VTOC) as Hv.
  { apply in_image_by_length; [done|]. rewrite fresh_ed_length. done. }
  assert (1024 = ED_DISK_SIZE -> in_image (image fresh_ed) SECTOR_VTOC2) as Hv2.
  { intros _. apply in_image_by_length; [done|]. rewrite fresh_ed_length. done. }
  split; [exact Hv|]. split; [exact Hv2|]. split; [reflexivity|].
  exact (putbitmap_touches_only_bitmap_bytes 1024 all_free_bitmap fresh_ed Hv Hv2 eq_refl).
Defined.

(** ** Commands that only read *)

Lemma keeps_image_ret {A} (a : A) : keeps_image (ret a).
Proof. intros w w' H. by injection H as <-. Qed.

Lemma keeps_image_exit {A} code : keeps_image (@exit A code).
Proof. intros w w' H. by injection H as <-. Qed.

Lemma keeps_image_printf m : keeps_image (printf m).
Proof. intros w w' H. by injection H as <-. Qed.

Lemma keeps_image_bind {A B} (c : io A) (k : A -> io B) :
  keeps_image c -> (forall a, keeps_image (k a)) -> keeps_image (x <- c ;; k x).
Proof.
  intros Hc Hk w w' H. unfold bind in H.
  destruct (c w) as [a w1|code w1|] eqn:Hcw.
  - rewrite (Hk a w1 w' H). apply Hc. by rewrite Hcw.
  - cbn in H. injection H as <-. apply Hc. by rewrite Hcw.
  - done.
Qed.

Lemma keeps_image_getsect buf sect : keeps_image (getsect buf sect).
Proof.
  unfold getsect. case_decide.
  - apply keeps_image_bind; [apply keeps_image_printf|intros; apply keeps_image_exit].
  - intros w w'. unfold bind, fseek_disk, fseek, fread_disk, fread, ret.
    destruct (_ <? 0); cbn; intros Hf; by injection Hf as <-.
Qed.

Lemma keeps_image_find_empty_entry_in xs : forall buf,
  keeps_image (find_empty_entry_in xs buf).
Proof.
  induction xs as [|x xs IH]; intros buf; cbn [find_empty_entry_in].
  - apply keeps_image_ret.
  - apply keeps_image_bind; [apply keeps_image_getsect|]. intros b.
    destruct (empty_entry_in b entry_offsets); [apply keeps_image_ret|apply IH].
Qed.

Lemma keeps_image_find_file_in filename xs : forall buf,
  keeps_image (find_file_in xs buf filename false).
Proof.
  induction xs as [|x xs IH]; intros buf; cbn [find_file_in].
  - apply keeps_image_ret.
  - apply keeps_image_bind; [apply keeps_image_getsect|]. intros b.
    destruct (file_entry_in b filename entry_offsets); [|apply IH].
    apply keeps_image_bind; intros; apply keeps_image_ret.
Qed.

Lemma keeps_image_check_vtoc ds bitmap vtoc : keeps_image (check_vtoc ds bitmap vtoc).
Proof.
  intros w w'. rewrite check_vtoc_run. intros H. by injection H as <-.
Qed.

Lemma keeps_image_check_vtoc2 bitmap vtoc2 : keeps_image (check_vtoc2 bitmap vtoc2).
Proof.
  intros w w'. rewrite check_vtoc2_run. intros H. by injection H as <-.
Qed.

Lemma keeps_image_getbitmap ds bitmap check : keeps_image (getbitmap ds bitmap check).
Proof.
  unfold getbitmap.
  apply keeps_image_bind; [apply keeps_image_getsect|]. intros vtoc.
  apply keeps_image_bind.
  { destruct check; [apply keeps_image_check_vtoc|apply keeps_image_ret]. }
  intros _. case_decide; [|apply keeps_image_ret].
  apply keeps_image_bind; [apply keeps_image_getsect|]. intros vtoc2.
  apply keeps_image_bind; [|intros; apply keeps_image_ret].
  destruct check; [apply keeps_image_check_vtoc2|apply keeps_image_ret].
Qed.

Lemma keeps_image_read_sectors cvt fuel : forall buf sector f,
  keeps_image (read_sectors fuel cvt buf sector f).
Proof.
  induction fuel as [|fuel IH]; intros buf sector f; cbn [read_sectors].
  - intros w w' H. done.
  - apply keeps_image_bind; [apply keeps_image_getsect|]. intros bf.
    cbn zeta. case_decide; [apply keeps_image_ret|apply IH].
Qed.

Lemma keeps_image_read_file cvt fuel sector f :
  keeps_image (read_file fuel cvt sector f).
Proof. apply keeps_image_read_sectors. Qed.

(** X6 ([cat], [find_file] without [del], [find_empty_entry],
    [getbitmap]): none of them changes a byte of the image, on any image
    and however the call ends, by a return or by [exit]. *)
Theorem queries_never_write :
  (forall fuel cvt filename, keeps_image (cat fuel cvt filename)) /\
  (forall filename, keeps_image (find_file filename false)) /\
  keeps_image find_empty_entry /\
  (forall ds bitmap check, keeps_image (getbitmap ds bitmap check)).
Proof.
  repeat apply conj.
  - intros fuel cvt filename. unfold cat.
    apply keeps_image_bind; [apply keeps_image_find_file_in|]. intros sector.
    case_decide; [|apply keeps_image_read_file].
    apply keeps_image_bind; [apply keeps_image_printf|intros; apply keeps_image_exit].
  - intros filename. apply keeps_image_find_file_in.
  - apply keeps_image_find_empty_entry_in.
  - apply keeps_image_getbitmap.
Qed.

(** ** Chains that do not end *)

Lemma looping_sd_length : Z.of_nat (length (image looping_sd)) = 92176.
Proof. vm_compute. reflexivity. Qed.

(** X7 ([read_file], [del_file]): on a chain that never reaches the end
    mark, for instance one that runs into a cycle, the loops of
    [read_file] and of [del_file] do not end: no amount of fuel gives a
    result. *)
Theorem endless_chain_never_returns (C : Z -> Prop) (w : world) (s : Z) :
  (forall x, C x -> in_image (image w) x /\ C (chain_next (image w) x)) -> C s ->
  forall fuel cvt f bitmap,
    read_file fuel cvt s f w = Spin /\ del_chain fuel bitmap s w = Spin.
Proof.
  intros HC Hs fuel cvt f bitmap. unfold read_file, del_chain.
  assert (forall w' bf, image w' = image w -> length bf = 128%nat ->
            read_sectors fuel cvt bf s f w' = Spin /\
            del_sectors fuel bf bitmap s w' = Spin) as H;
    [|by apply H].
  revert s Hs f bitmap.
  induction fuel as [|fuel IH]; intros s Hs f bitmap w' bf Hw' Hbf; [done|].
  destruct (HC s Hs) as [Hin Hnext]. rewrite <- Hw' in Hin.
  cbn [read_sectors del_sectors]. unfold bind.
  destruct (getsect_in_image bf s w' Hin Hbf) as (w1 & -> & Hi1 & _).
  cbn zeta. rewrite Hw'. fold (chain_next (image w) s).
  destruct (HC _ Hnext) as [[Hpos _] _].
  rewrite !decide_False by lia.
  pose proof (length_sector_of _ _ (proj1 (HC s Hs))) as Hls.
  split; apply IH; try done; try congruence.
  destruct cvt; [by rewrite length_convert_endings|done].
Qed.

Lemma endless_chain_never_returns_witness :
  (forall x, x = 4 -> in_image (image looping_sd) x /\ chain_next (image looping_sd) x = 4) /\
  4 = 4 /\
  forall fuel cvt f bitmap,
    read_file fuel cvt 4 f looping_sd = Spin /\ del_chain fuel bitmap 4 looping_sd = Spin.
Proof.
  assert (forall x, x = 4 ->
            in_image (image looping_sd) x /\ chain_next (image looping_sd) x = 4) as HC.
  { intros x ->. split.
    - apply in_image_by_length; [done|]. rewrite looping_sd_length. done.
    - vm_compute. reflexivity. }
  split; [exact HC|]. split; [reflexivity|].
  exact (endless_chain_never_returns (fun x => x = 4) looping_sd 4 HC eq_refl).
Defined.

(** ** Counting free sectors *)

Lemma fold_left_count (P : Z -> bool) (l : list Z) : forall acc,
  fold_left (fun total x => if P x then total + 1 else total) l acc
  = acc + Z.of_nat (length (filter (fun x => P x = true) l)).
Proof.
  induction l as [|x l IH]; intros acc; cbn [fold_left].
  - rewrite filter_nil. cbn. lia.
  - rewrite IH, filter_cons. destruct (P x) eqn:HP.
    + rewrite decide_True by done. cbn [length]. lia.
    + rewrite decide_False by done. lia.
Qed.

Lemma amount_free_filter ds bitmap :
  amount_free ds bitmap
  = Z.of_nat (length (filter (fun x => bit_free bitmap x = true) (seqZ 0 ds))).
Proof. unfold amount_free. by rewrite fold_left_count. Qed.

Lemma length_filter_shift (P Q : Z -> Prop) `{!forall x, Decision (P x)}
    `{!forall x, Decision (Q x)} (k : Z) (l : list Z) :
  Forall (fun x => P (k + x) <-> Q x) l ->
  length (filter P (Z.add k <$> l)) = length (filter Q l).
Proof.
  induction 1 as [|x l HPQ _ IH]; [done|].
  rewrite fmap_cons, !filter_cons.
  destruct (decide (P (k + x))) as [HP|HP], (decide (Q x)) as [HQ|HQ]; cbn [length];
    rewrite ?IH; try done; exfalso; tauto.
Qed.

(** The eight bits of the first byte, counted by [count_free] from the
    right and by [amount_free] from the left. *)
Lemma count_byte_first bitmap :
  count_byte (byte_at bitmap 0)
  = Z.of_nat (length (filter (fun x => bit_free bitmap x = true) (seqZ 0 8))).
Proof.
  rewrite <- (Z.add_0_l (Z.of_nat _)), <- fold_left_count.
  unfold count_byte, bit_masks. change (seqZ 0 8) with [0; 1; 2; 3; 4; 5; 6; 7].
  cbn [fold_left]. unfold bit_free.
  change (Z.to_nat (Z.shiftr 0 3)) with 0%nat. change (Z.to_nat (Z.shiftr 1 3)) with 0%nat.
  change (Z.to_nat (Z.shiftr 2 3)) with 0%nat. change (Z.to_nat (Z.shiftr 3 3)) with 0%nat.
  change (Z.to_nat (Z.shiftr 4 3)) with 0%nat. change (Z.to_nat (Z.shiftr 5 3)) with 0%nat.
  change (Z.to_nat (Z.shiftr 6 3)) with 0%nat. change (Z.to_nat (Z.shiftr 7 3)) with 0%nat.
  change (bit_mask 0) with 128. change (bit_mask 1) with 64. change (bit_mask 2) with 32.
  change (bit_mask 3) with 16. change (bit_mask 4) with 8. change (bit_mask 5) with 4.
  change (bit_mask 6) with 2. change (bit_mask 7) with 1.
  generalize (byte_at bitmap 0). intros b.
  pose (t := fun m => if decide (Z.land b m = 0) then 0 else 1).
  assert (forall m c, (if decide (Z.land b m = 0) then c else c + 1) = c + t m) as H1.
  { intros m c. unfold t. case_decide; lia. }
  assert (forall m c, (if negb (Z.land b m =? 0) then c + 1 else c) = c + t m) as H2.
  { intros m c. unfold t. case_decide as H.
    - rewrite H. cbn. lia.
    - apply Z.eqb_neq in H. rewrite H. cbn. lia. }
  rewrite !H1, !H2. lia.
Qed.

Lemma count_free_filter n : forall bitmap,
  count_free bitmap n
  = Z.of_nat (length (filter (fun x => bit_free bitmap x = true) (seqZ 0 (8 * Z.of_nat n)))).
Proof.
  induction n as [|n IH]; intros bitmap; [done|].
  cbn [count_free]. rewrite IH, count_byte_first.
  replace (8 * Z.of_nat (S n)) with (8 + 8 * Z.of_nat n) by lia.
  rewrite seqZ_app by lia. rewrite filter_app, length_app, Nat2Z.inj_add. f_equal. f_equal.
  change (0 + 8) with (8 + 0). rewrite <- fmap_add_seqZ. symmetry.
  apply length_filter_shift, Forall_forall. intros x Hx.
  apply elem_of_seqZ in Hx. rewrite bit_free_drop by lia.
  by replace (x + 8 * Z.of_nat 1) with (8 + x) by lia.
Qed.

Lemma count_free_add n m : forall bitmap,
  count_free bitmap (n + m) = count_free bitmap n + count_free (drop n bitmap) m.
Proof.
  induction n as [|n IH]; intros bitmap.
  - cbn [count_free Nat.add]. by rewrite drop_0.
  - cbn [count_free Nat.add]. rewrite IH, drop_drop. cbn [Nat.add]. lia.
Qed.

Lemma amount_free_split ds bitmap :
  1 <= ds ->
  amount_free ds bitmap
  = (if bit_free bitmap 0 then 1 else 0) + Z.of_nat (length (free_indices ds bitmap)).
Proof.
  intros Hds. rewrite amount_free_filter.
  replace ds with (1 + (ds - 1)) at 1 by lia.
  rewrite seqZ_app by lia. rewrite filter_app, length_app, Nat2Z.inj_add.
  change (seqZ 0 1) with [0]. rewrite filter_cons, filter_nil. unfold free_indices.
  change (0 + 1) with 1. f_equal. by destruct (bit_free bitmap 0).
Qed.

Lemma amount_free_count_free n bitmap :
  amount_free (8 * Z.of_nat n) bitmap = count_free bitmap n.
Proof. by rewrite amount_free_filter, count_free_filter. Qed.

(** X8 ([amount_free], [count_free], [alloc_space]): the number that the
    free command works out is the number of sectors that [alloc_space]
    can hand out, plus one when the bit of the sector 0 that does not
    exist is set; and it is the count that [putbitmap] stores in the VTOC
    (single density) or the sum of the counts of VTOC and VTOC2. *)
Theorem amount_free_counts (ds : Z) (bitmap : list Z) :
  1 <= ds ->
  amount_free ds bitmap
    = (if bit_free bitmap 0 then 1 else 0) + Z.of_nat (length (free_indices ds bitmap)) /\
  amount_free SD_DISK_SIZE bitmap = count_free bitmap SD_BITMAP_SIZE /\
  amount_free ED_DISK_SIZE bitmap
    = count_free bitmap SD_BITMAP_SIZE
      + count_free (drop SD_BITMAP_SIZE bitmap) (ED_BITMAP_SIZE - SD_BITMAP_SIZE).
Proof.
  intros Hds. repeat apply conj.
  - by apply amount_free_split.
  - apply (amount_free_count_free SD_BITMAP_SIZE).
  - rewrite <- (count_free_add SD_BITMAP_SIZE). apply (amount_free_count_free ED_BITMAP_SIZE).
Qed.

Lemma amount_free_counts_witness :
  1 <= 720 /\
  amount_free 720 all_free_bitmap
    = (if bit_free all_free_bitmap 0 then 1 else 0)
      + Z.of_nat (length (free_indices 720 all_free_bitmap)) /\
  amount_free SD_DISK_SIZE all_free_bitmap = count_free all_free_bitmap SD_BITMAP_SIZE /\
  amount_free ED_DISK_SIZE all_free_bitmap
    = count_free all_free_bitmap SD_BITMAP_SIZE
      + count_free (drop SD_BITMAP_SIZE all_free_bitmap) (ED_BITMAP_SIZE - SD_BITMAP_SIZE).
Proof.
  split; [lia|]. apply (amount_free_counts 720 all_free_bitmap). lia.
Defined.

(** ** The free command *)

Lemma bit_free_take_eq n (b b' : list Z) x :
  take n b = take n b' -> 0 <= x < 8 * Z.of_nat n -> bit_free b x = bit_free b' x.
Proof.
  intros Ht Hx. rewrite <- (bit_free_take b n x), <- (bit_free_take b' n x) by done.
  by rewrite Ht.
Qed.

Lemma free_indices_agree ds (b b' : list Z) :
  (forall x, 1 <= x < ds -> bit_free b x = bit_free b' x) ->
  free_indices ds b = free_indices ds b'.
Proof.
  intros H. unfold free_indices. apply filter_agree, Forall_forall.
  intros x Hx. apply elem_of_seqZ in Hx. rewrite H by lia. done.
Qed.

Lemma amount_free_agree ds (b b' : list Z) :
  (forall x, 0 <= x < ds -> bit_free b x = bit_free b' x) ->
  amount_free ds b = amount_free ds b'.
Proof.
  intros H. rewrite !amount_free_filter. do 2 f_equal.
  apply filter_agree, Forall_forall.
  intros x Hx. apply elem_of_seqZ in Hx. rewrite H by lia. done.
Qed.

(** The bitmap on the disk after [putbitmap]. *)
Lemma disk_bitmap_after_putbitmap ds bitmap w w1 :
  volume_ok ds (image w) -> length bitmap = 128%nat ->
  putbitmap ds bitmap w = Ret tt w1 ->
  forall x, 0 <= x < ds -> bit_free (disk_bitmap ds (image w1)) x = bit_free bitmap x.
Proof.
  intros Hvol Hb Hput x Hx.
  destruct (volume_ok_vtoc _ _ Hvol) as [Hv Hv2].
  destruct (putbitmap_sectors ds bitmap w Hv Hv2 Hb)
    as (w1' & Hput' & _ & _ & Hs1 & Hs2 & _).
  rewrite Hput in Hput'. injection Hput' as <-.
  unfold disk_bitmap. cbn zeta. rewrite Hs1.
  set (vtoc := vtoc_of_bitmap bitmap (sector_of (image w) SECTOR_VTOC)).
  assert (length vtoc = 128%nat) as Hl1.
  { apply length_vtoc_of_bitmap; [by apply length_sector_of|lia]. }
  assert (take SD_BITMAP_SIZE (bitmap_of_vtoc auto_buf vtoc) = take SD_BITMAP_SIZE bitmap)
    as Ht1.
  { rewrite bitmap_of_vtoc_take by done. apply vtoc_of_bitmap_bits; [|lia].
    by apply length_sector_of. }
  assert (length (bitmap_of_vtoc auto_buf vtoc) = 128%nat) as Hlb
    by (by apply length_bitmap_of_vtoc).
  destruct (decide (ds = ED_DISK_SIZE)) as [Hed|Hsd].
  - rewrite (Hs2 Hed). specialize (Hv2 Hed).
    set (vtoc2 := vtoc2_of_bitmap bitmap (sector_of (image w) SECTOR_VTOC2)).
    assert (length vtoc2 = 128%nat) as Hl2.
    { apply length_vtoc2_of_bitmap; [by apply length_sector_of|done]. }
    assert (bitmap_of_vtoc2 (bitmap_of_vtoc auto_buf vtoc) vtoc2 = bitmap) as ->; [|done].
    rewrite <- (take_drop SD_BITMAP_SIZE (bitmap_of_vtoc2 _ _)).
    rewrite bitmap_of_vtoc2_take by lia. rewrite Ht1.
    rewrite bitmap_of_vtoc2_drop by done. unfold vtoc2.
    rewrite vtoc2_of_bitmap_upper; [apply take_drop| |done]. by apply length_sector_of.
  - destruct (volume_ok_size _ _ Hvol) as [->|]; [|done].
    apply (bit_free_take_eq SD_BITMAP_SIZE); [done|]. unfold SD_DISK_SIZE, SD_BITMAP_SIZE in *. lia.
Qed.

Lemma do_free_run ds w :
  volume_ok ds (image w) ->
  exists w',
    do_free ds w = Ret (amount_free ds (disk_bitmap ds (image w)),
                        amount_free ds (disk_bitmap ds (image w)) * SECTOR_SIZE) w' /\
    image w' = image w /\ stdout w' = stdout w.
Proof.
  intros Hvol. destruct (volume_ok_vtoc _ _ Hvol) as [Hv Hv2].
  destruct (getbitmap_run ds auto_buf false w Hv Hv2) as (w' & Hget & Hi & Ho).
  cbn zeta in Hget. unfold do_free, bind. rewrite Hget. exists w'.
  split; [done|]. split; [done|]. rewrite Ho. case_decide; by rewrite !app_nil_r.
Qed.



(** ** Writing a directory entry *)

Lemma le16_mod c : u8 c + 256 * u8 (Z.shiftr c 8) = c mod 65536.
Proof.
  unfold u8. rewrite Z.shiftr_div_pow2 by lia. change (2 ^ 8) with 256.
  change 65536 with (256 * 256). by rewrite Z.rem_mul_r.
Qed.

(** X10 ([write_dir]): the entry is stored in the slot [file_no] and
    reads back as built: in use, with the name fields of [putname] and
    with the start sector and the sector count cut to 16 bits; the other
    63 entries and every sector but the one of the slot are unchanged. *)
Theorem write_dir_stores_entry (file_no : Z) (filename : list Z) (first_sect sects : Z)
    (w : world) :
  0 <= file_no < 64 -> dir_present (image w) ->
  exists w' s,
    write_dir file_no filename first_sect sects w = Ret 0 w' /\
    dir_slots !! Z.to_nat file_no = Some s /\
    stdout w' = stdout w /\ length (image w') = length (image w) /\
    entry (image w') s = new_dirent filename first_sect sects /\
    in_use (entry (image w') s) /\
    start_sector (entry (image w') s) = first_sect mod 65536 /\
    count_lo (entry (image w') s) + 256 * count_hi (entry (image w') s) = sects mod 65536 /\
    (forall s', s' ∈ dir_slots -> s' <> s -> entry (image w') s' = entry (image w) s') /\
    (forall x, 1 <= x -> x <> fst s -> sector_of (image w') x = sector_of (image w) x).
Proof.
  intros Hno Hd.
  destruct (write_dir_run file_no filename first_sect sects w Hno Hd) as (w' & Hw & Ho & Hi).
  destruct (lookup_lt_is_Some_2 dir_slots (Z.to_nat file_no)) as [s Hs].
  { rewrite dir_slots_length. lia. }
  destruct (dir_slots_lookup _ _ Hs) as [Hfst Hsnd]. rewrite Z2Nat.id in Hfst, Hsnd by lia.
  assert (in_image (image w) (fst s)) as Hin.
  { eapply in_image_mono; [exact Hd|]. rewrite Hfst. unfold SECTOR_DIR, SECTOR_DIR_SIZE.
    pose proof (Z.div_pos file_no 8). pose proof (Z.div_lt_upper_bound file_no 8 8). lia. }
  pose proof (length_sector_of _ _ Hin) as Hls.
  assert (length (memcpy (sector_of (image w) (fst s)) (snd s)
                    (dirent_bytes (new_dirent filename first_sect sects))) = 128%nat) as Hlm.
  { rewrite length_memcpy; [done|]. rewrite length_dirent_bytes, Hls, Hsnd.
    pose proof (Z.mod_pos_bound file_no 8). lia. }
  rewrite <- Hfst, <- Hsnd in Hi.
  assert (entry (image w') s = new_dirent filename first_sect sects) as He.
  { unfold entry. rewrite Hi, sector_of_store_eq by done.
    destruct (putname_length filename).
    apply dirent_at_memcpy_eq; [|done|done].
    rewrite Hls, Hsnd. pose proof (Z.mod_pos_bound file_no 8). lia. }
  exists w', s. split; [done|]. split; [done|]. split; [done|].
  split; [rewrite Hi; by apply length_store_sector|]. split; [done|]. rewrite He.
  split; [apply in_use_new_dirent|].
  split.
  { unfold start_sector, new_dirent. cbn [start_hi start_lo].
    rewrite Z.shiftl_mul_pow2 by lia. rewrite <- le16_mod. change (2 ^ 8) with 256. lia. }
  split; [apply le16_mod|].
  split.
  - intros s' Hs' Hne. unfold entry. rewrite Hi.
    destruct (decide (fst s' = fst s)) as [Hf|Hf].
    + rewrite Hf, sector_of_store_eq by done.
      apply dirent_at_memcpy_ne.
      * rewrite length_dirent_bytes, Hls, Hsnd. pose proof (Z.mod_pos_bound file_no 8). lia.
      * apply length_dirent_bytes.
      * destruct (dir_slots_spec _ Hs') as (_ & j' & Hj' & Hs'2).
        assert (s ∈ dir_slots) as Hsin by (by eapply list_elem_of_lookup_2).
        destruct (dir_slots_spec _ Hsin) as (_ & j & Hj & Hs2).
        assert (snd s' <> snd s).
        { intros Hsn. apply Hne. destruct s, s'; cbn in *; congruence. }
        lia.
    + rewrite sector_of_store_ne; [done|done|done| |done].
      destruct (dir_slots_spec _ Hs') as (Hsec & _).
      apply elem_of_seqZ in Hsec. unfold SECTOR_DIR in Hsec. lia.
  - intros x Hx Hne. rewrite Hi. by apply sector_of_store_ne.
Qed.

Lemma write_dir_stores_entry_witness :
  0 <= 9 < 64 /\ dir_present (image fresh_sd) /\
  exists w' s,
    write_dir 9 test_txt 4 1 fresh_sd = Ret 0 w' /\
    dir_slots !! Z.to_nat 9 = Some s /\
    stdout w' = stdout fresh_sd /\ length (image w') = length (image fresh_sd) /\
    entry (image w') s = new_dirent test_txt 4 1 /\
    in_use (entry (image w') s) /\
    start_sector (entry (image w') s) = 4 mod 65536 /\
    count_lo (entry (image w') s) + 256 * count_hi (entry (image w') s) = 1 mod 65536 /\
    (forall s', s' ∈ dir_slots -> s' <> s -> entry (image w') s' = entry (image fresh_sd) s') /\
    (forall x, 1 <= x -> x <> fst s -> sector_of (image w') x = sector_of (image fresh_sd) x).
Proof.
  assert (dir_present (image fresh_sd)) as Hd.
  { apply (volume_ok_dir_present 720), fresh_sd_volume_ok. }
  split; [lia|]. split; [exact Hd|].
  apply (write_dir_stores_entry 9 test_txt 4 1 fresh_sd); [lia|exact Hd].
Defined.

(** ** The array that [getbitmap] fills *)

(** X11 ([getbitmap]): what was in the caller's array before the call
    never shows.  On an enhanced density diskette all 128 bytes are
    overwritten; on a single density diskette bytes 90 to 127 keep
    their old content, but they hold the bits of sectors 720 and up,
    which no walk over the bitmap reaches: the free sectors, their
    number and the lines of the check are the same whatever the array
    held. *)
Theorem getbitmap_ignores_old_content (ds : Z) (buf buf' : list Z) (check : bool)
    (w : world) :
  volume_ok ds (image w) -> length buf = 128%nat -> length buf' = 128%nat ->
  exists b b' w1 w1',
    getbitmap ds buf check w = Ret b w1 /\
    getbitmap ds buf' check w = Ret b' w1' /\
    stdout w1 = stdout w1' /\
    (ds = ED_DISK_SIZE -> b = b') /\
    take SD_BITMAP_SIZE b = take SD_BITMAP_SIZE b' /\
    (forall x, 0 <= x < ds -> bit_free b x = bit_free b' x) /\
    free_indices ds b = free_indices ds b' /\
    amount_free ds b = amount_free ds b'.
Proof.
  intros Hv Hb Hb'. destruct (volume_ok_vtoc _ _ Hv) as [Hvt Hvt2].
  destruct (getbitmap_run ds buf check w Hvt Hvt2) as (w1 & Hget & _ & Ho).
  destruct (getbitmap_run ds buf' check w Hvt Hvt2) as (w1' & Hget' & _ & Ho').
  cbn zeta in *.
  set (vtoc := sector_of (image w) SECTOR_VTOC) in *.
  set (vtoc2 := sector_of (image w) SECTOR_VTOC2) in *.
  assert (length vtoc = 128%nat) as Hlv by (by apply length_sector_of).
  assert (take SD_BITMAP_SIZE (bitmap_of_vtoc buf vtoc)
          = take SD_BITMAP_SIZE (bitmap_of_vtoc buf' vtoc)) as Ht1.
  { by rewrite !bitmap_of_vtoc_take. }
  assert (vtoc_report ds (bitmap_of_vtoc buf vtoc) vtoc
          = vtoc_report ds (bitmap_of_vtoc buf' vtoc) vtoc) as Hrep.
  { unfold vtoc_report. by rewrite (count_free_take _ _ _ Ht1). }
  assert (length (bitmap_of_vtoc buf vtoc) = 128%nat) as Hl1
    by (by apply length_bitmap_of_vtoc).
  assert (length (bitmap_of_vtoc buf' vtoc) = 128%nat) as Hl1'
    by (by apply length_bitmap_of_vtoc).
  assert (forall b b' : list Z,
            take SD_BITMAP_SIZE b = take SD_BITMAP_SIZE b' -> (ds = ED_DISK_SIZE -> b = b') ->
            forall x, 0 <= x < ds -> bit_free b x = bit_free b' x) as Hbits.
  { intros b b' Ht He x Hx. destruct (volume_ok_size _ _ Hv) as [-> | ->].
    - apply (bit_free_take_eq SD_BITMAP_SIZE); [done|]. unfold SD_DISK_SIZE, SD_BITMAP_SIZE in *. lia.
    - by rewrite He. }
  destruct (decide (ds = ED_DISK_SIZE)) as [Hed|Hsd].
  - specialize (Hvt2 Hed).
    assert (length vtoc2 = 128%nat) as Hlv2 by (by apply length_sector_of).
    assert (bitmap_of_vtoc2 (bitmap_of_vtoc buf vtoc) vtoc2
            = bitmap_of_vtoc2 (bitmap_of_vtoc buf' vtoc) vtoc2) as Heq.
    { rewrite <- (take_drop SD_BITMAP_SIZE (bitmap_of_vtoc2 (bitmap_of_vtoc buf vtoc) vtoc2)).
      rewrite <- (take_drop SD_BITMAP_SIZE (bitmap_of_vtoc2 (bitmap_of_vtoc buf' vtoc) vtoc2)).
      rewrite !bitmap_of_vtoc2_take by lia. rewrite !bitmap_of_vtoc2_drop by done.
      by rewrite Ht1. }
    rewrite <- Heq in Hget', Ho'.
    eexists _, _, w1, w1'. split; [exact Hget|]. split; [exact Hget'|].
    split; [by rewrite Ho, Ho', Hrep|]. split; [done|]. split; [done|].
    split; [done|]. split; [done|done].
  - eexists _, _, w1, w1'. split; [exact Hget|]. split; [exact Hget'|].
    split; [by rewrite Ho, Ho', Hrep|]. split; [done|]. split; [done|].
    pose proof (Hbits _ _ Ht1 ltac:(done)) as Hb1.
    split; [done|]. split.
    + apply free_indices_agree. intros x Hx. apply Hb1. lia.
    + by apply amount_free_agree.
Qed.

Lemma getbitmap_ignores_old_content_witness :
  volume_ok 720 (image fresh_sd) /\ length auto_buf = 128%nat /\
  length all_free_bitmap = 128%nat /\
  exists b b' w1 w1',
    getbitmap 720 auto_buf true fresh_sd = Ret b w1 /\
    getbitmap 720 all_free_bitmap true fresh_sd = Ret b' w1' /\
    stdout w1 = stdout w1' /\
    (720 = ED_DISK_SIZE -> b = b') /\
    take SD_BITMAP_SIZE b = take SD_BITMAP_SIZE b' /\
    (forall x, 0 <= x < 720 -> bit_free b x = bit_free b' x) /\
    free_indices 720 b = free_indices 720 b' /\
    amount_free 720 b = amount_free 720 b'.
Proof.
  split; [exact fresh_sd_volume_ok|]. split; [reflexivity|]. split; [reflexivity|].
  exact (getbitmap_ignores_old_content 720 auto_buf all_free_bitmap true fresh_sd
           fresh_sd_volume_ok eq_refl eq_refl).
Defined.

(** ** Names: what [putname] stores is what [getname] gives back *)

Lemma plain_char_round c : plain_char c -> lower (u8 (upper c)) = c.
Proof.
  intros (Hr & _ & _ & Hu). unfold is_upper in Hu. unfold upper.
  destruct (97 <=? c) eqn:H1, (c <=? 122) eqn:H2; cbn [andb];
    rewrite u8_small by lia; unfold lower;
    destruct (65 <=? _) eqn:H3, (_ <=? 90) eqn:H4; cbn [andb]; lia.
Qed.

Lemma map_plain_round l :
  Forall plain_char l -> map lower (map (fun c => u8 (upper c)) l) = l.
Proof.
  induction 1 as [|c l Hc _ IH]; [done|]. cbn [map]. by rewrite IH, plain_char_round.
Qed.

Lemma copy_upper_plain to_dot (s rest : list Z) : forall room,
  (length s <= room)%nat -> Forall plain_char s ->
  rest = [] \/ (to_dot = true /\ exists r, rest = 46 :: r) ->
  copy_upper to_dot (s ++ rest) room = (map (fun c => u8 (upper c)) s, rest).
Proof.
  induction s as [|c s IH]; intros room Hl Hp Hrest.
  - cbn [app map]. destruct Hrest as [->|(-> & r & ->)]; [by destruct room|].
    destruct room; [done|]. cbn [copy_upper andb]. done.
  - apply Forall_cons in Hp as [(_ & _ & Hdot & _) Hp].
    destruct room as [|room]; [cbn in Hl; lia|].
    cbn [app copy_upper]. replace (c =? 46) with false by (symmetry; by apply Z.eqb_neq).
    rewrite andb_false_r. rewrite IH; [done| |done|done]. cbn in Hl. lia.
Qed.

Lemma cstring_nonzero s : Forall (fun c => c <> 0) s -> cstring s = s.
Proof.
  induction 1 as [|c s Hc _ IH]; [done|]. cbn [cstring].
  rewrite decide_False by done. by rewrite IH.
Qed.

Lemma zap_spaces_spaces s k : forall j,
  (j <= k)%nat ->
  zap_spaces (s ++ replicate k 32) (length s + j) = zap_spaces (s ++ replicate k 32) (length s).
Proof.
  induction j as [|j IH]; intros Hj; [by rewrite Nat.add_0_r|].
  rewrite Nat.add_succ_r. cbn [zap_spaces].
  rewrite app_nth2_plus. rewrite nth_lookup, lookup_replicate_2 by lia. cbn.
  rewrite decide_True by done. apply IH. lia.
Qed.

Lemma zap_spaces_stop (s t : list Z) :
  Forall (fun c => c <> 32) s -> zap_spaces (s ++ t) (length s) = length s.
Proof.
  intros Hs. destruct s as [|c s _] using rev_ind; [done|].
  apply Forall_app in Hs as [_ Hc]. rewrite Forall_singleton in Hc.
  rewrite length_app, Nat.add_1_r. cbn [zap_spaces].
  rewrite <- app_assoc. cbn [app]. rewrite nth_middle. by rewrite decide_False.
Qed.

(** The loop that zaps trailing spaces brings a padded field back to
    what was padded. *)
Lemma zap_padded s k :
  Forall (fun c => c <> 32) s ->
  take (zap_spaces (s ++ replicate k 32) (length (s ++ replicate k 32))) (s ++ replicate k 32)
  = s.
Proof.
  intros Hs. rewrite length_app, length_replicate.
  rewrite zap_spaces_spaces by done. rewrite zap_spaces_stop by done.
  by rewrite take_app_length.
Qed.

Lemma map_lower_pad s n :
  map lower (pad s n) = map lower s ++ replicate (n - length s) 32.
Proof.
  unfold pad. rewrite map_app. f_equal.
  induction (n - length s)%nat as [|k IH]; [done|]. cbn [replicate map]. by rewrite IH.
Qed.

(** X12 ([putname], [getname]): a name of at most 8 characters, with or
    without a ['.'] and a suffix of 1 to 3 characters, whose characters
    are bytes other than NUL, space, ['.'] and the upper-case letters,
    comes back from the directory as it went in; lower-case letters are
    stored in upper case and returned in lower case. *)
Theorem putname_getname_round_trip (nm sfx : list Z) (first_sect sects : Z) :
  (length nm <= 8)%nat -> (length sfx <= 3)%nat ->
  Forall plain_char nm -> Forall plain_char sfx ->
  fst (putname (if decide (sfx = []) then nm else nm ++ [46] ++ sfx))
    = pad (map (fun c => u8 (upper c)) nm) 8 /\
  snd (putname (if decide (sfx = []) then nm else nm ++ [46] ++ sfx))
    = pad (map (fun c => u8 (upper c)) sfx) 3 /\
  getname (new_dirent (if decide (sfx = []) then nm else nm ++ [46] ++ sfx) first_sect sects)
    = (if decide (sfx = []) then nm else nm ++ [46] ++ sfx) /\
  canonical_name (if decide (sfx = []) then nm else nm ++ [46] ++ sfx).
Proof.
  intros Hn Hs Hpn Hps.
  assert (Forall (fun c => c <> 0) nm) as Hzn.
  { eapply Forall_impl; [exact Hpn|]. intros c (? & _). lia. }
  assert (Forall (fun c => c <> 0) sfx) as Hzs.
  { eapply Forall_impl; [exact Hps|]. intros c (? & _). lia. }
  assert (Forall (fun c => c <> 32) nm) as Hsn.
  { eapply Forall_impl; [exact Hpn|]. by intros c (_ & ? & _). }
  assert (Forall (fun c => c <> 32) sfx) as Hss.
  { eapply Forall_impl; [exact Hps|]. by intros c (_ & ? & _). }
  set (filename := if decide (sfx = []) then nm else nm ++ [46] ++ sfx).
  assert (cstring filename = filename) as Hc.
  { apply cstring_nonzero. unfold filename. case_decide; [done|].
    apply Forall_app. split; [done|]. apply Forall_cons. split; [done|]. done. }
  assert (putname filename
          = (pad (map (fun c => u8 (upper c)) nm) 8, pad (map (fun c => u8 (upper c)) sfx) 3))
    as Hput.
  { unfold putname. rewrite Hc. unfold filename. case_decide as Hsfx.
    - subst sfx. rewrite <- (app_nil_r nm) at 1.
      rewrite copy_upper_plain by (done || by left). done.
    - rewrite copy_upper_plain; [|done|done|right; split; [done|by eexists]].
      cbn [app skip_to_dot]. rewrite decide_True by done.
      rewrite <- (app_nil_r sfx) at 1.
      rewrite copy_upper_plain by (done || by left). done. }
  assert (getname (new_dirent filename first_sect sects) = filename) as Hget.
  { unfold getname, new_dirent. cbn [name suffix]. rewrite Hput. cbn [fst snd].
    rewrite !map_lower_pad, !map_plain_round by done. rewrite !length_map.
    rewrite zap_padded by done.
    replace ((nm ++ [46]) ++ sfx ++ replicate (3 - length sfx) 32)
      with ((nm ++ [46] ++ sfx) ++ replicate (3 - length sfx) 32)
      by (by rewrite <- !app_assoc).
    rewrite zap_padded.
    2:{ apply Forall_app. split; [done|]. apply Forall_cons. split; [done|]. done. }
    unfold filename. rewrite !length_app. cbn [length].
    destruct (decide (sfx = [])) as [->|Hsfx].
    - cbn [length]. rewrite decide_True by lia.
      rewrite app_nil_r. replace (length nm + (1 + 0) - 1)%nat with (length nm) by lia.
      rewrite take_app_length. by apply cstring_nonzero.
    - rewrite decide_False by (destruct sfx; [done|cbn [length]; lia]).
      apply cstring_nonzero.
      apply Forall_app. split; [done|]. apply Forall_cons. split; [done|]. done. }
  split; [by rewrite Hput|]. split; [by rewrite Hput|]. split; [done|].
  unfold canonical_name. rewrite Hc. by rewrite <- Hget at 2.
Qed.

Lemma putname_getname_round_trip_witness :
  (length [116; 101; 115; 116] <= 8)%nat /\ (length [116; 120; 116] <= 3)%nat /\
  Forall plain_char [116; 101; 115; 116] /\ Forall plain_char [116; 120; 116] /\
  fst (putname test_txt) = [84; 69; 83; 84; 32; 32; 32; 32] /\
  snd (putname test_txt) = [84; 88; 84] /\
  getname (new_dirent test_txt 4 1) = test_txt /\
  canonical_name test_txt.
Proof.
  assert (forall c, 97 <= c <= 122 -> plain_char c) as Hp.
  { intros c Hc. unfold plain_char, is_upper. lia. }
  assert (Forall plain_char [116; 101; 115; 116]) as Hn.
  { repeat (apply Forall_cons; split; [apply Hp; lia|]). apply Forall_nil_2. }
  assert (Forall plain_char [116; 120; 116]) as Hs.
  { repeat (apply Forall_cons; split; [apply Hp; lia|]). apply Forall_nil_2. }
  split; [cbn; lia|]. split; [cbn; lia|]. split; [exact Hn|]. split; [exact Hs|].
  apply (putname_getname_round_trip [116; 101; 115; 116] [116; 120; 116] 4 1);
    [cbn; lia|cbn; lia|exact Hn|exact Hs].
Defined.

(** ** Storing a file: the state that [put_file] leaves *)

Lemma dir_sector_in_image ds img k :
  volume_ok ds img -> 0 <= k < 64 -> in_image img (SECTOR_DIR + k / 8).
Proof.
  intros Hv Hk. eapply in_image_mono; [eapply volume_ok_dir_present; exact Hv|].
  assert (0 <= k / 8 < 8) by (split; [apply Z.div_pos; lia|apply Z.div_lt_upper_bound; lia]).
  unfold SECTOR_DIR, SECTOR_DIR_SIZE. lia.
Qed.

Lemma length_new_entry_sector img k filename first_sect sects :
  in_image img (SECTOR_DIR + k / 8) -> 0 <= k ->
  length (memcpy (sector_of img (SECTOR_DIR + k / 8)) (Z.to_nat (16 * (k mod 8)))
            (dirent_bytes (new_dirent filename first_sect sects))) = 128%nat.
Proof.
  intros Hin Hk. rewrite length_memcpy; [by apply length_sector_of|].
  rewrite length_dirent_bytes, length_sector_of by done.
  pose proof (Z.mod_pos_bound k 8). lia.
Qed.

(** [put_file] once [rm] has returned: the bitmap is read, the first
    empty slot is taken and the last part runs. *)
Lemma put_file_after_rm fuel ds data filename w r w1 :
  rm fuel ds filename true w = Ret r w1 -> volume_ok ds (image w1) ->
  exists w3,
    image w3 = image w1 /\ stdout w3 = stdout w1 /\
    put_file fuel ds data filename w =
      match list_find (fun s => ~ in_use (entry (image w1) s)) dir_slots with
      | None => Ret (-1) w3
      | Some (k, _) =>
          put_file_write fuel ds (disk_bitmap ds (image w1)) (padded data) filename
            (Z.of_nat k) (sectors_for (Z.of_nat (length data))) (Z.of_nat (length data)) w3
      end.
Proof.
  intros Hrm Hv. pose proof (volume_ok_dir_present _ _ Hv) as Hd.
  destruct (volume_ok_vtoc _ _ Hv) as [Hvt Hvt2].
  unfold put_file. cbn zeta. unfold bind at 1. rewrite Hrm. unfold bind at 1.
  destruct (getbitmap_run ds auto_buf false w1 Hvt Hvt2) as (w2 & Hget & Hi2 & Ho2).
  cbn zeta in Hget. rewrite Hget. fold (disk_bitmap ds (image w1)).
  unfold bind at 1, find_empty_entry.
  destruct (find_empty_entry_in_run dir_sectors auto_buf w2) as (w3 & -> & Ho3 & Hi3);
    [rewrite Hi2; by apply dir_sectors_present|done|].
  fold dir_slots. rewrite Hi2.
  exists w3. split; [congruence|]. split.
  { rewrite Ho3, Ho2. destruct (decide _); by rewrite !app_nil_r. }
  destruct (list_find (fun s => ~ in_use (entry (image w1) s)) dir_slots) as [[k s]|] eqn:Hf.
  - apply list_find_Some in Hf as (Hk & _ & _).
    rewrite (slot_number_position k s Hk). rewrite decide_False by lia.
    destruct (sectors_for_spec (Z.of_nat (length data))) as [Hup _]; [lia|].
    rewrite Hup. unfold padded.
    replace (Z.quot (DATA_SIZE * sectors_for (Z.of_nat (length data))) DATA_SIZE)
      with (sectors_for (Z.of_nat (length data))); [done|].
    rewrite (Z.mul_comm DATA_SIZE), Z.quot_mul; [done|discriminate].
  - rewrite decide_True by done. done.
Qed.

(** A successful [put_file], step by step, from the state [w1] that
    [rm] has left: the new entry in the first empty slot, the chain in
    the lowest free sectors, the bitmap with these sectors marked, and
    everything else as in [w1]. *)
Lemma put_file_stores_after_rm fuel ds data filename w r w1 k s :
  rm fuel ds filename true w = Ret r w1 -> volume_ok ds (image w1) ->
  (Z.to_nat ds <= fuel)%nat ->
  list_find (fun s => ~ in_use (entry (image w1) s)) dir_slots = Some (k, s) ->
  sectors_for (Z.of_nat (length data))
    <= Z.of_nat (length (free_indices ds (disk_bitmap ds (image w1)))) ->
  (forall x, x ∈ take (Z.to_nat (sectors_for (Z.of_nat (length data))))
                   (free_indices ds (disk_bitmap ds (image w1))) -> ~ metadata_sector x) ->
  exists w',
    let size := Z.of_nat (length data) in
    let sects := sectors_for size in
    let lst := take (Z.to_nat sects) (free_indices ds (disk_bitmap ds (image w1))) in
    put_file fuel ds data filename w = Ret 0 w' /\
    stdout w' = stdout w1 /\
    volume_ok ds (image w') /\
    (forall s', s' ∈ dir_slots ->
       entry (image w') s' =
       if decide (s' = s) then new_dirent filename (list_at lst 0) sects
       else entry (image w1) s') /\
    (forall i, 0 <= i < sects ->
       sector_of (image w') (list_at lst i) =
       data_sector (take 125 (drop (Z.to_nat (DATA_SIZE * i)) (padded data))) (Z.of_nat k)
         (if decide (i + 1 = sects) then 0 else list_at lst (i + 1))
         (if decide (i + 1 = sects) then size - DATA_SIZE * i else DATA_SIZE)) /\
    (forall x, 0 <= x < ds ->
       bit_free (disk_bitmap ds (image w')) x
       = bit_free (disk_bitmap ds (image w1)) x && bool_decide (x ∉ lst)) /\
    (forall x, 1 <= x -> x ∉ lst -> x <> SECTOR_VTOC -> x <> SECTOR_VTOC2 -> x <> fst s ->
       sector_of (image w') x = sector_of (image w1) x).
Proof.
  intros Hrm Hv Hfuel Hempty Hroom Hres. cbn zeta.
  set (size := Z.of_nat (length data)) in *.
  set (sects := sectors_for size) in *.
  set (bitmap := disk_bitmap ds (image w1)) in *.
  set (lst := take (Z.to_nat sects) (free_indices ds bitmap)) in *.
  destruct (sectors_for_spec size) as [_ Hsz]; [lia|]. fold sects in Hsz.
  assert (0 <= sects) as Hsects by (unfold DATA_SIZE in *; lia).
  assert (1 <= ds <= 1024) as Hds.
  { destruct (volume_ok_size _ _ Hv) as [-> | ->]; done. }
  destruct (put_file_after_rm fuel ds data filename w r w1 Hrm Hv) as (w3 & Hi3 & Ho3 & Hrun).
  rewrite Hempty in Hrun. fold size sects bitmap in Hrun.
  pose proof Hempty as (Hk & _ & _)%list_find_Some.
  pose proof (lookup_lt_Some _ _ _ Hk) as Hk64. rewrite dir_slots_length in Hk64.
  destruct (dir_slots_lookup k s Hk) as [Hfst Hsnd].
  assert (volume_ok ds (image w3)) as Hv3 by (by rewrite Hi3).
  (* the three steps of the last part *)
  unfold put_file_write in Hrun. unfold bind at 1 in Hrun.
  destruct (write_file_run fuel ds bitmap (padded data) sects (Z.of_nat k) size w3)
    as (w4 & Hrun4 & Ho4 & Hl4 & Hsec & Hframe); [lia|done| |lia|apply length_padded|].
  { intros x Hx. apply (volume_ok_in_image ds); [done|lia]. }
  cbn zeta in Hrun4, Hsec, Hframe. fold lst in Hrun4, Hsec, Hframe. rewrite Hrun4 in Hrun.
  assert (0 <= list_at lst 0) as Hfirst by apply list_at_free_nonneg.
  rewrite decide_False in Hrun by lia.
  assert (volume_ok ds (image w4)) as Hv4 by (by eapply volume_ok_length).
  unfold bind at 1 in Hrun.
  destruct (write_dir_run (Z.of_nat k) filename (list_at lst 0) sects w4)
    as (w5 & Hrun5 & Ho5 & Hi5); [lia|by eapply volume_ok_dir_present|].
  rewrite Hrun5 in Hrun. rewrite decide_False in Hrun by (intros H; by apply H).
  pose proof (dir_sector_in_image ds (image w4) (Z.of_nat k) Hv4 ltac:(lia)) as Hdin4.
  pose proof (length_new_entry_sector (image w4) (Z.of_nat k) filename (list_at lst 0) sects
                Hdin4 ltac:(lia)) as Hlen5.
  assert (length (image w5) = length (image w4)) as Hl5.
  { rewrite Hi5. by apply length_store_sector. }
  assert (volume_ok ds (image w5)) as Hv5 by (by eapply volume_ok_length).
  destruct (volume_ok_vtoc _ _ Hv5) as [Hvt Hvt2].
  unfold bind in Hrun.
  destruct (putbitmap_sectors ds (foldl clear_bit bitmap lst) w5 Hvt Hvt2)
    as (w' & Hput & Ho' & Hl' & _ & _ & Hrest & _);
    [by rewrite length_foldl_clear; apply length_disk_bitmap|].
  rewrite Hput in Hrun. unfold ret in Hrun.
  assert (volume_ok ds (image w')) as Hv' by (by eapply volume_ok_length).
  (* the sectors of the file *)
  assert (forall i, 0 <= i < sects -> list_at lst i ∈ lst) as Hlin.
  { intros i Hi. eapply list_elem_of_lookup_2. apply list_at_lookup.
    unfold lst. rewrite length_take. lia. }
  assert (forall x, x ∈ lst -> 1 <= x < ds) as Hlrange.
  { intros x Hx. by eapply free_indices_take_range. }
  rewrite Hi3 in Hframe.
  exists w'. split; [done|]. split; [congruence|]. split; [done|].
  destruct (putname_length filename) as [Hn8 Hs3].
  split; [|split; [|split]].
  - intros s' Hs'.
    eapply (entry_after_write_dir (image w1) (image w4) (image w5) (image w') k s _ lst);
      [by eapply volume_ok_dir_present|congruence|done|done|done|done|done|done|exact Hi5|done].
  - intros i Hi. pose proof (Hlrange _ (Hlin i Hi)) as Hr. pose proof (Hres _ (Hlin i Hi)) as Hm.
    unfold metadata_sector, SECTOR_VTOC, SECTOR_DIR, SECTOR_DIR_SIZE in Hm.
    rewrite Hrest by (unfold SECTOR_VTOC, SECTOR_VTOC2; lia).
    rewrite Hi5, sector_of_store_ne; [by apply Hsec|done|done|lia|].
    assert (0 <= Z.of_nat k / 8 < 8)
      by (split; [apply Z.div_pos; lia|apply Z.div_lt_upper_bound; lia]).
    unfold SECTOR_DIR. lia.
  - intros x Hx.
    rewrite (disk_bitmap_after_putbitmap ds (foldl clear_bit bitmap lst) w5 w' Hv5); try done.
    + apply bit_free_foldl_clear; [lia|]. apply Forall_forall. intros y Hy.
      specialize (Hlrange y Hy). lia.
    + rewrite length_foldl_clear. by apply length_disk_bitmap.
  - intros x Hx Hnl Hnv Hnv2 Hns.
    rewrite Hrest by done. rewrite Hi5, sector_of_store_ne; [by apply Hframe|done|done|done|].
    by rewrite <- Hfst.
Qed.

(** The same when the name is new: [rm] finds nothing and the state
    that [put_file] builds on is the one it was called in. *)
Lemma put_file_stores fuel ds data filename w k s :
  volume_ok ds (image w) -> (Z.to_nat ds <= fuel)%nat ->
  list_find (fun s => names_file filename (entry (image w) s)) dir_slots = None ->
  list_find (fun s => ~ in_use (entry (image w) s)) dir_slots = Some (k, s) ->
  sectors_for (Z.of_nat (length data))
    <= Z.of_nat (length (free_indices ds (disk_bitmap ds (image w)))) ->
  (forall x, x ∈ take (Z.to_nat (sectors_for (Z.of_nat (length data))))
                   (free_indices ds (disk_bitmap ds (image w))) -> ~ metadata_sector x) ->
  exists w',
    let size := Z.of_nat (length data) in
    let sects := sectors_for size in
    let lst := take (Z.to_nat sects) (free_indices ds (disk_bitmap ds (image w))) in
    put_file fuel ds data filename w = Ret 0 w' /\
    stdout w' = stdout w /\
    volume_ok ds (image w') /\
    (forall s', s' ∈ dir_slots ->
       entry (image w') s' =
       if decide (s' = s) then new_dirent filename (list_at lst 0) sects
       else entry (image w) s') /\
    (forall i, 0 <= i < sects ->
       sector_of (image w') (list_at lst i) =
       data_sector (take 125 (drop (Z.to_nat (DATA_SIZE * i)) (padded data))) (Z.of_nat k)
         (if decide (i + 1 = sects) then 0 else list_at lst (i + 1))
         (if decide (i + 1 = sects) then size - DATA_SIZE * i else DATA_SIZE)) /\
    (forall x, 0 <= x < ds ->
       bit_free (disk_bitmap ds (image w')) x
       = bit_free (disk_bitmap ds (image w)) x && bool_decide (x ∉ lst)) /\
    (forall x, 1 <= x -> x ∉ lst -> x <> SECTOR_VTOC -> x <> SECTOR_VTOC2 -> x <> fst s ->
       sector_of (image w') x = sector_of (image w) x).
Proof.
  intros Hv Hfuel Hnone Hempty Hroom Hres.
  destruct (rm_run_none fuel ds filename true w (volume_ok_dir_present _ _ Hv) Hnone)
    as (w1 & Hrm & Hi1 & Ho1).
  rewrite app_nil_r in Ho1. rewrite <- Hi1, <- Ho1 in *.
  by eapply put_file_stores_after_rm.
Qed.

(** ** The books after [put_file] *)

Lemma filter_all (P : Z -> Prop) `{!forall x, Decision (P x)} (l : list Z) :
  Forall P l -> filter P l = l.
Proof.
  induction 1 as [|x l Hx _ IH]; [done|]. rewrite filter_cons, decide_True by done.
  by rewrite IH.
Qed.

Lemma filter_none (P : Z -> Prop) `{!forall x, Decision (P x)} (l : list Z) :
  Forall (fun x => ~ P x) l -> filter P l = [].
Proof.
  induction 1 as [|x l Hx _ IH]; [done|]. by rewrite filter_cons, decide_False.
Qed.

Lemma filter_not_in_prefix (l1 l2 : list Z) :
  NoDup (l1 ++ l2) -> filter (fun x => x ∉ l1) (l1 ++ l2) = l2.
Proof.
  intros (_ & Hdis & _)%NoDup_app. rewrite filter_app.
  rewrite filter_none, filter_all; [done| |].
  - apply Forall_forall. intros x Hx Hx1. by apply (Hdis x).
  - apply Forall_forall. intros x Hx Hn. by apply Hn.
Qed.

(** The free sectors after the first [n] of them have been taken. *)
Lemma free_indices_after_alloc ds (b b' : list Z) n :
  (forall x, 1 <= x < ds ->
     bit_free b' x = bit_free b x && bool_decide (x ∉ take n (free_indices ds b))) ->
  free_indices ds b' = drop n (free_indices ds b).
Proof.
  intros Hbits.
  pose proof (filter_not_in_prefix (take n (free_indices ds b)) (drop n (free_indices ds b)))
    as Hf.
  rewrite take_drop in Hf. rewrite <- Hf by apply free_indices_NoDup.
  set (l1 := take n (free_indices ds b)) in *.
  unfold free_indices. rewrite list_filter_filter.
  apply filter_agree, Forall_forall. intros x Hx. apply elem_of_seqZ in Hx.
  rewrite Hbits by lia. rewrite andb_true_iff, bool_decide_eq_true. tauto.
Qed.

(** X13 ([put_file], [write_dir], [alloc_space], [do_free]): a
    successful [put_file] of [size] bytes takes the first empty slot
    and the lowest [ceil (size / 125)] free sectors: the entry records
    that count and the first of these sectors (0 for an empty file),
    the other entries stay, the free sectors left are the old ones
    without those taken, and the free command reports that many
    sectors fewer. *)
Theorem put_file_accounting (fuel : nat) (ds : Z) (data filename : list Z) (w : world)
    (k : nat) (s : Z * nat) :
  volume_ok ds (image w) -> (Z.to_nat ds <= fuel)%nat ->
  list_find (fun s => names_file filename (entry (image w) s)) dir_slots = None ->
  list_find (fun s => ~ in_use (entry (image w) s)) dir_slots = Some (k, s) ->
  sectors_for (Z.of_nat (length data))
    <= Z.of_nat (length (free_indices ds (disk_bitmap ds (image w)))) ->
  (forall x, x ∈ take (Z.to_nat (sectors_for (Z.of_nat (length data))))
                   (free_indices ds (disk_bitmap ds (image w))) -> ~ metadata_sector x) ->
  exists w1 a w0' w1',
    put_file fuel ds data filename w = Ret 0 w1 /\ stdout w1 = stdout w /\
    in_use (entry (image w1) s) /\
    count_lo (entry (image w1) s) + 256 * count_hi (entry (image w1) s)
      = sectors_for (Z.of_nat (length data)) /\
    start_sector (entry (image w1) s)
      = default 0 (head (take (Z.to_nat (sectors_for (Z.of_nat (length data))))
                              (free_indices ds (disk_bitmap ds (image w))))) /\
    (forall s', s' ∈ dir_slots -> s' <> s -> entry (image w1) s' = entry (image w) s') /\
    free_indices ds (disk_bitmap ds (image w1))
      = drop (Z.to_nat (sectors_for (Z.of_nat (length data))))
             (free_indices ds (disk_bitmap ds (image w))) /\
    do_free ds w = Ret (a, a * 128) w0' /\
    do_free ds w1
      = Ret (a - sectors_for (Z.of_nat (length data)),
             (a - sectors_for (Z.of_nat (length data))) * 128) w1'.
Proof.
  intros Hv Hfuel Hnone Hempty Hroom Hres.
  destruct (put_file_stores fuel ds data filename w k s Hv Hfuel Hnone Hempty Hroom Hres)
    as (w1 & Hput & Ho1 & Hv1 & Hentry & _ & Hbits & _).
  cbn zeta in *.
  set (sects := sectors_for (Z.of_nat (length data))) in *.
  set (bitmap := disk_bitmap ds (image w)) in *.
  set (lst := take (Z.to_nat sects) (free_indices ds bitmap)) in *.
  destruct (sectors_for_spec (Z.of_nat (length data))) as [_ Hsz]; [lia|]. fold sects in Hsz.
  assert (0 <= sects) as Hsects by (unfold DATA_SIZE in *; lia).
  assert (1 <= ds <= 1024) as Hds.
  { destruct (volume_ok_size _ _ Hv) as [-> | ->]; done. }
  pose proof (free_indices_length ds bitmap ltac:(lia)) as Hflen.
  pose proof Hempty as (Hk & _ & _)%list_find_Some.
  assert (s ∈ dir_slots) as Hs by (by eapply list_elem_of_lookup_2).
  assert (entry (image w1) s = new_dirent filename (list_at lst 0) sects) as He.
  { rewrite Hentry by done. by rewrite decide_True. }
  assert (0 <= list_at lst 0 < ds) as Hfirst.
  { split; [apply list_at_free_nonneg|]. unfold list_at. change (Z.to_nat 0) with 0%nat.
    destruct lst as [|x l] eqn:Hl; [cbn; lia|]. cbn [nth].
    assert (x ∈ lst) as Hx by (rewrite Hl; by left).
    apply free_indices_take_range in Hx. lia. }
  assert (free_indices ds (disk_bitmap ds (image w1)) = drop (Z.to_nat sects) (free_indices ds bitmap))
    as Hfree.
  { apply free_indices_after_alloc. intros x Hx. apply Hbits. lia. }
  destruct (do_free_run ds w Hv) as (w0' & Hfree0 & _ & _).
  destruct (do_free_run ds w1 Hv1) as (w1' & Hfree1 & _ & _).
  exists w1, (amount_free ds bitmap), w0', w1'.
  split; [done|]. split; [done|]. rewrite He.
  split; [apply in_use_new_dirent|].
  split; [apply le16_split; lia|].
  split.
  { rewrite start_sector_new_dirent by lia. unfold list_at. change (Z.to_nat 0) with 0%nat.
    by destruct lst. }
  split.
  { intros s' Hs' Hne. rewrite Hentry by done. by rewrite decide_False. }
  split; [done|]. split; [done|].
  rewrite Hfree1. do 2 f_equal.
  - rewrite !amount_free_split by lia. rewrite Hfree, length_drop.
    rewrite Hbits by lia. rewrite bool_decide_eq_true_2; [rewrite andb_true_r; lia|].
    intros H0. apply free_indices_take_range in H0. lia.
  - rewrite !amount_free_split by lia. rewrite Hfree, length_drop.
    rewrite Hbits by lia. rewrite bool_decide_eq_true_2;
      [rewrite andb_true_r; unfold SECTOR_SIZE; lia|].
    intros H0. apply free_indices_take_range in H0. lia.
Qed.

Lemma put_file_accounting_witness :
  volume_ok 720 (image fresh_sd) /\ (Z.to_nat 720 <= 720)%nat /\
  list_find (fun s => names_file test_txt (entry (image fresh_sd) s)) dir_slots = None /\
  list_find (fun s => ~ in_use (entry (image fresh_sd) s)) dir_slots
    = Some (0%nat, (SECTOR_DIR, 0%nat)) /\
  sectors_for (Z.of_nat (length [1; 2; 3]))
    <= Z.of_nat (length (free_indices 720 (disk_bitmap 720 (image fresh_sd)))) /\
  (forall x, x ∈ take (Z.to_nat (sectors_for (Z.of_nat (length [1; 2; 3]))))
                   (free_indices 720 (disk_bitmap 720 (image fresh_sd))) ->
             ~ metadata_sector x) /\
  exists w1 a w0' w1',
    put_file 720 720 [1; 2; 3] test_txt fresh_sd = Ret 0 w1 /\ stdout w1 = stdout fresh_sd /\
    in_use (entry (image w1) (SECTOR_DIR, 0%nat)) /\
    count_lo (entry (image w1) (SECTOR_DIR, 0%nat))
      + 256 * count_hi (entry (image w1) (SECTOR_DIR, 0%nat))
      = sectors_for (Z.of_nat (length [1; 2; 3])) /\
    start_sector (entry (image w1) (SECTOR_DIR, 0%nat))
      = default 0 (head (take (Z.to_nat (sectors_for (Z.of_nat (length [1; 2; 3]))))
                              (free_indices 720 (disk_bitmap 720 (image fresh_sd))))) /\
    (forall s', s' ∈ dir_slots -> s' <> (SECTOR_DIR, 0%nat) ->
                entry (image w1) s' = entry (image fresh_sd) s') /\
    free_indices 720 (disk_bitmap 720 (image w1))
      = drop (Z.to_nat (sectors_for (Z.of_nat (length [1; 2; 3]))))
             (free_indices 720 (disk_bitmap 720 (image fresh_sd))) /\
    do_free 720 fresh_sd = Ret (a, a * 128) w0' /\
    do_free 720 w1
      = Ret (a - sectors_for (Z.of_nat (length [1; 2; 3])),
             (a - sectors_for (Z.of_nat (length [1; 2; 3]))) * 128) w1'.
Proof.
  assert (list_find (fun s => names_file test_txt (entry (image fresh_sd) s)) dir_slots = None)
    as Hnone by (vm_compute; reflexivity).
  assert (list_find (fun s => ~ in_use (entry (image fresh_sd) s)) dir_slots
          = Some (0%nat, (SECTOR_DIR, 0%nat))) as Hempty by (vm_compute; reflexivity).
  assert (sectors_for (Z.of_nat (length [1; 2; 3]))
          <= Z.of_nat (length (free_indices 720 (disk_bitmap 720 (image fresh_sd))))) as Hroom
    by (vm_compute; discriminate).
  assert (forall x, x ∈ take (Z.to_nat (sectors_for (Z.of_nat (length [1; 2; 3]))))
                          (free_indices 720 (disk_bitmap 720 (image fresh_sd))) ->
                    ~ metadata_sector x) as Hres.
  { apply Forall_forall. apply (bool_decide_unpack _). vm_compute. reflexivity. }
  split; [exact fresh_sd_volume_ok|]. split; [lia|]. split; [exact Hnone|].
  split; [exact Hempty|]. split; [exact Hroom|]. split; [exact Hres|].
  exact (put_file_accounting 720 720 [1; 2; 3] test_txt fresh_sd 0 (SECTOR_DIR, 0%nat)
           fresh_sd_volume_ok (Nat.le_refl _) Hnone Hempty Hroom Hres).
Defined.

(** ** Deleting a file *)

Lemma length_foldl_set lst : forall bitmap,
  length (foldl set_bit bitmap lst) = length bitmap.
Proof.
  induction lst as [|x lst IH]; intros bitmap; [done|].
  cbn [foldl]. rewrite IH. unfold set_bit. by rewrite length_insert.
Qed.

Lemma bit_free_foldl_set l : forall bitmap x,
  0 <= x -> Forall (fun y => 0 <= y < 8 * Z.of_nat (length bitmap)) l ->
  bit_free (foldl set_bit bitmap l) x = bit_free bitmap x || bool_decide (x ∈ l).
Proof.
  induction l as [|y l IH]; intros bitmap x Hx Hl.
  - cbn [foldl]. rewrite bool_decide_eq_false_2 by apply not_elem_of_nil.
    by rewrite orb_false_r.
  - apply Forall_cons in Hl as [Hy Hl]. cbn [foldl].
    rewrite IH; [|done|unfold set_bit; by rewrite length_insert].
    destruct (decide (x = y)) as [->|Hne].
    + rewrite bit_free_set_eq.
      * rewrite (bool_decide_eq_true_2 (y ∈ y :: l)) by (by left).
        by rewrite orb_true_r.
      * rewrite Z.shiftr_div_pow2 by lia. change (2 ^ 3) with 8.
        pose proof (Z.div_lt_upper_bound y 8 (Z.of_nat (length bitmap))).
        pose proof (Z.div_pos y 8). lia.
    + rewrite bit_free_set_ne by lia. f_equal.
      apply bool_decide_ext. rewrite elem_of_cons. tauto.
Qed.

(** The loop of [del_file] on a chain that is laid out in [lst],
    whatever the buffer holds on entry. *)
Lemma del_sectors_run lst sects :
  Z.of_nat (length lst) = sects ->
  (forall i, 0 <= i < sects -> 1 <= list_at lst i) ->
  forall n i bf bitmap fuel w,
    length bf = 128%nat ->
    Z.of_nat n + i = sects -> (1 <= n)%nat -> 0 <= i -> (n <= fuel)%nat ->
    (forall j, 0 <= j < sects ->
       in_image (image w) (list_at lst j) /\
       next_sector (sector_of (image w) (list_at lst j))
       = if decide (j + 1 = sects) then 0 else list_at lst (j + 1)) ->
    exists w',
      del_sectors fuel bf bitmap (list_at lst i) w
      = Ret (foldl set_bit bitmap (drop (Z.to_nat i) lst)) w' /\
      image w' = image w /\ stdout w' = stdout w.
Proof.
  intros Hlen Hpos. induction n as [|n IH];
    intros i bf bitmap fuel w Hbf Hn Hn1 Hi Hfuel Hchain.
  { lia. }
  destruct fuel as [|fuel]; [lia|]. cbn [del_sectors]. unfold bind.
  destruct (Hchain i) as [Hin Hnext]; [lia|].
  destruct (getsect_in_image bf _ w Hin Hbf) as (w1 & -> & Hi1 & Ho1).
  cbn zeta. rewrite Hnext. unfold mark_space.
  assert (drop (Z.to_nat i) lst = list_at lst i :: drop (S (Z.to_nat i)) lst) as Hdrop.
  { apply drop_S. apply list_at_lookup. lia. }
  rewrite Hdrop. cbn [foldl].
  destruct (decide (i + 1 = sects)) as [Hlast|Hmore].
  - rewrite decide_True by done. exists w1. unfold ret.
    rewrite drop_ge by lia. done.
  - specialize (Hpos (i + 1) ltac:(lia)). rewrite decide_False by lia.
    destruct (IH (i + 1) (sector_of (image w) (list_at lst i))
                 (set_bit bitmap (list_at lst i)) fuel w1)
      as (w' & -> & Hi' & Ho');
      [by apply length_sector_of|lia|lia|lia|lia|by rewrite Hi1|].
    exists w'. replace (Z.to_nat (i + 1)) with (S (Z.to_nat i)) by lia.
    split; [done|]. split; congruence.
Qed.

Lemma del_chain_run lst sects :
  Z.of_nat (length lst) = sects ->
  (forall i, 0 <= i < sects -> 1 <= list_at lst i) ->
  forall n i bitmap fuel w,
    Z.of_nat n + i = sects -> (1 <= n)%nat -> 0 <= i -> (n <= fuel)%nat ->
    (forall j, 0 <= j < sects ->
       in_image (image w) (list_at lst j) /\
       next_sector (sector_of (image w) (list_at lst j))
       = if decide (j + 1 = sects) then 0 else list_at lst (j + 1)) ->
    exists w',
      del_chain fuel bitmap (list_at lst i) w
      = Ret (foldl set_bit bitmap (drop (Z.to_nat i) lst)) w' /\
      image w' = image w /\ stdout w' = stdout w.
Proof.
  intros Hlen Hpos n i bitmap fuel w. unfold del_chain.
  apply (del_sectors_run lst sects Hlen Hpos n i auto_buf). apply length_auto_buf.
Qed.

(** The directory after [find_file] has marked a slot deleted. *)
Lemma entries_after_tombstone img s :
  dir_present img -> s ∈ dir_slots ->
  length (store_sector img (fst s) (<[snd s := 0x80]> (sector_of img (fst s)))) = length img /\
  flag (entry (store_sector img (fst s) (<[snd s := 0x80]> (sector_of img (fst s)))) s)
    = FLAG_DELETED /\
  (forall s', s' ∈ dir_slots -> s' <> s ->
     entry (store_sector img (fst s) (<[snd s := 0x80]> (sector_of img (fst s)))) s'
     = entry img s') /\
  (forall x, 1 <= x -> x <> fst s ->
     sector_of (store_sector img (fst s) (<[snd s := 0x80]> (sector_of img (fst s)))) x
     = sector_of img x).
Proof.
  intros Hd Hs. destruct s as [x y]. cbn [fst snd].
  destruct (dir_slots_spec _ Hs) as (Hx & j & Hj & Hy). cbn [fst snd] in Hx, Hy.
  assert (in_image img x) as Hxin.
  { pose proof (dir_sectors_present _ Hd) as Hall. by eapply Forall_forall in Hall. }
  pose proof (length_sector_of _ _ Hxin) as Hlen.
  assert (length (<[y := 0x80]> (sector_of img x)) = 128%nat) as Hlen'
    by (by rewrite length_insert).
  split; [by apply length_store_sector|]. split; [|split].
  - unfold entry. cbn [fst snd]. rewrite sector_of_store_eq by done.
    apply flag_dirent_at_insert. lia.
  - intros [x' y'] Hs' Hne.
    destruct (dir_slots_spec _ Hs') as (Hx' & j' & Hj' & Hy'). cbn [fst snd] in Hx', Hy'.
    assert (1 <= x') by (apply elem_of_seqZ in Hx'; unfold SECTOR_DIR in Hx'; lia).
    unfold entry. cbn [fst snd].
    destruct (decide (x' = x)) as [->|Hxx].
    + rewrite sector_of_store_eq by done. apply dirent_at_insert_other.
      assert (j <> j') by (intros ->; apply Hne; by subst). lia.
    + by rewrite sector_of_store_ne.
  - intros x' Hx' Hne. by apply sector_of_store_ne.
Qed.

Lemma disk_bitmap_same ds img img' :
  sector_of img' SECTOR_VTOC = sector_of img SECTOR_VTOC ->
  sector_of img' SECTOR_VTOC2 = sector_of img SECTOR_VTOC2 ->
  disk_bitmap ds img' = disk_bitmap ds img.
Proof. intros H1 H2. unfold disk_bitmap. by rewrite H1, H2. Qed.

Lemma dir_slot_not_vtoc s :
  s ∈ dir_slots -> SECTOR_DIR <= fst s < SECTOR_DIR + SECTOR_DIR_SIZE.
Proof.
  intros Hs. destruct (dir_slots_spec _ Hs) as (Hx & _). by apply elem_of_seqZ in Hx.
Qed.

(** [rm] of a file whose entry is in slot [s] and whose chain is laid
    out in the sectors [lst]. *)
Lemma rm_run_chain fuel ds filename ignore w k s lst :
  volume_ok ds (image w) ->
  list_find (fun s => names_file filename (entry (image w) s)) dir_slots = Some (k, s) ->
  (1 <= length lst)%nat -> (length lst <= fuel)%nat ->
  start_sector (entry (image w) s) = list_at lst 0 ->
  (forall x, x ∈ lst -> 1 <= x < ds /\ ~ metadata_sector x) ->
  (forall j, 0 <= j < Z.of_nat (length lst) ->
     next_sector (sector_of (image w) (list_at lst j))
     = if decide (j + 1 = Z.of_nat (length lst)) then 0 else list_at lst (j + 1)) ->
  exists w',
    rm fuel ds filename ignore w = Ret 0 w' /\ stdout w' = stdout w /\
    volume_ok ds (image w') /\
    flag (entry (image w') s) = FLAG_DELETED /\
    (forall s', s' ∈ dir_slots -> s' <> s -> entry (image w') s' = entry (image w) s') /\
    (forall x, 0 <= x < ds ->
       bit_free (disk_bitmap ds (image w')) x
       = bit_free (disk_bitmap ds (image w)) x || bool_decide (x ∈ lst)) /\
    (forall x, 1 <= x -> x <> SECTOR_VTOC -> x <> SECTOR_VTOC2 -> x <> fst s ->
       sector_of (image w') x = sector_of (image w) x).
Proof.
  intros Hv Hfind Hl1 Hfuel Hstart Hlst Hchain.
  pose proof (volume_ok_dir_present _ _ Hv) as Hd.
  assert (1 <= ds <= 1024) as Hds.
  { destruct (volume_ok_size _ _ Hv) as [-> | ->]; done. }
  pose proof Hfind as (Hk & _ & _)%list_find_Some.
  assert (s ∈ dir_slots) as Hs by (by eapply list_elem_of_lookup_2).
  pose proof (dir_slot_not_vtoc s Hs) as Hsdir.
  unfold SECTOR_DIR, SECTOR_DIR_SIZE in Hsdir.
  assert (forall j, 0 <= j < Z.of_nat (length lst) -> list_at lst j ∈ lst) as Hlin.
  { intros j Hj. eapply list_elem_of_lookup_2. by apply list_at_lookup. }
  (* the entry is marked *)
  unfold rm, find_file. unfold bind at 1.
  destruct (find_file_in_run filename true dir_sectors auto_buf w
              (dir_sectors_present _ Hd) length_auto_buf) as (w1 & -> & Ho1 & Hi1).
  fold dir_slots in Hi1 |- *. rewrite Hfind in Hi1 |- *. rewrite Hstart.
  destruct (entries_after_tombstone (image w) s Hd Hs) as (Hl1' & Hflag & Hothers & Hsect).
  rewrite <- Hi1 in Hl1', Hflag, Hothers, Hsect.
  assert (volume_ok ds (image w1)) as Hv1 by (by eapply volume_ok_length).
  destruct (Hlst _ (Hlin 0 ltac:(lia))) as [Hfirst _].
  rewrite decide_True by lia.
  (* the chain is walked *)
  unfold del_file. unfold bind at 1. unfold bind at 1.
  destruct (volume_ok_vtoc _ _ Hv1) as [Hvt Hvt2].
  destruct (getbitmap_run ds auto_buf false w1 Hvt Hvt2) as (w2 & Hget & Hi2 & Ho2).
  cbn zeta in Hget. fold (disk_bitmap ds (image w1)) in Hget. rewrite Hget.
  assert (stdout w2 = stdout w1) as Ho2'.
  { rewrite Ho2. destruct (decide (ds = ED_DISK_SIZE)); by rewrite !app_nil_r. }
  assert (disk_bitmap ds (image w1) = disk_bitmap ds (image w)) as Hbm.
  { apply disk_bitmap_same; apply Hsect; unfold SECTOR_VTOC, SECTOR_VTOC2; lia. }
  rewrite Hbm. set (bitmap := disk_bitmap ds (image w)) in *.
  unfold bind at 1.
  destruct (del_chain_run lst (Z.of_nat (length lst)) eq_refl) with
    (n := length lst) (i := 0) (bitmap := bitmap) (fuel := fuel) (w := w2)
    as (w3 & -> & Hi3 & Ho3).
  - intros i Hi. destruct (Hlst _ (Hlin i Hi)) as [? _]. lia.
  - lia.
  - lia.
  - lia.
  - lia.
  - intros j Hj. destruct (Hlst _ (Hlin j Hj)) as [Hr Hm].
    unfold metadata_sector, SECTOR_VTOC, SECTOR_DIR, SECTOR_DIR_SIZE in Hm.
    rewrite Hi2. split.
    + apply (volume_ok_in_image ds); [done|lia].
    + rewrite Hsect by lia. by apply Hchain.
  - change (Z.to_nat 0) with 0%nat. rewrite drop_0.
    (* the bitmap is written *)
    assert (volume_ok ds (image w3)) as Hv3 by (rewrite Hi3, Hi2; done).
    destruct (volume_ok_vtoc _ _ Hv3) as [Hvt3 Hvt23].
    assert (length (foldl set_bit bitmap lst) = 128%nat) as Hlb.
    { rewrite length_foldl_set. by apply length_disk_bitmap. }
    unfold bind at 1.
    destruct (putbitmap_sectors ds (foldl set_bit bitmap lst) w3 Hvt3 Hvt23 Hlb)
      as (w4 & Hput & Ho4 & Hl4 & _ & _ & Hrest & _).
    rewrite Hput. unfold bind, ret. rewrite decide_False by (intros H; by apply H).
    assert (volume_ok ds (image w4)) as Hv4 by (by eapply volume_ok_length).
    assert (forall s', s' ∈ dir_slots -> entry (image w4) s' = entry (image w1) s') as Hdir.
    { intros s' Hs'. pose proof (dir_slot_not_vtoc s' Hs') as Hr.
      unfold SECTOR_DIR, SECTOR_DIR_SIZE in Hr. unfold entry.
      rewrite Hrest by (unfold SECTOR_VTOC, SECTOR_VTOC2; lia). by rewrite Hi3, Hi2. }
    exists w4. split; [done|]. split; [congruence|]. split; [done|].
    split; [by rewrite Hdir|]. split; [|split].
    + intros s' Hs' Hne. rewrite Hdir by done. by apply Hothers.
    + intros x Hx.
      rewrite (disk_bitmap_after_putbitmap ds (foldl set_bit bitmap lst) w3 w4 Hv3 Hlb Hput)
        by done.
      apply bit_free_foldl_set; [lia|]. apply Forall_forall. intros y Hy.
      destruct (Hlst y Hy) as [Hr _]. unfold bitmap. rewrite length_disk_bitmap by done. lia.
    + intros x Hx Hnv Hnv2 Hns. rewrite Hrest by done. rewrite Hi3, Hi2. by apply Hsect.
Qed.

(** X14 ([rm], [find_file], [del_file]): deleting a file marks its
    entry deleted, by the flag byte alone, and sets the bitmap bits of
    the sectors of its chain; it writes no data sector, so the bytes of
    the file stay on the disk, and no other entry changes.  Afterwards
    a sector is free exactly when it was free or in the chain. *)
Theorem rm_frees_chain_keeps_data (fuel : nat) (ds : Z) (filename : list Z) (ignore : bool)
    (w : world) (k : nat) (s : Z * nat) (lst : list Z) :
  volume_ok ds (image w) ->
  list_find (fun s => names_file filename (entry (image w) s)) dir_slots = Some (k, s) ->
  (1 <= length lst)%nat -> (length lst <= fuel)%nat ->
  start_sector (entry (image w) s) = list_at lst 0 ->
  (forall x, x ∈ lst -> 1 <= x < ds /\ ~ metadata_sector x) ->
  (forall j, 0 <= j < Z.of_nat (length lst) ->
     next_sector (sector_of (image w) (list_at lst j))
     = if decide (j + 1 = Z.of_nat (length lst)) then 0 else list_at lst (j + 1)) ->
  exists w',
    rm fuel ds filename ignore w = Ret 0 w' /\ stdout w' = stdout w /\
    flag (entry (image w') s) = FLAG_DELETED /\
    (forall s', s' ∈ dir_slots -> s' <> s -> entry (image w') s' = entry (image w) s') /\
    (forall x, x ∈ free_indices ds (disk_bitmap ds (image w')) <->
               x ∈ free_indices ds (disk_bitmap ds (image w)) \/ x ∈ lst) /\
    (forall x, x ∈ lst -> sector_of (image w') x = sector_of (image w) x) /\
    (forall x, 1 <= x -> x <> SECTOR_VTOC -> x <> SECTOR_VTOC2 -> x <> fst s ->
       sector_of (image w') x = sector_of (image w) x).
Proof.
  intros Hv Hfind Hl1 Hfuel Hstart Hlst Hchain.
  destruct (rm_run_chain fuel ds filename ignore w k s lst Hv Hfind Hl1 Hfuel Hstart Hlst
              Hchain) as (w' & Hrm & Ho & Hv' & Hflag & Hothers & Hbits & Hframe).
  pose proof Hfind as (Hk & _ & _)%list_find_Some.
  assert (s ∈ dir_slots) as Hs by (by eapply list_elem_of_lookup_2).
  pose proof (dir_slot_not_vtoc s Hs) as Hsd.
  assert (ds <= 1024) by (destruct (volume_ok_size _ _ Hv) as [-> | ->]; done).
  exists w'. split; [done|]. split; [done|]. split; [done|]. split; [done|].
  split; [|split; [|done]].
  - intros x. rewrite !free_indices_range. split.
    + intros [Hx Hfree]. rewrite Hbits in Hfree by lia.
      apply orb_true_iff in Hfree as [Hfree|Hin]; [by left; split|].
      right. by apply bool_decide_eq_true in Hin.
    + intros [[Hx Hfree]|Hin].
      * split; [done|]. rewrite Hbits by lia. by rewrite Hfree.
      * destruct (Hlst x Hin) as [Hx _]. split; [done|]. rewrite Hbits by lia.
        rewrite (bool_decide_eq_true_2 (x ∈ lst)) by done. apply orb_true_r.
  - intros x Hin. destruct (Hlst x Hin) as [Hx Hm].
    unfold metadata_sector, SECTOR_VTOC, SECTOR_DIR, SECTOR_DIR_SIZE in *.
    apply Hframe; [lia|lia|unfold SECTOR_VTOC2; lia|lia].
Qed.

Lemma rm_frees_chain_keeps_data_witness :
  volume_ok 720 (image one_file_sd) /\
  list_find (fun s => names_file test_txt (entry (image one_file_sd) s)) dir_slots
    = Some (0%nat, (SECTOR_DIR, 0%nat)) /\
  (1 <= length [4])%nat /\ (length [4] <= 720)%nat /\
  start_sector (entry (image one_file_sd) (SECTOR_DIR, 0%nat)) = list_at [4] 0 /\
  (forall x, x ∈ [4] -> 1 <= x < 720 /\ ~ metadata_sector x) /\
  (forall j, 0 <= j < Z.of_nat (length [4]) ->
     next_sector (sector_of (image one_file_sd) (list_at [4] j))
     = if decide (j + 1 = Z.of_nat (length [4])) then 0 else list_at [4] (j + 1)) /\
  exists w',
    rm 720 720 test_txt false one_file_sd = Ret 0 w' /\ stdout w' = stdout one_file_sd /\
    flag (entry (image w') (SECTOR_DIR, 0%nat)) = FLAG_DELETED /\
    (forall s', s' ∈ dir_slots -> s' <> (SECTOR_DIR, 0%nat) ->
                entry (image w') s' = entry (image one_file_sd) s') /\
    (forall x, x ∈ free_indices 720 (disk_bitmap 720 (image w')) <->
               x ∈ free_indices 720 (disk_bitmap 720 (image one_file_sd)) \/ x ∈ [4]) /\
    (forall x, x ∈ [4] -> sector_of (image w') x = sector_of (image one_file_sd) x) /\
    (forall x, 1 <= x -> x <> SECTOR_VTOC -> x <> SECTOR_VTOC2 -> x <> fst (SECTOR_DIR, 0%nat) ->
       sector_of (image w') x = sector_of (image one_file_sd) x).
Proof.
  assert (list_find (fun s => names_file test_txt (entry (image one_file_sd) s)) dir_slots
          = Some (0%nat, (SECTOR_DIR, 0%nat))) as Hfind by (vm_compute; reflexivity).
  assert (start_sector (entry (image one_file_sd) (SECTOR_DIR, 0%nat)) = list_at [4] 0)
    as Hstart by (vm_compute; reflexivity).
  assert (forall x, x ∈ [4] -> 1 <= x < 720 /\ ~ metadata_sector x) as Hlst.
  { intros x Hx. apply list_elem_of_singleton in Hx as ->.
    unfold metadata_sector, SECTOR_VTOC. lia. }
  assert (forall j, 0 <= j < Z.of_nat (length [4]) ->
            next_sector (sector_of (image one_file_sd) (list_at [4] j))
            = if decide (j + 1 = Z.of_nat (length [4])) then 0 else list_at [4] (j + 1))
    as Hchain.
  { intros j Hj. assert (j = 0) as -> by (cbn in Hj; lia). vm_compute. reflexivity. }
  assert (1 <= length [4])%nat as Hl1 by (cbn; lia).
  assert (length [4] <= 720)%nat as Hl2 by (cbn; lia).
  split; [exact one_file_sd_volume_ok|]. split; [exact Hfind|]. split; [exact Hl1|].
  split; [exact Hl2|]. split; [exact Hstart|]. split; [exact Hlst|]. split; [exact Hchain|].
  exact (rm_frees_chain_keeps_data 720 720 test_txt false one_file_sd 0 (SECTOR_DIR, 0%nat) [4]
           one_file_sd_volume_ok Hfind Hl1 Hl2 Hstart Hlst Hchain).
Defined.

(** The name is found in its slot once [put_file] has stored it. *)
Lemma find_after_put_file filename (img img1 : list Z) k s first_sect sects :
  list_find (fun s => names_file filename (entry img s)) dir_slots = None ->
  canonical_name filename ->
  dir_slots !! k = Some s ->
  (forall s', s' ∈ dir_slots ->
     entry img1 s' = if decide (s' = s) then new_dirent filename first_sect sects
                     else entry img s') ->
  list_find (fun s' => names_file filename (entry img1 s')) dir_slots = Some (k, s).
Proof.
  intros Hnone Hcanon Hk Hentry. apply list_find_Some. split; [done|]. split.
  - rewrite Hentry by (by eapply list_elem_of_lookup_2). rewrite decide_True by done.
    split; [apply in_use_new_dirent|]. by rewrite getname_new_dirent.
  - intros j sj Hj Hjk. rewrite Hentry by (by eapply list_elem_of_lookup_2).
    rewrite decide_False.
    + apply list_find_None in Hnone. eapply Forall_forall in Hnone; [exact Hnone|].
      by eapply list_elem_of_lookup_2.
    + intros ->. pose proof (NoDup_lookup _ _ _ _ dir_slots_NoDup Hj Hk). lia.
Qed.

(** X15 ([put_file], [rm], [del_file], [mark_space]): deleting a file
    of at least one byte that [put_file] has just stored returns 0 and
    undoes the bookkeeping: the name is no longer found, the slot is
    marked deleted (flag 0x80), every other entry is as before
    [put_file], and the bitmap shows exactly the sectors free that were
    free before. *)
Theorem put_file_then_rm_frees (fuel : nat) (ds : Z) (data filename : list Z) (w : world)
    (k : nat) (s : Z * nat) :
  volume_ok ds (image w) -> (Z.to_nat ds <= fuel)%nat ->
  (1 <= length data)%nat ->
  list_find (fun s => names_file filename (entry (image w) s)) dir_slots = None ->
  canonical_name filename ->
  list_find (fun s => ~ in_use (entry (image w) s)) dir_slots = Some (k, s) ->
  sectors_for (Z.of_nat (length data))
    <= Z.of_nat (length (free_indices ds (disk_bitmap ds (image w)))) ->
  (forall x, x ∈ take (Z.to_nat (sectors_for (Z.of_nat (length data))))
                   (free_indices ds (disk_bitmap ds (image w))) -> ~ metadata_sector x) ->
  exists w1 w2,
    put_file fuel ds data filename w = Ret 0 w1 /\
    rm fuel ds filename false w1 = Ret 0 w2 /\
    stdout w2 = stdout w /\
    list_find (fun s => names_file filename (entry (image w2) s)) dir_slots = None /\
    flag (entry (image w2) s) = FLAG_DELETED /\
    (forall s', s' ∈ dir_slots -> s' <> s -> entry (image w2) s' = entry (image w) s') /\
    (forall x, 0 <= x < ds ->
       bit_free (disk_bitmap ds (image w2)) x = bit_free (disk_bitmap ds (image w)) x) /\
    free_indices ds (disk_bitmap ds (image w2)) = free_indices ds (disk_bitmap ds (image w)).
Proof.
  intros Hv Hfuel Hdata Hnone Hcanon Hempty Hroom Hres.
  destruct (put_file_stores fuel ds data filename w k s Hv Hfuel Hnone Hempty Hroom Hres)
    as (w1 & Hput & Ho1 & Hv1 & Hentry & Hchain & Hbits & _).
  cbn zeta in *.
  set (size := Z.of_nat (length data)) in *.
  set (sects := sectors_for size) in *.
  set (bitmap := disk_bitmap ds (image w)) in *.
  set (lst := take (Z.to_nat sects) (free_indices ds bitmap)) in *.
  destruct (sectors_for_spec size) as [_ Hsz]; [lia|]. fold sects in Hsz.
  assert (1 <= sects) as Hsects by (unfold DATA_SIZE in *; lia).
  assert (1 <= ds <= 1024) as Hds.
  { destruct (volume_ok_size _ _ Hv) as [-> | ->]; done. }
  pose proof (free_indices_length ds bitmap ltac:(lia)) as Hflen.
  assert (Z.of_nat (length lst) = sects) as Hllst by (unfold lst; rewrite length_take; lia).
  pose proof Hempty as (Hk & Hunused & _)%list_find_Some.
  pose proof (lookup_lt_Some _ _ _ Hk) as Hk64. rewrite dir_slots_length in Hk64.
  assert (s ∈ dir_slots) as Hs by (by eapply list_elem_of_lookup_2).
  assert (forall x, x ∈ lst -> 1 <= x < ds /\ ~ metadata_sector x) as Hlst.
  { intros x Hx. split; [by eapply free_indices_take_range|by apply Hres]. }
  assert (forall j, 0 <= j < sects -> list_at lst j ∈ lst) as Hlin.
  { intros j Hj. eapply list_elem_of_lookup_2. apply list_at_lookup. lia. }
  pose proof (find_after_put_file filename (image w) (image w1) k s _ _ Hnone Hcanon Hk Hentry)
    as Hfind1.
  destruct (rm_run_chain fuel ds filename false w1 k s lst Hv1 Hfind1)
    as (w2 & Hrm & Ho2 & Hv2 & Hflag & Hothers & Hbits2 & _).
  - lia.
  - lia.
  - rewrite Hentry by done. rewrite decide_True by done.
    apply start_sector_new_dirent. destruct (Hlst _ (Hlin 0 ltac:(lia))). lia.
  - done.
  - intros j Hj. rewrite Hllst in *. rewrite Hchain by done.
    set (content := take 125 (drop (Z.to_nat (DATA_SIZE * j)) (padded data))).
    assert (length content = 125%nat) as Hc.
    { unfold content. rewrite length_take, length_drop.
      pose proof (length_padded data) as Hp. fold size sects in Hp. unfold DATA_SIZE in *. lia. }
    destruct (decide (j + 1 = sects)) as [Hlast|Hmore].
    + destruct (data_sector_decode content (Z.of_nat k) 0 (size - DATA_SIZE * j))
        as (_ & _ & -> & _); [done|lia|lia|unfold DATA_SIZE in *; lia|done].
    + destruct (Hlst _ (Hlin (j + 1) ltac:(lia))) as [Hr _].
      destruct (data_sector_decode content (Z.of_nat k) (list_at lst (j + 1)) DATA_SIZE)
        as (_ & _ & -> & _); [done|lia|lia|unfold DATA_SIZE; lia|done].
  - assert (forall x, 0 <= x < ds ->
              bit_free (disk_bitmap ds (image w2)) x = bit_free bitmap x) as Hsame.
    { intros x Hx. rewrite Hbits2, Hbits by done.
      destruct (decide (x ∈ lst)) as [Hin|Hout].
      - rewrite (bool_decide_eq_true_2 (x ∈ lst)) by done. rewrite orb_true_r.
        apply (subseteq_take (Z.to_nat sects)) in Hin.
        apply free_indices_range in Hin as [_ ->]. done.
      - rewrite (bool_decide_eq_false_2 (x ∈ lst)) by done.
        rewrite (bool_decide_eq_true_2 (x ∉ lst)) by done.
        by rewrite orb_false_r, andb_true_r. }
    exists w1, w2. split; [done|]. split; [done|]. split; [congruence|].
    split; [|split; [done|split; [|split; [done|]]]].
    + apply list_find_None, Forall_forall. intros s' Hs' [Huse Hname].
      destruct (decide (s' = s)) as [->|Hne].
      * unfold in_use in Huse. rewrite Hflag in Huse. by apply Huse.
      * rewrite Hothers, Hentry in Hname by done. rewrite decide_False in Hname by done.
        rewrite Hothers, Hentry in Huse by done. rewrite decide_False in Huse by done.
        apply list_find_None in Hnone. eapply Forall_forall in Hnone; [|exact Hs'].
        by apply Hnone.
    + intros s' Hs' Hne. rewrite Hothers, Hentry by done. by rewrite decide_False.
    + apply free_indices_agree. intros x Hx. apply Hsame. lia.
Qed.

Lemma put_file_then_rm_frees_witness :
  volume_ok 720 (image fresh_sd) /\ (Z.to_nat 720 <= 720)%nat /\
  (1 <= length (replicate 300 65))%nat /\
  list_find (fun s => names_file test_txt (entry (image fresh_sd) s)) dir_slots = None /\
  canonical_name test_txt /\
  list_find (fun s => ~ in_use (entry (image fresh_sd) s)) dir_slots
    = Some (0%nat, (SECTOR_DIR, 0%nat)) /\
  sectors_for (Z.of_nat (length (replicate 300 65)))
    <= Z.of_nat (length (free_indices 720 (disk_bitmap 720 (image fresh_sd)))) /\
  (forall x, x ∈ take (Z.to_nat (sectors_for (Z.of_nat (length (replicate 300 65)))))
                   (free_indices 720 (disk_bitmap 720 (image fresh_sd))) ->
             ~ metadata_sector x) /\
  exists w1 w2,
    put_file 720 720 (replicate 300 65) test_txt fresh_sd = Ret 0 w1 /\
    rm 720 720 test_txt false w1 = Ret 0 w2 /\
    stdout w2 = stdout fresh_sd /\
    list_find (fun s => names_file test_txt (entry (image w2) s)) dir_slots = None /\
    flag (entry (image w2) (SECTOR_DIR, 0%nat)) = FLAG_DELETED /\
    (forall s', s' ∈ dir_slots -> s' <> (SECTOR_DIR, 0%nat) ->
                entry (image w2) s' = entry (image fresh_sd) s') /\
    (forall x, 0 <= x < 720 ->
       bit_free (disk_bitmap 720 (image w2)) x
       = bit_free (disk_bitmap 720 (image fresh_sd)) x) /\
    free_indices 720 (disk_bitmap 720 (image w2))
    = free_indices 720 (disk_bitmap 720 (image fresh_sd)).
Proof.
  assert (list_find (fun s => names_file test_txt (entry (image fresh_sd) s)) dir_slots = None)
    as Hnone by (vm_compute; reflexivity).
  assert (canonical_name test_txt) as Hcanon by (vm_compute; reflexivity).
  assert (list_find (fun s => ~ in_use (entry (image fresh_sd) s)) dir_slots
          = Some (0%nat, (SECTOR_DIR, 0%nat))) as Hempty by (vm_compute; reflexivity).
  assert (sectors_for (Z.of_nat (length (replicate 300 65)))
          <= Z.of_nat (length (free_indices 720 (disk_bitmap 720 (image fresh_sd)))))
    as Hroom by (vm_compute; discriminate).
  assert (forall x, x ∈ take (Z.to_nat (sectors_for (Z.of_nat (length (replicate 300 65)))))
                          (free_indices 720 (disk_bitmap 720 (image fresh_sd))) ->
                    ~ metadata_sector x) as Hres.
  { apply Forall_forall. apply (bool_decide_unpack _). vm_compute. reflexivity. }
  assert (1 <= length (replicate 300 65))%nat as Hdata by (rewrite length_replicate; lia).
  split; [exact fresh_sd_volume_ok|]. split; [lia|]. split; [exact Hdata|].
  split; [exact Hnone|]. split; [exact Hcanon|]. split; [exact Hempty|].
  split; [exact Hroom|]. split; [exact Hres|].
  exact (put_file_then_rm_frees 720 720 (replicate 300 65) test_txt fresh_sd 0
           (SECTOR_DIR, 0%nat) fresh_sd_volume_ok (Nat.le_refl _) Hdata Hnone Hcanon Hempty
           Hroom Hres).
Defined.

(** ** The empty file, on any volume *)

Lemma read_file_sector_0 fuel cvt f w :
  (1 <= fuel)%nat -> read_file fuel cvt 0 f w = Exit (-1) (say w Oops_sector_0).
Proof. intros Hf. destruct fuel as [|fuel]; [lia|]. reflexivity. Qed.

Lemma del_chain_sector_0 fuel bitmap w :
  (1 <= fuel)%nat -> del_chain fuel bitmap 0 w = Exit (-1) (say w Oops_sector_0).
Proof. intros Hf. destruct fuel as [|fuel]; [lia|]. reflexivity. Qed.

(** X16 ([put_file], [cat], [rm], [getsect]): on every volume that
    has an empty directory slot, [put_file] of an empty file under a new
    name that the directory gives back as it was given returns 0, takes
    no sector and leaves an entry in use whose start sector is 0.  From
    then on [cat] of the name ends the process with "Oops, requested
    sector 0", and so do [rm] and a second [put_file] of the name, [rm]
    after it has marked the entry deleted and before it has written the
    bitmap. *)
Theorem empty_file_ends_in_sector_0 (fuel : nat) (ds : Z) (filename : list Z) (w : world)
    (k : nat) (s : Z * nat) :
  volume_ok ds (image w) -> (Z.to_nat ds <= fuel)%nat ->
  list_find (fun s => names_file filename (entry (image w) s)) dir_slots = None ->
  canonical_name filename ->
  list_find (fun s => ~ in_use (entry (image w) s)) dir_slots = Some (k, s) ->
  exists w1,
    put_file fuel ds [] filename w = Ret 0 w1 /\ stdout w1 = stdout w /\
    in_use (entry (image w1) s) /\ start_sector (entry (image w1) s) = 0 /\
    free_indices ds (disk_bitmap ds (image w1)) = free_indices ds (disk_bitmap ds (image w)) /\
    (forall cvt, exists w2,
       cat fuel cvt filename w1 = Exit (-1) w2 /\
       stdout w2 = stdout w ++ [Oops_sector_0] /\ image w2 = image w1) /\
    (forall ignore, exists w2,
       rm fuel ds filename ignore w1 = Exit (-1) w2 /\
       stdout w2 = stdout w ++ [Oops_sector_0] /\
       flag (entry (image w2) s) = FLAG_DELETED /\
       sector_of (image w2) SECTOR_VTOC = sector_of (image w1) SECTOR_VTOC) /\
    (forall data, exists w2,
       put_file fuel ds data filename w1 = Exit (-1) w2 /\
       stdout w2 = stdout w ++ [Oops_sector_0]).
Proof.
  intros Hv Hfuel Hnone Hcanon Hempty.
  assert (1 <= ds <= 1024) as Hds.
  { destruct (volume_ok_size _ _ Hv) as [-> | ->]; done. }
  destruct (put_file_stores fuel ds [] filename w k s Hv Hfuel Hnone Hempty)
    as (w1 & Hput & Ho1 & Hv1 & Hentry & _ & Hbits & _).
  { change (sectors_for (Z.of_nat (length []))) with 0. lia. }
  { change (sectors_for (Z.of_nat (length []))) with 0. change (Z.to_nat 0) with 0%nat.
    rewrite take_0. intros x Hx. by apply elem_of_nil in Hx. }
  cbn zeta in Hentry, Hbits.
  change (sectors_for (Z.of_nat (@length Z []))) with 0 in Hentry, Hbits.
  change (Z.to_nat 0) with 0%nat in Hentry, Hbits. rewrite take_0 in Hentry, Hbits.
  change (list_at [] 0) with 0 in Hentry.
  pose proof Hempty as (Hk & _ & _)%list_find_Some.
  assert (s ∈ dir_slots) as Hs by (by eapply list_elem_of_lookup_2).
  pose proof (volume_ok_dir_present _ _ Hv1) as Hd1.
  pose proof (find_after_put_file filename (image w) (image w1) k s _ _ Hnone Hcanon Hk Hentry)
    as Hfind1.
  assert (entry (image w1) s = new_dirent filename 0 0) as He.
  { rewrite Hentry by done. by rewrite decide_True. }
  assert (forall ignore, exists w2,
            rm fuel ds filename ignore w1 = Exit (-1) w2 /\
            stdout w2 = stdout w ++ [Oops_sector_0] /\
            flag (entry (image w2) s) = FLAG_DELETED /\
            sector_of (image w2) SECTOR_VTOC = sector_of (image w1) SECTOR_VTOC) as Hrm.
  { intros ignore. unfold rm, find_file. unfold bind at 1.
    destruct (find_file_in_run filename true dir_sectors auto_buf w1
                (dir_sectors_present _ Hd1) length_auto_buf) as (wa & -> & Hoa & Hia).
    fold dir_slots in Hia |- *. rewrite Hfind1 in Hia |- *. rewrite He.
    change (start_sector (new_dirent filename 0 0)) with 0.
    rewrite decide_True by done.
    destruct (entries_after_tombstone (image w1) s Hd1 Hs) as (Hla & Hflag & _ & Hsect).
    rewrite <- Hia in Hla, Hflag, Hsect.
    assert (volume_ok ds (image wa)) as Hva by (by eapply volume_ok_length).
    destruct (volume_ok_vtoc _ _ Hva) as [Hvt Hvt2].
    unfold del_file. unfold bind at 1. unfold bind at 1.
    destruct (getbitmap_run ds auto_buf false wa Hvt Hvt2) as (wb & Hget & Hib & Hob).
    cbn zeta in Hget. rewrite Hget. unfold bind at 1.
    rewrite del_chain_sector_0 by lia.
    eexists. split; [reflexivity|].
    change (image (say wb Oops_sector_0)) with (image wb). rewrite Hib.
    split; [|split; [done|]].
    - unfold say. cbn [stdout]. rewrite Hob, Hoa, Ho1.
      destruct (decide (ds = ED_DISK_SIZE)); by rewrite !app_nil_r.
    - apply Hsect; [done|]. pose proof (dir_slot_not_vtoc s Hs) as Hr.
      unfold SECTOR_VTOC, SECTOR_DIR in *. lia. }
  exists w1. split; [done|]. split; [done|]. rewrite He.
  split; [apply in_use_new_dirent|]. split; [done|].
  split; [|split; [|split; [done|]]].
  - apply free_indices_agree. intros x Hx. rewrite Hbits by lia.
    rewrite bool_decide_eq_true_2 by apply not_elem_of_nil. apply andb_true_r.
  - intros cvt. unfold cat, find_file. unfold bind at 1.
    destruct (find_file_in_run filename false dir_sectors auto_buf w1
                (dir_sectors_present _ Hd1) length_auto_buf) as (wa & -> & Hoa & Hia).
    fold dir_slots in Hia |- *. rewrite Hfind1 in Hia |- *. rewrite He.
    change (start_sector (new_dirent filename 0 0)) with 0.
    rewrite decide_False by done. rewrite read_file_sector_0 by lia.
    eexists. split; [reflexivity|].
    change (image (say wa Oops_sector_0)) with (image wa).
    split; [|done]. unfold say. cbn [stdout]. by rewrite Hoa, Ho1.
  - intros data. destruct (Hrm true) as (w2 & Hrm2 & Ho2 & _).
    exists w2. split; [|done]. unfold put_file. cbn zeta. unfold bind at 1.
    by rewrite Hrm2.
Qed.

Lemma empty_file_ends_in_sector_0_witness :
  volume_ok 720 (image one_file_sd) /\ (Z.to_nat 720 <= 720)%nat /\
  list_find (fun s => names_file [97] (entry (image one_file_sd) s)) dir_slots = None /\
  canonical_name [97] /\
  list_find (fun s => ~ in_use (entry (image one_file_sd) s)) dir_slots
    = Some (1%nat, (SECTOR_DIR, 16%nat)) /\
  exists w1,
    put_file 720 720 [] [97] one_file_sd = Ret 0 w1 /\ stdout w1 = stdout one_file_sd /\
    in_use (entry (image w1) (SECTOR_DIR, 16%nat)) /\
    start_sector (entry (image w1) (SECTOR_DIR, 16%nat)) = 0 /\
    free_indices 720 (disk_bitmap 720 (image w1))
    = free_indices 720 (disk_bitmap 720 (image one_file_sd)) /\
    (forall cvt, exists w2,
       cat 720 cvt [97] w1 = Exit (-1) w2 /\
       stdout w2 = stdout one_file_sd ++ [Oops_sector_0] /\ image w2 = image w1) /\
    (forall ignore, exists w2,
       rm 720 720 [97] ignore w1 = Exit (-1) w2 /\
       stdout w2 = stdout one_file_sd ++ [Oops_sector_0] /\
       flag (entry (image w2) (SECTOR_DIR, 16%nat)) = FLAG_DELETED /\
       sector_of (image w2) SECTOR_VTOC = sector_of (image w1) SECTOR_VTOC) /\
    (forall data, exists w2,
       put_file 720 720 data [97] w1 = Exit (-1) w2 /\
       stdout w2 = stdout one_file_sd ++ [Oops_sector_0]).
Proof.
  assert (list_find (fun s => names_file [97] (entry (image one_file_sd) s)) dir_slots = None)
    as Hnone by (vm_compute; reflexivity).
  assert (canonical_name [97]) as Hcanon by (vm_compute; reflexivity).
  assert (list_find (fun s => ~ in_use (entry (image one_file_sd) s)) dir_slots
          = Some (1%nat, (SECTOR_DIR, 16%nat))) as Hempty by (vm_compute; reflexivity).
  split; [exact one_file_sd_volume_ok|]. split; [lia|]. split; [exact Hnone|].
  split; [exact Hcanon|]. split; [exact Hempty|].
  exact (empty_file_ends_in_sector_0 720 720 [97] one_file_sd 1 (SECTOR_DIR, 16%nat)
           one_file_sd_volume_ok (Nat.le_refl _) Hnone Hcanon Hempty).
Defined.

(** ** Storing a file leaves the other files alone *)

(** [read_file] gives the same bytes on two images that agree on the
    sectors of the chain, whatever the buffer holds on entry. *)
Lemma read_sectors_frame (img img' : list Z) cvt : forall fuel bf s f w w',
  image w = img -> image w' = img' -> length img' = length img ->
  length bf = 128%nat ->
  Forall (fun x => in_image img x /\ sector_of img' x = sector_of img x)
         (chain_sectors fuel img s) ->
  forall out w2, read_sectors fuel cvt bf s f w = Ret out w2 ->
  exists w3, read_sectors fuel cvt bf s f w' = Ret out w3.
Proof.
  induction fuel as [|fuel IH]; intros bf s f w w' Hw Hw' Hlen Hbf Hchain out w2; [done|].
  cbn [chain_sectors] in Hchain. apply Forall_cons in Hchain as [[Hin Hsame] Hchain].
  assert (in_image img' s) as Hin' by (unfold in_image in *; by rewrite Hlen).
  cbn [read_sectors]. unfold bind. rewrite <- Hw in Hin. rewrite <- Hw' in Hin'.
  destruct (getsect_in_image bf s w Hin Hbf) as (w1 & -> & Hi1 & _).
  destruct (getsect_in_image bf s w' Hin' Hbf) as (w1' & -> & Hi1' & _).
  cbn zeta. rewrite Hw, Hw', Hsame. fold (chain_next img s).
  pose proof (length_sector_of _ _ Hin) as Hls. rewrite Hw in Hls.
  destruct (decide (chain_next img s = 0)) as [Hend|Hmore].
  - unfold ret. intros [= <- <-]. by eexists.
  - apply IH; try done; try congruence.
    destruct cvt; [by rewrite length_convert_endings|done].
Qed.

Lemma read_file_frame (img img' : list Z) cvt fuel s f w w' :
  image w = img -> image w' = img' -> length img' = length img ->
  Forall (fun x => in_image img x /\ sector_of img' x = sector_of img x)
         (chain_sectors fuel img s) ->
  forall out w2, read_file fuel cvt s f w = Ret out w2 ->
  exists w3, read_file fuel cvt s f w' = Ret out w3.
Proof.
  intros Hw Hw' Hlen Hchain. unfold read_file.
  by apply (read_sectors_frame img img' cvt fuel auto_buf).
Qed.

(** X17 ([put_file], [cat], [find_file], [read_file]): storing a file
    under a new name leaves every other file as it was: its entry is
    still the first one of its name and, when the sectors of its chain
    are data sectors that the bitmap shows in use and that hold byte
    counts of at most 128, [cat] of it gives the same bytes after
    [put_file] as before. *)
Theorem put_file_keeps_other_files (fuel : nat) (ds : Z) (data filename other : list Z)
    (w : world) (k : nat) (s : Z * nat) (ko : nat) (so : Z * nat) :
  volume_ok ds (image w) -> (Z.to_nat ds <= fuel)%nat ->
  list_find (fun s => names_file filename (entry (image w) s)) dir_slots = None ->
  canonical_name filename ->
  list_find (fun s => ~ in_use (entry (image w) s)) dir_slots = Some (k, s) ->
  sectors_for (Z.of_nat (length data))
    <= Z.of_nat (length (free_indices ds (disk_bitmap ds (image w)))) ->
  (forall x, x ∈ take (Z.to_nat (sectors_for (Z.of_nat (length data))))
                   (free_indices ds (disk_bitmap ds (image w))) -> ~ metadata_sector x) ->
  list_find (fun s => names_file other (entry (image w) s)) dir_slots = Some (ko, so) ->
  Forall (fun x => 1 <= x < ds /\ ~ metadata_sector x /\
                   bit_free (disk_bitmap ds (image w)) x = false /\
                   bytes_used (sector_of (image w) x) <= 128)
         (chain_sectors fuel (image w) (start_sector (entry (image w) so))) ->
  exists w1,
    put_file fuel ds data filename w = Ret 0 w1 /\
    list_find (fun s => names_file other (entry (image w1) s)) dir_slots = Some (ko, so) /\
    entry (image w1) so = entry (image w) so /\
    forall cvt out w2,
      cat fuel cvt other w = Ret out w2 -> exists w3, cat fuel cvt other w1 = Ret out w3.
Proof.
  intros Hv Hfuel Hnone Hcanon Hempty Hroom Hres Hother Hchain.
  destruct (put_file_stores fuel ds data filename w k s Hv Hfuel Hnone Hempty Hroom Hres)
    as (w1 & Hput & Ho1 & Hv1 & Hentry & _ & _ & Hframe).
  cbn zeta in *.
  set (lst := take (Z.to_nat (sectors_for (Z.of_nat (length data))))
                   (free_indices ds (disk_bitmap ds (image w)))) in *.
  pose proof Hempty as (Hk & Hunused & _)%list_find_Some.
  pose proof Hother as (Hko & [Huse Hname] & Hfirst)%list_find_Some.
  assert (s ∈ dir_slots) as Hs by (by eapply list_elem_of_lookup_2).
  assert (so ∈ dir_slots) as Hso by (by eapply list_elem_of_lookup_2).
  assert (so <> s) as Hne by (by intros ->).
  assert (entry (image w1) so = entry (image w) so) as Heo.
  { rewrite Hentry by done. by rewrite decide_False. }
  assert (list_find (fun s => names_file other (entry (image w1) s)) dir_slots = Some (ko, so))
    as Hother1.
  { apply list_find_Some. split; [done|]. split; [by rewrite Heo|].
    intros j sj Hj Hjko [Huj Hnj]. rewrite Hentry in Huj, Hnj by (by eapply list_elem_of_lookup_2).
    destruct (decide (sj = s)) as [->|Hnes].
    - rewrite getname_new_dirent in Hnj. unfold canonical_name in Hcanon.
      apply list_find_None in Hnone. eapply Forall_forall in Hnone; [|exact Hso].
      apply Hnone. split; [done|]. congruence.
    - by apply (Hfirst j sj). }
  exists w1. split; [done|]. split; [done|]. split; [done|].
  intros cvt out w2. unfold cat, find_file. unfold bind.
  destruct (find_file_in_run other false dir_sectors auto_buf w
              (dir_sectors_present _ (volume_ok_dir_present _ _ Hv)) length_auto_buf)
    as (wa & -> & _ & Hia).
  destruct (find_file_in_run other false dir_sectors auto_buf w1
              (dir_sectors_present _ (volume_ok_dir_present _ _ Hv1)) length_auto_buf)
    as (wb & -> & _ & Hib).
  fold dir_slots in Hia, Hib |- *. rewrite Hother in Hia |- *. rewrite Hother1 in Hib |- *.
  rewrite Heo. case_decide as Hstart; [done|].
  apply (read_file_frame (image w) (image w1)); [done|done| |].
  { unfold volume_ok in Hv, Hv1. destruct (volume_ok_size _ _ Hv) as [-> | ->];
      unfold geometry in Hv, Hv1; repeat case_decide; try done; lia. }
  eapply Forall_impl; [exact Hchain|]. intros x (Hx & Hm & Hbit & _). cbn beta. split.
  - apply (volume_ok_in_image ds); [done|lia].
  - pose proof (dir_slot_not_vtoc s Hs) as Hsd.
    unfold metadata_sector, SECTOR_VTOC, SECTOR_DIR, SECTOR_DIR_SIZE in *.
    assert (ds <= 1024) by (destruct (volume_ok_size _ _ Hv) as [-> | ->]; done).
    apply Hframe; [lia| |lia|unfold SECTOR_VTOC2; lia|lia].
    intros Hin. apply (subseteq_take (Z.to_nat (sectors_for (Z.of_nat (length data))))) in Hin.
    apply free_indices_range in Hin as [_ Hfree]. congruence.
Qed.

Lemma put_file_keeps_other_files_witness :
  volume_ok 720 (image one_file_sd) /\ (Z.to_nat 720 <= 720)%nat /\
  list_find (fun s => names_file [97] (entry (image one_file_sd) s)) dir_slots = None /\
  canonical_name [97] /\
  list_find (fun s => ~ in_use (entry (image one_file_sd) s)) dir_slots
    = Some (1%nat, (SECTOR_DIR, 16%nat)) /\
  sectors_for (Z.of_nat (length [1; 2; 3]))
    <= Z.of_nat (length (free_indices 720 (disk_bitmap 720 (image one_file_sd)))) /\
  (forall x, x ∈ take (Z.to_nat (sectors_for (Z.of_nat (length [1; 2; 3]))))
                   (free_indices 720 (disk_bitmap 720 (image one_file_sd))) ->
             ~ metadata_sector x) /\
  list_find (fun s => names_file test_txt (entry (image one_file_sd) s)) dir_slots
    = Some (0%nat, (SECTOR_DIR, 0%nat)) /\
  Forall (fun x => 1 <= x < 720 /\ ~ metadata_sector x /\
                   bit_free (disk_bitmap 720 (image one_file_sd)) x = false /\
                   bytes_used (sector_of (image one_file_sd) x) <= 128)
         (chain_sectors 720 (image one_file_sd)
            (start_sector (entry (image one_file_sd) (SECTOR_DIR, 0%nat)))) /\
  exists w1,
    put_file 720 720 [1; 2; 3] [97] one_file_sd = Ret 0 w1 /\
    list_find (fun s => names_file test_txt (entry (image w1) s)) dir_slots
      = Some (0%nat, (SECTOR_DIR, 0%nat)) /\
    entry (image w1) (SECTOR_DIR, 0%nat) = entry (image one_file_sd) (SECTOR_DIR, 0%nat) /\
    forall cvt out w2,
      cat 720 cvt test_txt one_file_sd = Ret out w2 ->
      exists w3, cat 720 cvt test_txt w1 = Ret out w3.
Proof.
  assert (list_find (fun s => names_file [97] (entry (image one_file_sd) s)) dir_slots = None)
    as Hnone by (vm_compute; reflexivity).
  assert (canonical_name [97]) as Hcanon by (vm_compute; reflexivity).
  assert (list_find (fun s => ~ in_use (entry (image one_file_sd) s)) dir_slots
          = Some (1%nat, (SECTOR_DIR, 16%nat))) as Hempty by (vm_compute; reflexivity).
  assert (sectors_for (Z.of_nat (length [1; 2; 3]))
          <= Z.of_nat (length (free_indices 720 (disk_bitmap 720 (image one_file_sd)))))
    as Hroom by (vm_compute; discriminate).
  assert (forall x, x ∈ take (Z.to_nat (sectors_for (Z.of_nat (length [1; 2; 3]))))
                          (free_indices 720 (disk_bitmap 720 (image one_file_sd))) ->
                    ~ metadata_sector x) as Hres.
  { apply Forall_forall. apply (bool_decide_unpack _). vm_compute. reflexivity. }
  assert (list_find (fun s => names_file test_txt (entry (image one_file_sd) s)) dir_slots
          = Some (0%nat, (SECTOR_DIR, 0%nat))) as Hother by (vm_compute; reflexivity).
  assert (Forall (fun x => 1 <= x < 720 /\ ~ metadata_sector x /\
                           bit_free (disk_bitmap 720 (image one_file_sd)) x = false /\
                           bytes_used (sector_of (image one_file_sd) x) <= 128)
                 (chain_sectors 720 (image one_file_sd)
                    (start_sector (entry (image one_file_sd) (SECTOR_DIR, 0%nat))))) as Hchain.
  { apply (bool_decide_unpack _). vm_compute. reflexivity. }
  split; [exact one_file_sd_volume_ok|]. split; [lia|]. split; [exact Hnone|].
  split; [exact Hcanon|]. split; [exact Hempty|]. split; [exact Hroom|]. split; [exact Hres|].
  split; [exact Hother|]. split; [exact Hchain|].
  exact (put_file_keeps_other_files 720 720 [1; 2; 3] [97] test_txt one_file_sd
           1 (SECTOR_DIR, 16%nat) 0 (SECTOR_DIR, 0%nat)
           one_file_sd_volume_ok (Nat.le_refl _) Hnone Hcanon Hempty Hroom Hres Hother Hchain).
Defined.

(** ** Replacing a file *)

(** [cat] of a name whose entry is the first of that name and whose
    chain holds [data] as [write_file] lays it out. *)
Lemma cat_reads_chain fuel ds data filename w k s file_no lst :
  volume_ok ds (image w) -> (1 <= length data)%nat ->
  list_find (fun s => names_file filename (entry (image w) s)) dir_slots = Some (k, s) ->
  Z.of_nat (length lst) = sectors_for (Z.of_nat (length data)) -> (length lst <= fuel)%nat ->
  start_sector (entry (image w) s) = list_at lst 0 ->
  0 <= file_no < 64 ->
  (forall i, 0 <= i < sectors_for (Z.of_nat (length data)) -> 1 <= list_at lst i < ds) ->
  (forall i, 0 <= i < sectors_for (Z.of_nat (length data)) ->
     sector_of (image w) (list_at lst i) =
     data_sector (take 125 (drop (Z.to_nat (DATA_SIZE * i)) (padded data))) file_no
       (if decide (i + 1 = sectors_for (Z.of_nat (length data))) then 0
        else list_at lst (i + 1))
       (if decide (i + 1 = sectors_for (Z.of_nat (length data)))
        then Z.of_nat (length data) - DATA_SIZE * i else DATA_SIZE)) ->
  exists w2, cat fuel false filename w = Ret data w2 /\
             image w2 = image w /\ stdout w2 = stdout w.
Proof.
  intros Hv Hdata Hfind Hllst Hfuel Hstart Hfile Hrange Hchain.
  set (size := Z.of_nat (length data)) in *.
  set (sects := sectors_for size) in *.
  destruct (sectors_for_spec size) as [_ Hsz]; [lia|]. fold sects in Hsz.
  assert (1 <= sects) as Hsects by (unfold DATA_SIZE in *; lia).
  assert (1 <= ds <= 1024) as Hds.
  { destruct (volume_ok_size _ _ Hv) as [-> | ->]; done. }
  unfold cat, bind, find_file.
  destruct (find_file_in_run filename false dir_sectors auto_buf w
              (dir_sectors_present _ (volume_ok_dir_present _ _ Hv)) length_auto_buf)
    as (w6 & -> & Ho6 & Hi6).
  fold dir_slots in Hi6 |- *. rewrite Hfind in Hi6 |- *. rewrite Hstart.
  pose proof (Hrange 0 ltac:(lia)) as Hfirst. rewrite decide_False by lia.
  destruct (read_file_chain (padded data) lst sects file_no size) with
    (n := Z.to_nat sects) (i := 0) (f := @nil Z) (fuel := fuel) (w := w6)
    as (w7 & Hread & Hi7 & Ho7).
  - apply length_padded.
  - done.
  - intros i Hi. specialize (Hrange i Hi). lia.
  - unfold DATA_SIZE in *. lia.
  - lia.
  - lia.
  - lia.
  - lia.
  - intros j Hj. rewrite Hi6. split; [|by apply Hchain].
    apply (volume_ok_in_image ds); [done|]. specialize (Hrange j Hj). lia.
  - exists w7. split; [|split; congruence]. rewrite Hread. f_equal. rewrite app_nil_l.
    replace (Z.to_nat (DATA_SIZE * 0)) with 0%nat by (unfold DATA_SIZE; lia).
    rewrite drop_0. replace (size - DATA_SIZE * 0) with size by lia.
    unfold padded, size. rewrite Nat2Z.id. apply take_app_length.
Qed.

Lemma length_filter_mono (P Q : Z -> Prop) `{!forall x, Decision (P x)}
    `{!forall x, Decision (Q x)} (l : list Z) :
  Forall (fun x => P x -> Q x) l -> (length (filter P l) <= length (filter Q l))%nat.
Proof.
  induction 1 as [|x l HPQ _ IH]; [done|]. rewrite !filter_cons.
  destruct (decide (P x)) as [HP|HP], (decide (Q x)) as [HQ|HQ]; cbn [length]; try lia.
  exfalso. by apply HQ, HPQ.
Qed.

(** X18 ([put_file], [rm], [del_file], [find_empty_entry],
    [alloc_space], [cat]): [put_file] under the name of an existing
    file replaces it.  The old entry is marked deleted and the sectors
    of the old chain are freed before the new file is stored: the new
    file takes the lowest sectors among those that were free and those
    of the old chain, its entry starts at the first of them, and the
    sectors free afterwards are the rest of them, so every sector of the
    old chain is taken again or free.  The call prints nothing and
    returns 0, and [cat] of the name then gives the new bytes. *)
Theorem put_file_replaces_existing (fuel : nat) (ds : Z) (data filename : list Z) (w : world)
    (k : nat) (s : Z * nat) (old : list Z) :
  volume_ok ds (image w) -> (Z.to_nat ds <= fuel)%nat ->
  (1 <= length data)%nat -> canonical_name filename ->
  list_find (fun s => names_file filename (entry (image w) s)) dir_slots = Some (k, s) ->
  (1 <= length old)%nat -> (length old <= fuel)%nat ->
  start_sector (entry (image w) s) = list_at old 0 ->
  (forall x, x ∈ old -> 1 <= x < ds /\ ~ metadata_sector x) ->
  (forall j, 0 <= j < Z.of_nat (length old) ->
     next_sector (sector_of (image w) (list_at old j))
     = if decide (j + 1 = Z.of_nat (length old)) then 0 else list_at old (j + 1)) ->
  sectors_for (Z.of_nat (length data))
    <= Z.of_nat (length (free_or_old ds (disk_bitmap ds (image w)) old)) ->
  (forall x, x ∈ take (Z.to_nat (sectors_for (Z.of_nat (length data))))
                   (free_or_old ds (disk_bitmap ds (image w)) old) ->
             ~ metadata_sector x) ->
  exists w1 w2 k' s',
    put_file fuel ds data filename w = Ret 0 w1 /\ stdout w1 = stdout w /\
    cat fuel false filename w1 = Ret data w2 /\
    list_find (fun s => names_file filename (entry (image w1) s)) dir_slots = Some (k', s') /\
    (k' <= k)%nat /\
    (s' <> s -> flag (entry (image w1) s) = FLAG_DELETED) /\
    start_sector (entry (image w1) s')
      = list_at (free_or_old ds (disk_bitmap ds (image w)) old) 0 /\
    free_indices ds (disk_bitmap ds (image w1))
      = drop (Z.to_nat (sectors_for (Z.of_nat (length data))))
             (free_or_old ds (disk_bitmap ds (image w)) old) /\
    (forall x, x ∈ old ->
       x ∈ take (Z.to_nat (sectors_for (Z.of_nat (length data))))
                (free_or_old ds (disk_bitmap ds (image w)) old) \/
       x ∈ free_indices ds (disk_bitmap ds (image w1))).
Proof.
  intros Hv Hfuel Hdata Hcanon Hfind Hold1 Holdf Hstart Hold Hchain Hroom Hres.
  assert (1 <= ds <= 1024) as Hds.
  { destruct (volume_ok_size _ _ Hv) as [-> | ->]; done. }
  destruct (rm_run_chain fuel ds filename true w k s old Hv Hfind Hold1 Holdf Hstart Hold
              Hchain) as (wr & Hrm & Hor & Hvr & Hflag & Hothers & Hbitsr & _).
  pose proof Hfind as (Hk & _ & Hfirst)%list_find_Some.
  assert (s ∈ dir_slots) as Hs by (by eapply list_elem_of_lookup_2).
  assert (~ in_use (entry (image wr) s)) as Hunused.
  { unfold in_use. rewrite Hflag. intros Hn. by apply Hn. }
  (* the free sectors that [rm] leaves *)
  assert (free_indices ds (disk_bitmap ds (image wr))
          = free_or_old ds (disk_bitmap ds (image w)) old) as Hfreer.
  { unfold free_indices, free_or_old. apply filter_agree, Forall_forall.
    intros x Hx. apply elem_of_seqZ in Hx. rewrite Hbitsr by lia.
    rewrite orb_true_iff, bool_decide_eq_true. done. }
  rewrite <- Hfreer in Hroom, Hres |- *.
  (* the slot and the sectors that the new file gets *)
  destruct (list_find (fun s => ~ in_use (entry (image wr) s)) dir_slots) as [[k' s']|]
    eqn:Hempty.
  2:{ exfalso. apply list_find_None in Hempty.
      eapply Forall_forall in Hempty; [|exact Hs]. by apply Hempty. }
  pose proof Hempty as (Hk' & _ & Hlow)%list_find_Some.
  assert (k' <= k)%nat as Hkk.
  { destruct (decide (k' <= k)%nat); [done|]. exfalso.
    apply (Hlow k s); [done|lia|done]. }
  set (size := Z.of_nat (length data)) in *.
  set (sects := sectors_for size) in *.
  destruct (put_file_stores_after_rm fuel ds data filename w 0 wr k' s' Hrm Hvr Hfuel Hempty
              Hroom Hres)
    as (w1 & Hput & Ho1 & Hv1 & Hentry & Hsec & Hbits1 & _).
  cbn zeta in Hput, Hentry, Hsec, Hbits1. fold size sects in Hput, Hentry, Hsec, Hbits1.
  set (lst := take (Z.to_nat sects) (free_indices ds (disk_bitmap ds (image wr)))) in *.
  destruct (sectors_for_spec size) as [_ Hsz]; [lia|]. fold sects in Hsz.
  assert (1 <= sects) as Hsects by (unfold DATA_SIZE in *; lia).
  pose proof (free_indices_length ds (disk_bitmap ds (image wr)) ltac:(lia)) as Hflen.
  assert (Z.of_nat (length lst) = sects) as Hllst by (unfold lst; rewrite length_take; lia).
  assert (forall i, 0 <= i < sects -> 1 <= list_at lst i < ds) as Hrange.
  { intros i Hi. eapply free_indices_take_range.
    eapply list_elem_of_lookup_2. apply list_at_lookup. lia. }
  pose proof (lookup_lt_Some _ _ _ Hk') as Hk64. rewrite dir_slots_length in Hk64.
  assert (s' ∈ dir_slots) as Hs' by (by eapply list_elem_of_lookup_2).
  assert (list_find (fun s => names_file filename (entry (image w1) s)) dir_slots
          = Some (k', s')) as Hfind1.
  { apply list_find_Some. split; [done|]. split.
    - rewrite Hentry by done. rewrite decide_True by done.
      split; [apply in_use_new_dirent|]. by rewrite getname_new_dirent.
    - intros j sj Hj Hjk. assert (sj ∈ dir_slots) as Hsj by (by eapply list_elem_of_lookup_2).
      rewrite Hentry by done. rewrite decide_False.
      + rewrite Hothers; [apply (Hfirst j sj Hj); lia|done|].
        intros ->. pose proof (NoDup_lookup _ _ _ _ dir_slots_NoDup Hj Hk). lia.
      + intros ->. pose proof (NoDup_lookup _ _ _ _ dir_slots_NoDup Hj Hk'). lia. }
  assert (start_sector (entry (image w1) s') = list_at lst 0) as Hstart1.
  { rewrite Hentry by done. rewrite decide_True by done.
    apply start_sector_new_dirent. specialize (Hrange 0 ltac:(lia)). lia. }
  assert (free_indices ds (disk_bitmap ds (image w1))
          = drop (Z.to_nat sects) (free_indices ds (disk_bitmap ds (image wr)))) as Hfree1.
  { apply free_indices_after_alloc. intros x Hx. apply Hbits1. lia. }
  destruct (cat_reads_chain fuel ds data filename w1 k' s' (Z.of_nat k') lst Hv1 Hdata Hfind1)
    as (w2 & Hcat & _ & _).
  - done.
  - lia.
  - done.
  - lia.
  - done.
  - done.
  - exists w1, w2, k', s'. split; [done|]. split; [congruence|]. split; [done|].
    split; [done|]. split; [done|]. split; [|split; [|split]].
    + intros Hne. rewrite Hentry by done. rewrite decide_False by done. done.
    + rewrite Hstart1. unfold lst, list_at. rewrite !nth_lookup.
      rewrite lookup_take_lt by lia. done.
    + done.
    + intros x Hx. fold lst. rewrite Hfree1. rewrite <- elem_of_app.
      unfold lst. rewrite take_drop. apply free_indices_range.
      split; [by apply Hold|]. rewrite Hbitsr by (apply Hold in Hx; lia).
      rewrite (bool_decide_eq_true_2 _ Hx). apply orb_true_r.
Qed.

Lemma put_file_replaces_existing_witness :
  volume_ok 720 (image one_file_sd) /\ (Z.to_nat 720 <= 720)%nat /\
  (1 <= length (replicate 300 66))%nat /\ canonical_name test_txt /\
  list_find (fun s => names_file test_txt (entry (image one_file_sd) s)) dir_slots
    = Some (0%nat, (SECTOR_DIR, 0%nat)) /\
  (1 <= length [4])%nat /\ (length [4] <= 720)%nat /\
  start_sector (entry (image one_file_sd) (SECTOR_DIR, 0%nat)) = list_at [4] 0 /\
  (forall x, x ∈ [4] -> 1 <= x < 720 /\ ~ metadata_sector x) /\
  (forall j, 0 <= j < Z.of_nat (length [4]) ->
     next_sector (sector_of (image one_file_sd) (list_at [4] j))
     = if decide (j + 1 = Z.of_nat (length [4])) then 0 else list_at [4] (j + 1)) /\
  sectors_for (Z.of_nat (length (replicate 300 66)))
    <= Z.of_nat (length (free_or_old 720 (disk_bitmap 720 (image one_file_sd)) [4])) /\
  (forall x, x ∈ take (Z.to_nat (sectors_for (Z.of_nat (length (replicate 300 66)))))
                   (free_or_old 720 (disk_bitmap 720 (image one_file_sd)) [4]) ->
             ~ metadata_sector x) /\
  take 3 (free_or_old 720 (disk_bitmap 720 (image one_file_sd)) [4]) = [4; 5; 6] /\
  exists w1 w2 k' s',
    put_file 720 720 (replicate 300 66) test_txt one_file_sd = Ret 0 w1 /\
    stdout w1 = stdout one_file_sd /\
    cat 720 false test_txt w1 = Ret (replicate 300 66) w2 /\
    list_find (fun s => names_file test_txt (entry (image w1) s)) dir_slots = Some (k', s') /\
    (k' <= 0)%nat /\
    (s' <> (SECTOR_DIR, 0%nat) -> flag (entry (image w1) (SECTOR_DIR, 0%nat)) = FLAG_DELETED) /\
    start_sector (entry (image w1) s')
      = list_at (free_or_old 720 (disk_bitmap 720 (image one_file_sd)) [4]) 0 /\
    free_indices 720 (disk_bitmap 720 (image w1))
      = drop (Z.to_nat (sectors_for (Z.of_nat (length (replicate 300 66)))))
             (free_or_old 720 (disk_bitmap 720 (image one_file_sd)) [4]) /\
    (forall x, x ∈ [4] ->
       x ∈ take (Z.to_nat (sectors_for (Z.of_nat (length (replicate 300 66)))))
                (free_or_old 720 (disk_bitmap 720 (image one_file_sd)) [4]) \/
       x ∈ free_indices 720 (disk_bitmap 720 (image w1))).
Proof.
  assert (canonical_name test_txt) as Hcanon by (vm_compute; reflexivity).
  assert (list_find (fun s => names_file test_txt (entry (image one_file_sd) s)) dir_slots
          = Some (0%nat, (SECTOR_DIR, 0%nat))) as Hfind by (vm_compute; reflexivity).
  assert (start_sector (entry (image one_file_sd) (SECTOR_DIR, 0%nat)) = list_at [4] 0)
    as Hstart by (vm_compute; reflexivity).
  assert (forall x, x ∈ [4] -> 1 <= x < 720 /\ ~ metadata_sector x) as Hold.
  { intros x Hx. apply list_elem_of_singleton in Hx as ->.
    unfold metadata_sector, SECTOR_VTOC. lia. }
  assert (forall j, 0 <= j < Z.of_nat (length [4]) ->
            next_sector (sector_of (image one_file_sd) (list_at [4] j))
            = if decide (j + 1 = Z.of_nat (length [4])) then 0 else list_at [4] (j + 1))
    as Hchain.
  { intros j Hj. assert (j = 0) as -> by (cbn in Hj; lia). vm_compute. reflexivity. }
  assert (sectors_for (Z.of_nat (length (replicate 300 66)))
          <= Z.of_nat (length (free_or_old 720 (disk_bitmap 720 (image one_file_sd)) [4])))
    as Hroom by (vm_compute; discriminate).
  assert (forall x, x ∈ take (Z.to_nat (sectors_for (Z.of_nat (length (replicate 300 66)))))
                          (free_or_old 720 (disk_bitmap 720 (image one_file_sd)) [4]) ->
                    ~ metadata_sector x) as Hres.
  { apply Forall_forall. apply (bool_decide_unpack _). vm_compute. reflexivity. }
  assert (take 3 (free_or_old 720 (disk_bitmap 720 (image one_file_sd)) [4]) = [4; 5; 6])
    as Htake by (vm_compute; reflexivity).
  assert (1 <= length (replicate 300 66))%nat as Hdata by (rewrite length_replicate; lia).
  assert (1 <= length [4])%nat as Hl1 by (cbn; lia).
  assert (length [4] <= 720)%nat as Hl2 by (cbn; lia).
  split; [exact one_file_sd_volume_ok|]. split; [lia|]. split; [exact Hdata|].
  split; [exact Hcanon|]. split; [exact Hfind|]. split; [exact Hl1|]. split; [exact Hl2|].
  split; [exact Hstart|]. split; [exact Hold|]. split; [exact Hchain|].
  split; [exact Hroom|]. split; [exact Hres|]. split; [exact Htake|].
  exact (put_file_replaces_existing 720 720 (replicate 300 66) test_txt one_file_sd 0
           (SECTOR_DIR, 0%nat) [4] one_file_sd_volume_ok (Nat.le_refl _) Hdata Hcanon Hfind
           Hl1 Hl2 Hstart Hold Hchain Hroom Hres).
Defined.

(** ** The size of the image *)

Lemma keeps_image_del_sectors fuel : forall buf bitmap sector,
  keeps_image (del_sectors fuel buf bitmap sector).
Proof.
  induction fuel as [|fuel IH]; intros buf bitmap sector; cbn [del_sectors].
  - intros w w' H. done.
  - apply keeps_image_bind; [apply keeps_image_getsect|]. intros bf.
    cbn zeta. case_decide; [apply keeps_image_ret|apply IH].
Qed.

Lemma keeps_image_del_chain fuel bitmap sector :
  keeps_image (del_chain fuel bitmap sector).
Proof. apply keeps_image_del_sectors. Qed.

Lemma length_del_sectors fuel : forall buf bitmap sector w b w',
  del_sectors fuel buf bitmap sector w = Ret b w' -> length b = length bitmap.
Proof.
  induction fuel as [|fuel IH]; intros buf bitmap sector w b w'; [done|].
  cbn [del_sectors]. unfold bind.
  destruct (getsect buf sector w) as [bf w1|code w1|]; [|done|done].
  cbn zeta. case_decide.
  - unfold ret. intros [= <- _]. unfold mark_space, set_bit. by rewrite length_insert.
  - intros Hd. apply IH in Hd. rewrite Hd. unfold mark_space, set_bit.
    by rewrite length_insert.
Qed.

Lemma length_del_chain fuel bitmap sector w b w' :
  del_chain fuel bitmap sector w = Ret b w' -> length b = length bitmap.
Proof. apply length_del_sectors. Qed.

(** [rm] keeps the size of the image, however it ends. *)
Lemma rm_keeps_size fuel ds filename ignore w w' :
  volume_ok ds (image w) ->
  final (rm fuel ds filename ignore w) = Some w' -> length (image w') = length (image w).
Proof.
  intros Hv. pose proof (volume_ok_dir_present _ _ Hv) as Hd.
  unfold rm, find_file. unfold bind at 1.
  destruct (find_file_in_run filename true dir_sectors auto_buf w
              (dir_sectors_present _ Hd) length_auto_buf) as (w1 & -> & _ & Hi1).
  fold dir_slots in Hi1 |- *.
  destruct (list_find _ dir_slots) as [[k s]|] eqn:Hfind.
  - pose proof Hfind as (Hk & _ & _)%list_find_Some.
    assert (s ∈ dir_slots) as Hs by (by eapply list_elem_of_lookup_2).
    destruct (entries_after_tombstone (image w) s Hd Hs) as (Hl1 & _).
    rewrite <- Hi1 in Hl1.
    assert (volume_ok ds (image w1)) as Hv1 by (by eapply volume_ok_length).
    case_decide as Hstart.
    + unfold del_file. unfold bind at 1. unfold bind at 1.
      destruct (volume_ok_vtoc _ _ Hv1) as [Hvt Hvt2].
      destruct (getbitmap_run ds auto_buf false w1 Hvt Hvt2) as (w2 & Hget & Hi2 & _).
      cbn zeta in Hget. rewrite Hget. unfold bind at 1.
      destruct (del_chain fuel _ _ w2) as [b w3|code w3|] eqn:Hdel; [| |done].
      * pose proof (keeps_image_del_chain fuel _ _ w2 w3 ltac:(by rewrite Hdel)) as Hi3.
        apply length_del_chain in Hdel.
        assert (volume_ok ds (image w3)) as Hv3 by (rewrite Hi3, Hi2; done).
        destruct (volume_ok_vtoc _ _ Hv3) as [Hvt3 Hvt23].
        unfold bind at 1.
        destruct (putbitmap_sectors ds b w3 Hvt3 Hvt23) as (w4 & -> & _ & Hl4 & _).
        { rewrite Hdel. fold (disk_bitmap ds (image w1)). by apply length_disk_bitmap. }
        unfold bind, ret. rewrite decide_False by (intros H; by apply H).
        cbn [final]. intros [= <-]. congruence.
      * pose proof (keeps_image_del_chain fuel _ _ w2 w3 ltac:(by rewrite Hdel)) as Hi3.
        cbn [final]. intros [= <-]. congruence.
    + unfold bind, ret, printf. destruct ignore; cbn [final]; intros [= <-]; done.
  - rewrite decide_False by (intros H; by apply H).
    unfold bind, ret, printf. destruct ignore; cbn [final]; intros [= <-];
      [|change (image (say w1 (File_not_found filename))) with (image w1)]; by rewrite Hi1.
Qed.

(** X19 ([rm], [put_file], [putsect]): no command changes the size of
    the image.  [fwrite] would extend the file if a sector beyond its
    end were written; on an image that passed the check of [main] this
    never happens, however [rm] and [put_file] end, so that the image
    passes the check again. *)
Theorem commands_keep_image_size (fuel : nat) (ds : Z) (w : world) :
  volume_ok ds (image w) -> (Z.to_nat ds <= fuel)%nat ->
  (forall filename ignore w',
     final (rm fuel ds filename ignore w) = Some w' -> volume_ok ds (image w')) /\
  (forall data filename w',
     final (put_file fuel ds data filename w) = Some w' -> volume_ok ds (image w')).
Proof.
  intros Hv Hfuel. split.
  - intros filename ignore w' Hf. eapply volume_ok_length; [|exact Hv].
    by eapply rm_keeps_size.
  - intros data filename w'. unfold put_file. cbn zeta. unfold bind at 1.
    destruct (rm fuel ds filename true w) as [r w1|code w1|] eqn:Hrm; [| |done].
    + pose proof (rm_keeps_size fuel ds filename true w w1 Hv ltac:(by rewrite Hrm)) as Hl1.
      assert (volume_ok ds (image w1)) as Hv1 by (by eapply volume_ok_length).
      destruct (volume_ok_vtoc _ _ Hv1) as [Hvt Hvt2]. unfold bind at 1.
      destruct (getbitmap_run ds auto_buf false w1 Hvt Hvt2) as (w2 & Hget & Hi2 & _).
      cbn zeta in Hget. rewrite Hget. unfold bind at 1, find_empty_entry.
      destruct (find_empty_entry_in_run dir_sectors auto_buf w2) as (w3 & -> & _ & Hi3);
        [rewrite Hi2; by apply dir_sectors_present, (volume_ok_dir_present ds)|done|].
      fold dir_slots.
      assert (volume_ok ds (image w3)) as Hv3 by (rewrite Hi3, Hi2; done).
      destruct (list_find _ dir_slots) as [[k s]|] eqn:Hf.
      * apply list_find_Some in Hf as (Hk & _ & _).
        rewrite (slot_number_position k s Hk). rewrite decide_False by lia.
        pose proof (lookup_lt_Some _ _ _ Hk) as Hk64. rewrite dir_slots_length in Hk64.
        destruct (sectors_for_spec (Z.of_nat (length data))) as [Hup Hsz]; [lia|].
        rewrite Hup.
        replace (Z.quot (DATA_SIZE * sectors_for (Z.of_nat (length data))) DATA_SIZE)
          with (sectors_for (Z.of_nat (length data)))
          by (rewrite (Z.mul_comm DATA_SIZE), Z.quot_mul; [done|discriminate]).
        fold (padded data).
        match goal with
        | |- final (put_file_write _ _ ?b _ _ _ _ _ _) = _ -> _ =>
            pose proof (put_file_write_run fuel ds b (padded data) filename (Z.of_nat k)
                          (sectors_for (Z.of_nat (length data))) (Z.of_nat (length data)) w3
                          Hv3 Hfuel ltac:(lia) ltac:(unfold DATA_SIZE in *; lia)
                          (length_padded data) (length_disk_bitmap ds (image w1) Hv1)) as Hw
        end.
        destruct (decide (_ <= _)).
        -- destruct Hw as (w4 & w5 & w6 & -> & _ & _ & _ & _ & _ & Hl6 & _).
           cbn [final]. intros [= <-]. eapply volume_ok_length; [exact Hl6|done].
        -- rewrite Hw. cbn [final]. intros [= <-]. done.
      * rewrite decide_True by done. unfold ret. cbn [final]. intros [= <-]. done.
    + cbn [final]. intros [= <-]. eapply volume_ok_length; [|exact Hv].
      eapply rm_keeps_size; [done|]. by rewrite Hrm.
Qed.

Lemma commands_keep_image_size_witness :
  volume_ok 720 (image one_file_sd) /\ (Z.to_nat 720 <= 720)%nat /\
  (forall filename ignore w',
     final (rm 720 720 filename ignore one_file_sd) = Some w' -> volume_ok 720 (image w')) /\
  (forall data filename w',
     final (put_file 720 720 data filename one_file_sd) = Some w' -> volume_ok 720 (image w')).
Proof.
  split; [exact one_file_sd_volume_ok|]. split; [lia|].
  exact (commands_keep_image_size 720 720 one_file_sd one_file_sd_volume_ok (Nat.le_refl _)).
Defined.
